(** * KrishiMitra: the prediction service and the soil preprocessing script

    A shallow embedding of [Scripts/app.py] (artifact loader and the three
    HTTP handlers) and of [Scripts/preprocess.py], with the properties the
    specification states about them.

    Conventions of the embedding.
    - A decoded JSON value, which is also the Python value the handlers
      work on, is a [json]; a Python [dict] with string keys is a
      [gmap string _].
    - A number of a request is the rational its JSON text denotes ([JNum]).
      A number computed by numpy is a float32: a [spec_float] of the
      Standard Library at precision 24, with its NaN and infinities.
      numpy multiplies a float32 scalar by the Python integer 100 in
      float32: the IEEE product rounded to nearest even ([SFmul]).
      [float(x)] widens a float32 without changing its value, so a Python
      float in a response is given by the same [spec_float] ([JFloat]).
    - numpy, scikit-learn, Keras, pandas and joblib are external: their
      operations are parameters of the sections below, returning [None]
      where the library call raises.
    - A handler runs in a small monad that threads the list of artifact
      invocations and may raise; the [try ... except Exception] of each
      handler turns a raise into the generic 500 response.
    - The script runs in the same monad over the file system and the list
      of its steps.  A write may raise, before or after it has opened its
      file; a split draws from the generator its [random_state] seeds, or
      from the ambient one when there is no seed. *)

From Stdlib Require Import Ascii String QArith Lqa SpecFloat.
From stdpp Require Import gmap strings list fin_maps pretty.

Set Warnings "-register-all".
Local Open Scope string_scope.

(** ** Python values *)

Inductive json : Type :=
  | JNull
  | JBool (b : bool)
  | JNum (q : Q)
  | JFloat (x : spec_float)
  | JStr (s : string)
  | JArr (l : list json)
  | JObj (m : gmap string json).

Module Py.

(** Truth value of [data] as used by [not data]. *)
Definition truthy (v : json) : bool :=
  match v with
  | JNull => false
  | JBool b => b
  | JNum q => negb (Qeq_bool q 0)
  | JFloat x => match x with S754_zero _ => false | _ => true end
  | JStr s => negb (String.eqb s "")
  | JArr l => match l with [] => false | _ => true end
  | JObj m => negb (Nat.eqb (size m) 0)
  end.

(** [len(v)]: defined on strings, lists and dicts, a [TypeError]
    ([None]) on [None], booleans and numbers. *)
Definition len (v : json) : option nat :=
  match v with
  | JStr s => Some (String.length s)
  | JArr l => Some (length l)
  | JObj m => Some (size m)
  | JNull | JBool _ | JNum _ | JFloat _ => None
  end.

Definition is_str (k : string) (v : json) : bool :=
  match v with JStr s => String.eqb s k | _ => false end.

(** [k in v] for a string [k]: key membership on a dict, element
    membership on a list, substring test on a string, a [TypeError]
    otherwise. *)
Definition contains (k : string) (v : json) : option bool :=
  match v with
  | JObj m => Some (match m !! k with Some _ => true | None => false end)
  | JArr l => Some (existsb (is_str k) l)
  | JStr s => Some (match String.index 0 k s with Some _ => true | None => false end)
  | JNull | JBool _ | JNum _ | JFloat _ => None
  end.

(** [v[k]] for a string [k]: the value on a dict ([KeyError] when the key
    is absent), a [TypeError] on everything else. *)
Definition getitem (v : json) (k : string) : option json :=
  match v with
  | JObj m => m !! k
  | _ => None
  end.

(** [k in d] and [d.get(k, dflt)] on a dict. *)
Definition has_key {V} (d : gmap string V) (k : string) : bool :=
  match d !! k with Some _ => true | None => false end.

Definition get (d : gmap string json) (k : string) (dflt : json) : json :=
  match d !! k with Some v => v | None => dflt end.

End Py.

(** ** numpy's float32 *)

Module F32.

Definition prec : Z := 24.
Definition emax : Z := 128.

(** [x * y] on float32: the IEEE product, rounded to nearest even. *)
Definition mul : spec_float -> spec_float -> spec_float := SFmul prec emax.

(** [x < y]; false when either is NaN. *)
Definition ltb : spec_float -> spec_float -> bool := SFltb.

(** A float32 as numpy holds it: a finite one has its mantissa aligned. *)
Definition valid : spec_float -> bool := valid_binary prec emax.

(** The constants [0.5] and [100] as float32. *)
Definition half : spec_float := S754_finite false 8388608 (-24).
Definition hundred : spec_float := S754_finite false 13107200 (-17).

(** The float32 nearest to an integer. *)
Definition of_Z (n : Z) : spec_float := binary_normalize prec emax n 0 false.

(** The rational [m * 2^e]. *)
Definition dyadic (m e : Z) : Q :=
  match e with
  | Zneg n => m # (2 ^ n)%positive
  | _ => inject_Z (m * 2 ^ e)
  end.

(** The number a float stands for; none for NaN and the infinities. *)
Definition value (x : spec_float) : option Q :=
  match x with
  | S754_zero _ => Some 0%Q
  | S754_finite s m e => Some (dyadic (if s then Zneg m else Zpos m) e)
  | S754_infinity _ | S754_nan => None
  end.

(** [r] is the integer [M] shifted right by [k] bits: the round bit is the
    first bit shifted out, the sticky bit tells whether a later one is
    set. *)
Definition shifted_from (M k : Z) (r : shr_record) : Prop :=
  (shr_m r = M / 2 ^ k
   /\ (shr_r r = true <-> 2 ^ k <= 2 * (M mod 2 ^ k))
   /\ (shr_s r = true <-> M mod 2 ^ k <> 0 /\ 2 * (M mod 2 ^ k) <> 2 ^ k))%Z.

(** A mantissa and an exponent that stand for at most [25 * 2^k]: at most
    100 for [k = 2], at most 50 for [k = 1]. *)
Definition at_most (k m e : Z) : Prop :=
  (e <= k /\ 0 <= m <= 25 * 2 ^ (k - e))%Z.

End F32.

(** ** Responses *)

(** [jsonify(dict)] builds a JSON object; a handler returns it with a
    status code. *)
Definition jsonify (kvs : list (string * json)) : json :=
  JObj (list_to_map kvs).

Record response : Type := Response { body : json; status : Z }.

Definition error_response (msg : string) (code : Z) : response :=
  Response (jsonify [("error", JStr msg)]) code.

(** ** A monad for state and exceptions

    [M S A] is a computation over a state [S] that returns an [A] or
    raises; the state reached at a raise is kept, as in Python. *)

Definition M (S A : Type) : Type := S -> option A * S.

Definition ret {S A} (a : A) : M S A := fun s => (Some a, s).
Definition raise {S A} : M S A := fun s => (None, s).
Definition bind {S A B} (c : M S A) (k : A -> M S B) : M S B :=
  fun s => match c s with
           | (Some a, s') => k a s'
           | (None, s') => (None, s')
           end.
Definition lift {S A} (o : option A) : M S A :=
  match o with Some a => ret a | None => raise end.
Definition get_state {S} : M S S := fun s => (Some s, s).
Definition modify {S} (f : S -> S) : M S unit := fun s => (Some tt, f s).

(** [try: c  except Exception: (log only)]. *)
Definition attempt {S} (c : M S unit) : M S unit :=
  fun s => (Some tt, snd (c s)).

Notation "'let*' x ':=' c 'in' k" := (bind c (fun x => k))
  (at level 10, x name, c at level 100, k at level 200).

(** ** Invocations of loaded artifacts *)

Inductive event : Type :=
  | EvTransform (name : string)
  | EvPredict (name : string).

(** A handler threads the list of invocations made so far. *)
Abbreviation H := (M (list event)).

Definition emit (e : event) : H unit := modify (fun tr => (tr ++ [e])%list).

(** [all(k in data for k in names)]: stops at the first [False]. *)
Fixpoint all_in (names : list string) (data : json) : H bool :=
  match names with
  | [] => ret true
  | k :: rest =>
      let* b := lift (Py.contains k data) in
      if b then all_in rest data else ret false
  end.

(** [[data[k] for k in names]]. *)
Fixpoint collect (data : json) (names : list string) : H (list json) :=
  match names with
  | [] => ret []
  | k :: rest =>
      let* v := lift (Py.getitem data k) in
      let* vs := collect data rest in
      ret (v :: vs)
  end.

(** The two prediction capabilities, their key in the mappings, their
    handler and the message sent when the capability is not loaded. *)
Inductive capability : Type := Soil | Weather.

Definition key_of (c : capability) : string :=
  match c with Soil => "soil" | Weather => "weather" end.

Definition unavailable (c : capability) : string :=
  match c with
  | Soil => "Soil analysis model not loaded"
  | Weather =>
      "Weather prediction model or scaler not loaded. Please ensure the weather model and scaler files are available."
  end.

Definition is_predict (e : event) : bool :=
  match e with EvPredict _ => true | EvTransform _ => false end.

(** The flag the health check reports for a capability:
    [body["models_loaded"][name]]. *)
Definition reported (r : response) (name : string) : option json :=
  match body r with
  | JObj b =>
      match b !! "models_loaded" with
      | Some (JObj flags) => flags !! name
      | _ => None
      end
  | _ => None
  end.

(** The array a weather request carries: the body itself when it is a
    JSON array, the value under ["data"] when it is a JSON object. *)
Definition payload (request_json data : json) : Prop :=
  match request_json with
  | JArr _ => data = request_json
  | JObj d => d !! "data" = Some data
  | _ => False
  end.

(** The name under which the health check reports a capability. *)
Definition flag_of (c : capability) : string :=
  match c with Soil => "soil_analysis" | Weather => "weather_prediction" end.

(** What lines 201 to 207 of the weather handler leave in [data]: the value
    under ["data"] ([None] when the key is absent) for an object, the body
    itself for an array, nothing for any other body. *)
Definition weather_data (request_json : json) : option json :=
  match request_json with
  | JObj d => Some (Py.get d "data" JNull)
  | JArr _ => Some request_json
  | _ => None
  end.

(** ** The HTTP service *)

Section Service.

(** numpy arrays and the three numpy operations the handlers use. *)
Context {ndarray : Type}.
Variable np_array : json -> option ndarray.
Variable np_reshape : list Z -> ndarray -> option ndarray.
(** [a[0][0]], a float32 scalar. *)
Variable np_item00 : ndarray -> option spec_float.

(** A loaded Keras model and a loaded scaler, by their one method. *)
Record Model : Type := { predict : ndarray -> option ndarray }.
Record Scaler : Type := { transform : ndarray -> option ndarray }.

(** The two module-level mappings, set once at start-up. *)
Record artifacts : Type :=
  { MODELS : gmap string Model; SCALERS : gmap string Scaler }.

Definition call_transform (name : string) (s : Scaler) (x : ndarray) : H ndarray :=
  let* _ := emit (EvTransform name) in lift (transform s x).

Definition call_predict (name : string) (m : Model) (x : ndarray) : H ndarray :=
  let* _ := emit (EvPredict name) in lift (predict m x).

(** *** [GET /] *)

Definition index (env : artifacts) : response :=
  Response
    (jsonify
       [("status", JStr "healthy");
        ("models_loaded",
         jsonify
           [("soil_analysis", JBool (Py.has_key (MODELS env) "soil"));
            ("weather_prediction", JBool (Py.has_key (MODELS env) "weather"))])])
    200.

(** *** [POST /soil-analysis] *)

Definition feature_names : list string :=
  ["N"; "P"; "K"; "pH"; "EC"; "OC"; "S"; "Zn"; "Fe"; "Cu"; "Mn"; "B"].

(** ["High" if p > 0.5 else "Low"]. *)
Definition fertility (p : spec_float) : string :=
  if F32.ltb F32.half p then "High" else "Low".

Definition soil_analysis_try (env : artifacts) (request_json : json) : H response :=
  if negb (Py.has_key (MODELS env) "soil") || negb (Py.has_key (SCALERS env) "soil")
  then ret (error_response "Soil analysis model not loaded" 500)
  else
    let data := request_json in
    if negb (Py.truthy data)
    then ret (error_response "No soil data provided" 400)
    else
      let* present := all_in feature_names data in
      if negb present
      then ret (error_response "Missing required soil features" 400)
      else
        let* features := collect data feature_names in
        let* features_array := lift (np_array (JArr [JArr features])) in
        let* scaler := lift (SCALERS env !! "soil") in
        let* scaled_features := call_transform "soil" scaler features_array in
        let* model := lift (MODELS env !! "soil") in
        let* prediction := call_predict "soil" model scaled_features in
        let* p00 := lift (np_item00 prediction) in
        let fertility_status := fertility p00 in
        let confidence := F32.mul p00 F32.hundred in
        ret (Response
               (jsonify [("fertility_status", JStr fertility_status);
                         ("confidence", JFloat confidence)])
               200).

Definition soil_analysis (env : artifacts) (request_json : json)
  : response * list event :=
  match soil_analysis_try env request_json [] with
  | (Some r, tr) => (r, tr)
  | (None, tr) =>
      (error_response "Internal server error during soil analysis" 500, tr)
  end.

(** *** [POST /weather-prediction] *)

Definition size_message (n : nat) : string :=
  "Invalid input size. Expected a JSON array with exactly 3 values, but got "
    ++ pretty n ++ " values.".

(** The handler from the size validation on, [data] being the payload. *)
Definition weather_predict_data (env : artifacts) (data : json) : H response :=
  let* rejected :=
    (if negb (Py.truthy data) then ret true
     else let* n := lift (Py.len data) in ret (negb (Nat.eqb n 3))) in
  if (rejected : bool)
  then
    let* n := lift (Py.len data) in
    ret (error_response (size_message n) 400)
  else
    let* arr := lift (np_array data) in
    let* input_array := lift (np_reshape [1; 1; 3]%Z arr) in
    let* rows := lift (np_reshape [-1; 3]%Z input_array) in
    let* scaler := lift (SCALERS env !! "weather") in
    let* scaled := call_transform "weather" scaler rows in
    let* scaled_features := lift (np_reshape [1; 1; 3]%Z scaled) in
    let* model := lift (MODELS env !! "weather") in
    let* prediction := call_predict "weather" model scaled_features in
    let* p00 := lift (np_item00 prediction) in
    ret (Response (jsonify [("predicted_temperature", JFloat p00)]) 200).

Definition weather_prediction_try (env : artifacts) (request_json : json) : H response :=
  if negb (Py.has_key (MODELS env) "weather") || negb (Py.has_key (SCALERS env) "weather")
  then ret (error_response
              "Weather prediction model or scaler not loaded. Please ensure the weather model and scaler files are available."
              500)
  else
    match request_json with
    | JObj d => weather_predict_data env (Py.get d "data" JNull)
    | JArr _ => weather_predict_data env request_json
    | _ => ret (error_response
                  "Invalid input format. Expected a JSON array or object." 400)
    end.

Definition weather_prediction (env : artifacts) (request_json : json)
  : response * list event :=
  match weather_prediction_try env request_json [] with
  | (Some r, tr) => (r, tr)
  | (None, tr) =>
      (error_response "Internal server error during weather prediction" 500, tr)
  end.

(** *** The two prediction endpoints, by capability *)

Definition handler (c : capability) (env : artifacts) (request_json : json)
  : response * list event :=
  match c with
  | Soil => soil_analysis env request_json
  | Weather => weather_prediction env request_json
  end.

Definition both_loaded (c : capability) (env : artifacts) : bool :=
  Py.has_key (MODELS env) (key_of c) && Py.has_key (SCALERS env) (key_of c).

End Service.

(** ** Paths ([posixpath]) *)

Module Path.

Definition is_sep (c : ascii) : bool := Ascii.eqb c "/"%char.

Definition starts_with_sep (s : string) : bool :=
  match s with
  | String c _ => is_sep c
  | EmptyString => false
  end.

Fixpoint ends_with_sep (s : string) : bool :=
  match s with
  | EmptyString => false
  | String c EmptyString => is_sep c
  | String _ rest => ends_with_sep rest
  end.

(** One round of the loop of [os.path.join]. *)
Definition join2 (path b : string) : string :=
  if starts_with_sep b then b
  else if String.eqb path "" || ends_with_sep path then path ++ b
  else path ++ "/" ++ b.

(** [os.path.join(a, *p)]. *)
Definition join (a : string) (p : list string) : string :=
  foldl join2 a p.

(** [p[:p.rfind('/') + 1]]. *)
Fixpoint head (p : string) : string :=
  match p with
  | EmptyString => ""
  | String c rest =>
      let h := head rest in
      if String.eqb h "" then (if is_sep c then "/" else "")
      else String c h
  end.

Fixpoint all_sep (s : string) : bool :=
  match s with
  | EmptyString => true
  | String c rest => is_sep c && all_sep rest
  end.

(** [s.rstrip('/')]. *)
Fixpoint rstrip_sep (s : string) : string :=
  match s with
  | EmptyString => ""
  | String c rest => if all_sep s then "" else String c (rstrip_sep rest)
  end.

(** [os.path.dirname(p)]. *)
Definition dirname (p : string) : string :=
  let h := head p in
  if negb (String.eqb h "") && negb (all_sep h) then rstrip_sep h else h.

(** A path handed to the operating system by a process whose working
    directory is [cwd]. *)
Definition resolve (cwd p : string) : string := join2 cwd p.

(** A single path component: no separator in it. *)
Fixpoint no_sep (s : string) : bool :=
  match s with
  | EmptyString => true
  | String c rest => negb (is_sep c) && no_sep rest
  end.

End Path.

(** ** The file system

    Files are identified by their path string, compared exactly (a
    case-sensitive file system without links); [content] is what a file
    holds.  A write that completes creates or replaces the file at the
    path. *)

Section Files.

Context {content : Type}.

Definition path_exists (fs : gmap string content) (p : string) : bool :=
  Py.has_key fs p.

Definition write_file (p : string) (c : content) (fs : gmap string content)
  : gmap string content :=
  <[p := c]> fs.

End Files.

(** ** The artifact loader ([load_models_and_scalers]) *)

Section Loader.

Context {ndarray content : Type}.

(** [os.path.abspath(__file__)] of [app.py]. *)
Variable app_file : string.

(** Keras [load_model] (with or without [custom_objects]) and
    [joblib.load], applied to what the file holds. *)
Variable load_model : bool -> content -> option (@Model ndarray).
Variable joblib_load : content -> option (@Scaler ndarray).

(** [import_module_from_file(file_path, module_name)]: runs the script. *)
Variable import_module_from_file : string -> string -> M (gmap string content) unit.

Definition current_dir : string := Path.dirname app_file.
Definition scripts_dir : string := current_dir.
Definition project_root : string := Path.dirname current_dir.

Definition soil_model_path : string :=
  Path.join project_root ["Models"; "Soil_Analysis"; "soil_tabular_model.h5"].
Definition soil_scaler_path : string :=
  Path.join project_root ["Models"; "Soil_analysis"; "scaler.pkl"].
Definition weather_model_path : string :=
  Path.join project_root ["Models"; "Weather_Forecast"; "weather_model.h5"].
Definition weather_scaler_path : string :=
  Path.join project_root ["Models"; "Weather_Forecast"; "scaler.pkl"].

Definition preprocess_path : string := Path.join scripts_dir ["preprocess.py"].
Definition train_soil_path : string :=
  Path.join project_root ["Models"; "Soil_analysis"; "train_soil_model.py"].
Definition train_weather_path : string :=
  Path.join project_root ["Models"; "Weather_Forecast"; "train_weather_model.py"].

(** [if needed: try: if exists(script): import ... except: log]. *)
Definition build_step (needed : gmap string content -> bool)
    (script name : string) : M (gmap string content) unit :=
  let* fs := get_state in
  if needed fs
  then attempt (let* fs' := get_state in
                if path_exists fs' script
                then import_module_from_file script name
                else ret tt)
  else ret tt.

Definition build_phase : M (gmap string content) unit :=
  let* _ := build_step
              (fun fs => negb (path_exists fs soil_scaler_path)
                         || negb (path_exists fs
                                    (Path.join project_root
                                       ["data"; "soil"; "X_train_scaled.csv"])))
              preprocess_path "preprocess" in
  let* _ := build_step (fun fs => negb (path_exists fs soil_model_path))
              train_soil_path "train_soil" in
  build_step (fun fs => negb (path_exists fs weather_model_path)
                        || negb (path_exists fs weather_scaler_path))
    train_weather_path "train_weather".

(** The two dicts being filled by the loading phase. *)
Abbreviation dicts := (gmap string (@Model ndarray) * gmap string (@Scaler ndarray))%type.

Definition set_model (name : string) (m : @Model ndarray) : M dicts unit :=
  modify (fun d => (<[name := m]> (fst d), snd d)).
Definition set_scaler (name : string) (s : @Scaler ndarray) : M dicts unit :=
  modify (fun d => (fst d, <[name := s]> (snd d))).

(** [if os.path.exists(path): dict[name] = loader(path)]. *)
Definition load_if_present {A} (fs : gmap string content) (path : string)
    (loader : content -> option A) (store : A -> M dicts unit) : M dicts unit :=
  if path_exists fs path
  then let* c := lift (fs !! path) in
       let* a := lift (loader c) in
       store a
  else ret tt.

(** The body of the [try] of the loading phase. *)
Definition load_try (fs : gmap string content) : M dicts unit :=
  let* _ := load_if_present fs soil_model_path (load_model false) (set_model "soil") in
  let* _ := load_if_present fs soil_scaler_path joblib_load (set_scaler "soil") in
  let* _ := load_if_present fs weather_model_path (load_model true) (set_model "weather") in
  load_if_present fs weather_scaler_path joblib_load (set_scaler "weather").

(** [try: ... except Exception: models = {}; scalers = {}]. *)
Definition load_phase (fs : gmap string content) : dicts :=
  match load_try fs (∅, ∅) with
  | (Some _, d) => d
  | (None, _) => (∅, ∅)
  end.

(** Loading the file at [path] raises: the file is there and the loader
    rejects what it holds. *)
Definition load_raises {A} (fs : gmap string content) (path : string)
    (loader : content -> option A) : bool :=
  match fs !! path with
  | Some c => match loader c with Some _ => false | None => true end
  | None => false
  end.

(** One of the four loads of the loading phase raises. *)
Definition loading_raises (fs : gmap string content) : bool :=
  load_raises fs soil_model_path (load_model false)
  || load_raises fs soil_scaler_path joblib_load
  || load_raises fs weather_model_path (load_model true)
  || load_raises fs weather_scaler_path joblib_load.

(** The function: the mappings it returns and the file system it leaves. *)
Definition load_models_and_scalers (fs : gmap string content)
  : dicts * gmap string content :=
  let fs' := snd (build_phase fs) in
  (load_phase fs', fs').

(** [MODELS, SCALERS = load_models_and_scalers()]: the mappings the
    handlers serve from. *)
Definition startup (fs : gmap string content) : @artifacts ndarray :=
  let d := fst (load_models_and_scalers fs) in
  {| MODELS := fst d; SCALERS := snd d |}.

(** The derived data whose absence triggers preprocessing, and the three
    conditions under which a build step is attempted. *)
Definition soil_training_csv : string :=
  Path.join project_root ["data"; "soil"; "X_train_scaled.csv"].

Definition preprocess_needed (fs : gmap string content) : bool :=
  negb (path_exists fs soil_scaler_path) || negb (path_exists fs soil_training_csv).
Definition soil_training_needed (fs : gmap string content) : bool :=
  negb (path_exists fs soil_model_path).
Definition weather_training_needed (fs : gmap string content) : bool :=
  negb (path_exists fs weather_model_path) || negb (path_exists fs weather_scaler_path).

(** The model file and the scaler file of a capability. *)
Definition model_path (c : capability) : string :=
  match c with Soil => soil_model_path | Weather => weather_model_path end.
Definition scaler_file_path (c : capability) : string :=
  match c with Soil => soil_scaler_path | Weather => weather_scaler_path end.

End Loader.

(** ** The preprocessing script ([preprocess.py]) *)

Section Preprocess.

(** File contents, tabular values (a [DataFrame], a [Series] or an array),
    a fitted [StandardScaler] and the state of a random generator. *)
Context {content frame fitted rng : Type}.

(** pandas. *)
Variable read_csv : content -> option frame.
Variable drop_columns : list string -> frame -> option frame.
Variable column : string -> frame -> option frame.
(** [pd.DataFrame(values, columns=like.columns)] and [pd.DataFrame(values)]. *)
Variable DataFrame_columns_of : frame -> frame -> option frame.
Variable DataFrame : frame -> option frame.
(** [df.to_csv(path, index=False)]: the text a complete write leaves. *)
Variable to_csv : frame -> content.

(** scikit-learn.  [train_test_split] shuffles with a generator: the one
    seeded by [random_state] when it is an integer ([RandomState(seed)]),
    numpy's global generator, in the state the process happens to have
    ([ambient]), when it is [None]. *)
Variable RandomState : Z -> rng.
Variable shuffle_split :
  frame -> frame -> Q -> rng -> option (frame * frame * frame * frame).
Variable ambient : rng.
(** [fit] and [transform] of a [StandardScaler]. *)
Variable fit : frame -> option fitted.
Variable transform_with : fitted -> frame -> option frame.

(** [joblib.dump(obj, path)]: the bytes a complete write leaves. *)
Variable joblib_dump : fitted -> content.

(** Writing [c] to the file at a path ([to_csv], [joblib.dump]) can raise
    (a missing directory, a full disk): [write_error fs path c] is [None]
    when the write completes, [Some None] when it raises and leaves the
    file system as it was, [Some (Some c')] when it raises after it has
    opened the file, which then holds [c']. *)
Variable write_error :
  gmap string content -> string -> content -> option (option content).

(** The working directory of the process that runs the script. *)
Variable cwd : string.

(** What the script does, in the order it does it. *)
Inductive op : Type :=
  | OpRead (path : string)
  | OpSplit (test_size : Q) (random_state : Z)
  | OpFit (X : frame)
  | OpTransform (X : frame)
  | OpWrite (path : string).

Record pstate : Type := PState { files : gmap string content; oplog : list op }.

Abbreviation P := (M pstate).

Definition log (o : op) : P unit :=
  modify (fun s => PState (files s) (oplog s ++ [o])%list).

Definition read_file (p : string) : P content :=
  let* _ := log (OpRead (Path.resolve cwd p)) in
  let* s := get_state in
  lift (files s !! Path.resolve cwd p).

Definition save (p : string) (c : content) : P unit :=
  let* _ := log (OpWrite (Path.resolve cwd p)) in
  let* s := get_state in
  match write_error (files s) (Path.resolve cwd p) c with
  | None =>
      modify (fun s => PState (write_file (Path.resolve cwd p) c (files s)) (oplog s))
  | Some None => raise
  | Some (Some c') =>
      let* _ := modify (fun s => PState (write_file (Path.resolve cwd p) c' (files s))
                                   (oplog s)) in
      raise
  end.

(** [train_test_split(X, y, test_size=..., random_state=...)]. *)
Definition train_test_split (X y : frame) (test_size : Q) (random_state : option Z)
  : option (frame * frame * frame * frame) :=
  shuffle_split X y test_size
    (match random_state with
     | Some seed => RandomState seed
     | None => ambient
     end).

Definition split (X y : frame) (test_size : Q) (random_state : Z)
  : P (frame * frame * frame * frame) :=
  let* _ := log (OpSplit test_size random_state) in
  lift (train_test_split X y test_size (Some random_state)).

(** [scaler.transform(X)]. *)
Definition scaler_transform (sc : fitted) (X : frame) : P frame :=
  let* _ := log (OpTransform X) in
  lift (transform_with sc X).

(** [scaler.fit_transform(X)], which is [scaler.fit(X).transform(X)]. *)
Definition scaler_fit_transform (X : frame) : P (fitted * frame) :=
  let* _ := log (OpFit X) in
  let* sc := lift (fit X) in
  let* Xs := scaler_transform sc X in
  ret (sc, Xs).

Definition csv_path : string := "Data/Soil/soil_data.csv".
Definition X_train_path : string := "Data/Soil/X_train_scaled.csv".
Definition X_test_path : string := "Data/Soil/X_test_scaled.csv".
Definition y_train_path : string := "Data/Soil/y_train.csv".
Definition y_test_path : string := "Data/Soil/y_test.csv".
Definition scaler_path : string := "Models/Soil_Analysis/scaler.pkl".

(** Lines 7 to 15: the data set and its partition. *)
Definition load_and_split : P (frame * (frame * frame * frame * frame)) :=
  let* text := read_file csv_path in
  let* data := lift (read_csv text) in
  let* X := lift (drop_columns ["Output"] data) in
  let* y := lift (column "Output" data) in
  let* parts := split X y (2 # 10) 42 in
  ret (X, parts).

(** The whole script. *)
Definition preprocess : P unit :=
  let* Xp := load_and_split in
  let '(X, (X_train, X_test, y_train, y_test)) := Xp in
  let* fitted_train := scaler_fit_transform X_train in
  let '(scaler, X_train_scaled) := fitted_train in
  let* X_test_scaled := scaler_transform scaler X_test in
  let* df1 := lift (DataFrame_columns_of X_train_scaled X) in
  let* _ := save X_train_path (to_csv df1) in
  let* df2 := lift (DataFrame_columns_of X_test_scaled X) in
  let* _ := save X_test_path (to_csv df2) in
  let* df3 := lift (DataFrame y_train) in
  let* _ := save y_train_path (to_csv df3) in
  let* df4 := lift (DataFrame y_test) in
  let* _ := save y_test_path (to_csv df4) in
  save scaler_path (joblib_dump scaler).

(** The paths the script writes to, and the file system after it has
    written [c1] ... [c5] there. *)
Definition output_paths : list string :=
  Path.resolve cwd <$> [X_train_path; X_test_path; y_train_path; y_test_path; scaler_path].

Definition written (c1 c2 c3 c4 c5 : content) (fs : gmap string content)
  : gmap string content :=
  write_file (Path.resolve cwd scaler_path) c5
    (write_file (Path.resolve cwd y_test_path) c4
       (write_file (Path.resolve cwd y_train_path) c3
          (write_file (Path.resolve cwd X_test_path) c2
             (write_file (Path.resolve cwd X_train_path) c1 fs)))).

(** The steps of a run in which every library call answers. *)
Definition steps_of (X_train X_test : frame) : list op :=
  [OpRead (Path.resolve cwd csv_path); OpSplit (2 # 10) 42;
   OpFit X_train; OpTransform X_train; OpTransform X_test;
   OpWrite (Path.resolve cwd X_train_path); OpWrite (Path.resolve cwd X_test_path);
   OpWrite (Path.resolve cwd y_train_path); OpWrite (Path.resolve cwd y_test_path);
   OpWrite (Path.resolve cwd scaler_path)].

(** The writes [ws], made in this order from [fs], all complete. *)
Fixpoint writes_complete (fs : gmap string content) (ws : list (string * content))
  : bool :=
  match ws with
  | [] => true
  | (p, c) :: rest =>
      match write_error fs p c with
      | None => writes_complete (write_file p c fs) rest
      | Some _ => false
      end
  end.

(** The five writes of the script, for the contents [c1] ... [c5]. *)
Definition script_writes (c1 c2 c3 c4 c5 : content) : list (string * content) :=
  [(Path.resolve cwd X_train_path, c1); (Path.resolve cwd X_test_path, c2);
   (Path.resolve cwd y_train_path, c3); (Path.resolve cwd y_test_path, c4);
   (Path.resolve cwd scaler_path, c5)].

(** A computation that leaves every file outside [W] as it was, whether
    it returns or raises. *)
Definition keeps {A} (W : list string) (c : P A) : Prop :=
  forall s p, p ∉ W -> files (snd (c s)) !! p = files s !! p.

(** The script run on a file system, with nothing logged yet. *)
Definition run_preprocess (fs : gmap string content) : option unit * pstate :=
  preprocess (PState fs []).

End Preprocess.

(** ** A small instance of the libraries

    Arrays are flat lists of numbers, reshaping keeps the entries, the
    scaler is the identity and each model answers a constant.  The
    instance is used to run the handlers on concrete requests. *)

Module Demo.

Fixpoint np_array (v : json) : option (list spec_float) :=
  match v with
  | JNum q =>
      match Qden q with
      | xH => Some [F32.of_Z (Qnum q)]
      | _ => None
      end
  | JFloat x => Some [x]
  | JArr l =>
      (fix go (l : list json) : option (list spec_float) :=
         match l with
         | [] => Some []
         | x :: rest =>
             match np_array x, go rest with
             | Some a, Some b => Some (a ++ b)%list
             | _, _ => None
             end
         end) l
  | _ => None
  end.

Definition np_reshape (shape : list Z) (a : list spec_float)
  : option (list spec_float) := Some a.
Definition np_item00 (a : list spec_float) : option spec_float := List.head a.

Definition identity_scaler : @Scaler (list spec_float) :=
  {| transform := fun a => Some a |}.
Definition constant_model (x : spec_float) : @Model (list spec_float) :=
  {| predict := fun _ => Some [x] |}.

(** The float32 numbers 0.75, 21 and 75. *)
Definition three_quarters : spec_float := S754_finite false 12582912 (-24).
Definition twenty_one : spec_float := S754_finite false 11010048 (-19).
Definition seventy_five : spec_float := S754_finite false 9830400 (-17).

(** Both capabilities loaded, no capability loaded, only the weather
    model loaded. *)
Definition loaded : @artifacts (list spec_float) :=
  {| MODELS := {[ "soil" := constant_model three_quarters;
                  "weather" := constant_model twenty_one ]};
     SCALERS := {[ "soil" := identity_scaler; "weather" := identity_scaler ]} |}.
Definition unloaded : @artifacts (list spec_float) := {| MODELS := ∅; SCALERS := ∅ |}.
Definition weather_only : @artifacts (list spec_float) :=
  {| MODELS := {[ "weather" := constant_model twenty_one ]}; SCALERS := ∅ |}.

Definition soil_request : gmap string json :=
  list_to_map
    [("N", JNum 1); ("P", JNum 2); ("K", JNum 3); ("pH", JNum 4); ("EC", JNum 5);
     ("OC", JNum 6); ("S", JNum 7); ("Zn", JNum 8); ("Fe", JNum 9); ("Cu", JNum 10);
     ("Mn", JNum 11); ("B", JNum 12)].

Definition soil_values : list Q := [1; 2; 3; 4; 5; 6; 7; 8; 9; 10; 11; 12]%Q.
Definition soil_array : list spec_float :=
  F32.of_Z <$> [1; 2; 3; 4; 5; 6; 7; 8; 9; 10; 11; 12]%Z.

(** Files hold a number: 0 is a file no loader accepts. *)
Definition load_model (custom_objects : bool) (c : nat)
  : option (@Model (list spec_float)) :=
  match c with O => None | S n => Some (constant_model (F32.of_Z (Z.of_nat n))) end.
Definition joblib_load (c : nat) : option (@Scaler (list spec_float)) :=
  match c with O => None | S _ => Some identity_scaler end.
Definition no_script (path name : string) : M (gmap string nat) unit := ret tt.

Definition app_file : string := "/srv/KrishiMitra/Scripts/app.py".

(** A sound soil model and scaler next to a weather model that does not
    load. *)
Definition broken_weather : gmap string nat :=
  {[ "/srv/KrishiMitra/Models/Soil_Analysis/soil_tabular_model.h5" := 1%nat;
     "/srv/KrishiMitra/Models/Soil_analysis/scaler.pkl" := 1%nat;
     "/srv/KrishiMitra/Models/Weather_Forecast/weather_model.h5" := 0%nat ]}.

(** A toy pandas and scikit-learn on lists of integers: the first entry
    of the data is the target, the split keeps two rows for training, the
    scaler subtracts the sum it was fitted on. *)
Definition read_csv (c : list Z) : option (list Z) := Some c.
Definition drop_columns (cols : list string) (f : list Z) : option (list Z) :=
  Some (tail f).
Definition column (name : string) (f : list Z) : option (list Z) := Some (take 1 f).
Definition DataFrame_columns_of (values like : list Z) : option (list Z) := Some values.
Definition DataFrame (values : list Z) : option (list Z) := Some values.
Definition to_csv (f : list Z) : list Z := f.
(** A generator state is a number of rows: the split keeps that many rows
    for training, two whatever the seed, three under the ambient state. *)
Definition RandomState (seed : Z) : nat := 2%nat.
Definition shuffle_split (X y : list Z) (test_size : Q) (g : nat)
  : option (list Z * list Z * list Z * list Z) :=
  Some (take g X, drop g X, y, y).
Definition ambient : nat := 3%nat.
Definition fit (X : list Z) : option Z := Some (foldr Z.add 0%Z X).
Definition transform_with (sc : Z) (X : list Z) : option (list Z) :=
  Some ((fun x => x - sc)%Z <$> X).
Definition joblib_dump (sc : Z) : list Z := [sc].
(** Every write completes; the write of the scaler raises after it has
    opened its file, which is left empty. *)
Definition no_write_error (fs : gmap string (list Z)) (path : string) (c : list Z)
  : option (option (list Z)) := None.
Definition truncated_dump (fs : gmap string (list Z)) (path : string) (c : list Z)
  : option (option (list Z)) :=
  if String.eqb path "/srv/KrishiMitra/Models/Soil_Analysis/scaler.pkl"
  then Some (Some [])
  else None.

Definition cwd : string := "/srv/KrishiMitra".
Definition soil_data : gmap string (list Z) :=
  {[ "/srv/KrishiMitra/Data/Soil/soil_data.csv" := [1; 5; 6; 7]%Z ]}.

Definition preprocess_run :=
  run_preprocess read_csv drop_columns column DataFrame_columns_of DataFrame to_csv
    RandomState shuffle_split ambient fit transform_with joblib_dump
    no_write_error cwd.
Definition interrupted_run :=
  run_preprocess read_csv drop_columns column DataFrame_columns_of DataFrame to_csv
    RandomState shuffle_split ambient fit transform_with joblib_dump
    truncated_dump cwd.

(** The same file system without the weather model file. *)
Definition soil_files : gmap string nat :=
  {[ "/srv/KrishiMitra/Models/Soil_Analysis/soil_tabular_model.h5" := 1%nat;
     "/srv/KrishiMitra/Models/Soil_analysis/scaler.pkl" := 1%nat ]}.

(** The soil capability loaded with a scaler that raises, and with a
    model that raises. *)
Definition failing_scaler : @Scaler (list spec_float) :=
  {| transform := fun _ => None |}.
Definition failing_model : @Model (list spec_float) := {| predict := fun _ => None |}.
Definition scaler_down : @artifacts (list spec_float) :=
  {| MODELS := {[ "soil" := constant_model three_quarters ]};
     SCALERS := {[ "soil" := failing_scaler ]} |}.

Definition soil := soil_analysis np_array np_item00.
Definition weather := weather_prediction np_array np_reshape np_item00.

End Demo.

(** * Arithmetic of float32 *)

Section Float32Facts.
Local Open Scope Z_scope.

Lemma digits2_bounds m :
  2 ^ (Zpos (digits2_pos m) - 1) <= Zpos m < 2 ^ Zpos (digits2_pos m).
Proof.
  induction m as [m IH|m IH|]; cbn [digits2_pos]; rewrite ?Pos2Z.inj_succ.
  - replace (Z.succ (Zpos (digits2_pos m)) - 1) with (Z.succ (Zpos (digits2_pos m) - 1)) by lia.
    rewrite !Z.pow_succ_r by lia. lia.
  - replace (Z.succ (Zpos (digits2_pos m)) - 1) with (Z.succ (Zpos (digits2_pos m) - 1)) by lia.
    rewrite !Z.pow_succ_r by lia. lia.
  - cbn. lia.
Qed.

Lemma shifted_from_start M : F32.shifted_from M 0 (Build_shr_record M false false).
Proof.
  unfold F32.shifted_from. cbn [shr_m shr_r shr_s]. change (2 ^ 0) with 1.
  rewrite Z.div_1_r, Z.mod_1_r. repeat split; try discriminate; try lia.
Qed.

Lemma shifted_from_step M k x :
  0 <= M -> 0 <= k -> F32.shifted_from M k x -> F32.shifted_from M (k + 1) (shr_1 x).
Proof.
  intros HM Hk (Hm & Hr & Hs).
  assert (HP : 0 < 2 ^ k) by (apply Z.pow_pos_nonneg; lia).
  pose proof (Z.div_mod M (2 ^ k) ltac:(lia)) as Hdm.
  pose proof (Z.mod_pos_bound M (2 ^ k) HP) as Hrem.
  assert (Hm0 : 0 <= shr_m x) by (rewrite Hm; apply Z.div_pos; lia).
  set (m := shr_m x) in *. set (rem := M mod 2 ^ k) in *. set (P := 2 ^ k) in *.
  assert (Hcases : forall m' b, (b = 0 \/ b = 1) -> m = 2 * m' + b -> 0 <= m' ->
            M / (P * 2) = m' /\ M mod (P * 2) = P * b + rem).
  { intros m' b Hb Hmb Hm'.
    assert (HM' : M = m' * (P * 2) + (P * b + rem)) by (rewrite Hdm, <- Hm, Hmb; ring).
    split; [symmetry; apply (Z.div_unique M (P * 2) m' (P * b + rem)); nia
           |symmetry; apply (Z.mod_unique M (P * 2) m' (P * b + rem)); nia]. }
  unfold F32.shifted_from. rewrite Z.pow_add_r by lia. change (2 ^ 1) with 2. fold P.
  assert (Hor : shr_r x || shr_s x = true <-> rem <> 0).
  { rewrite orb_true_iff, Hr, Hs. lia. }
  destruct x as [mx r s]. cbn [shr_m shr_r shr_s] in *. subst m.
  destruct mx as [|[q|q|]|q]; try lia; cbn [shr_1 shr_m shr_r shr_s].
  - destruct (Hcases 0 0) as [-> ->]; try lia. rewrite Hor.
    split; [reflexivity|]. split; [split; [discriminate|lia]|lia].
  - destruct (Hcases (Zpos q) 1) as [-> ->]; try lia. rewrite Hor.
    split; [reflexivity|]. split; [split; [lia|reflexivity]|lia].
  - destruct (Hcases (Zpos q) 0) as [-> ->]; try lia. rewrite Hor.
    split; [reflexivity|]. split; [split; [discriminate|lia]|lia].
  - destruct (Hcases 0 1) as [-> ->]; try lia. rewrite Hor.
    split; [reflexivity|]. split; [split; [lia|reflexivity]|lia].
Qed.

Lemma shifted_from_iter M n : 0 <= M ->
  forall k x, 0 <= k -> F32.shifted_from M k x ->
  F32.shifted_from M (k + Zpos n) (SpecFloat.iter_pos shr_1 n x).
Proof.
  intros HM. induction n as [n IH|n IH|]; intros k x Hk Hx; cbn [SpecFloat.iter_pos].
  - replace (k + Zpos n~1) with (k + 1 + Zpos n + Zpos n) by lia.
    apply IH; [lia|]. apply IH; [lia|]. by apply shifted_from_step.
  - replace (k + Zpos n~0) with (k + Zpos n + Zpos n) by lia.
    apply IH; [lia|]. by apply IH.
  - by apply shifted_from_step.
Qed.

(** Rounding to nearest is within half a unit of the number shifted. *)
Lemma round_nearest_even_close M k r :
  0 <= M -> 0 <= k -> F32.shifted_from M k r ->
  let r1 := round_nearest_even (shr_m r) (loc_of_shr_record r) in
  shr_m r <= r1 <= shr_m r + 1
  /\ 2 * M - 2 ^ k <= 2 * (r1 * 2 ^ k) <= 2 * M + 2 ^ k.
Proof.
  intros HM Hk (Hm & Hr & Hs).
  assert (HP : 0 < 2 ^ k) by (apply Z.pow_pos_nonneg; lia).
  pose proof (Z.div_mod M (2 ^ k) ltac:(lia)) as Hdm.
  pose proof (Z.mod_pos_bound M (2 ^ k) HP) as Hrem.
  rewrite <- Hm in Hdm.
  set (rem := M mod 2 ^ k) in *. set (P := 2 ^ k) in *.
  cbv zeta.
  destruct r as [m [|] [|]]; cbn [shr_m shr_r shr_s] in *;
    cbn [loc_of_shr_record round_nearest_even]; try destruct (Z.even m).
  all: assert (Hr' := proj1 Hr); assert (Hr'' := proj2 Hr);
       assert (Hs' := proj1 Hs); assert (Hs'' := proj2 Hs).
  all: split; [lia|].
  all: try (specialize (Hr' eq_refl)); try (specialize (Hs' eq_refl)).
  all: try (assert (~ P <= 2 * rem) by (intros Hc; specialize (Hr'' Hc); discriminate)).
  all: try (assert (rem = 0 \/ 2 * rem = P)
              by (destruct (Z.eq_dec rem 0); [auto|];
                  destruct (Z.eq_dec (2 * rem) P); [auto|];
                  exfalso; specialize (Hs'' (conj n n0)); discriminate)).
  all: nia.
Qed.

Lemma round_nearest_even_bounds r :
  shr_m r <= round_nearest_even (shr_m r) (loc_of_shr_record r) <= shr_m r + 1
  /\ (shr_r r = false -> shr_s r = false ->
      round_nearest_even (shr_m r) (loc_of_shr_record r) = shr_m r).
Proof.
  destruct r as [m [|] [|]]; cbn; try destruct (Z.even m); split; try lia; try discriminate; auto.
Qed.

(** One alignment step of the rounding keeps the number at most
    [25 * 2^k], before and after rounding to nearest: that bound lies on
    every grid the step can reach. *)
Lemma shr_fexp_at_most k m e :
  -149 <= k ->
  F32.at_most k m e ->
  let '(mrs, e1) := shr_fexp F32.prec F32.emax m e loc_Exact in
  F32.at_most k (shr_m mrs) e1
  /\ F32.at_most k (round_nearest_even (shr_m mrs) (loc_of_shr_record mrs)) e1.
Proof.
  intros Hk (He & Hm0 & Hm).
  unfold shr_fexp, shr. cbn [shr_record_of_loc].
  destruct (fexp F32.prec F32.emax (Zdigits2 m + e) - e) as [|n|n] eqn:Hn;
    cbv beta iota;
    [ unfold F32.at_most; cbn [shr_m loc_of_shr_record round_nearest_even]; auto
    | | unfold F32.at_most; cbn [shr_m loc_of_shr_record round_nearest_even]; auto ].
  pose proof (shifted_from_iter m n Hm0 0 _ ltac:(lia) (shifted_from_start m))
    as (Hdiv & Hround & Hsticky).
  rewrite Z.add_0_l in Hdiv, Hround, Hsticky.
  set (r := SpecFloat.iter_pos shr_1 n (Build_shr_record m false false)) in *.
  assert (H2n : 0 < 2 ^ Zpos n) by (apply Z.pow_pos_nonneg; lia).
  assert (He1 : e + Zpos n <= k).
  { rewrite <- Hn. unfold fexp, emin, F32.prec, F32.emax.
    destruct m as [|p|p]; cbn [Zdigits2]; try lia.
    pose proof (digits2_bounds p) as [Hlow _].
    assert (Zpos (digits2_pos p) - 1 < 5 + (k - e)); [|lia].
    apply (Z.pow_lt_mono_r_iff 2); [lia|lia|].
    eapply Z.le_lt_trans; [exact Hlow|]. eapply Z.le_lt_trans; [exact Hm|].
    rewrite Z.pow_add_r by lia.
    assert (0 < 2 ^ (k - e)) by (apply Z.pow_pos_nonneg; lia). lia. }
  assert (Hsplit : 2 ^ (k - e) = 2 ^ (k - (e + Zpos n)) * 2 ^ Zpos n).
  { rewrite <- Z.pow_add_r by lia. f_equal. lia. }
  set (K := 25 * 2 ^ (k - (e + Zpos n))) in *.
  assert (HmK : m <= K * 2 ^ Zpos n) by (unfold K; rewrite Hsplit in Hm; lia).
  assert (Hr0 : 0 <= shr_m r) by (rewrite Hdiv; apply Z.div_pos; lia).
  assert (HrK : shr_m r <= K).
  { rewrite Hdiv. apply Z.div_le_upper_bound; lia. }
  unfold F32.at_most.
  split; [split; [exact He1 | split; [exact Hr0 | exact HrK]]|].
  split; [exact He1|].
  destruct (round_nearest_even_bounds r) as [[Hlo Hhi] Hsame].
  split; [lia|].
  destruct (Z.eq_dec (shr_m r) K) as [HeqK|HneK]; [|lia].
  assert (Hmod : m mod 2 ^ Zpos n = 0).
  { pose proof (Z.mul_div_le m (2 ^ Zpos n) H2n) as Hfloor.
    rewrite <- Hdiv, HeqK in Hfloor.
    assert (m = K * 2 ^ Zpos n) as -> by lia. apply Z.mod_mul. lia. }
  assert (Hr : shr_r r = false).
  { destruct (shr_r r); [|reflexivity].
    destruct Hround as [Hset _]. specialize (Hset eq_refl). lia. }
  assert (Hs : shr_s r = false).
  { destruct (shr_s r); [|reflexivity].
    destruct Hsticky as [Hset _]. destruct (Hset eq_refl) as [Hne _]. contradiction. }
  rewrite (Hsame Hr Hs). lia.
Qed.

(** The first alignment of the rounding, then the rounding to nearest: the
    mantissa obtained is within half a unit of the number, and has at most
    24 digits unless it is 2^24. *)
Lemma shr_fexp_rounded M E :
  0 <= M ->
  let '(mrs, e1) := shr_fexp F32.prec F32.emax M E loc_Exact in
  let r1 := round_nearest_even (shr_m mrs) (loc_of_shr_record mrs) in
  E <= e1
  /\ 0 <= r1
  /\ 2 * M - 2 ^ (e1 - E) <= 2 * (r1 * 2 ^ (e1 - E)) <= 2 * M + 2 ^ (e1 - E)
  /\ ((e1 = E /\ r1 = M /\ fexp F32.prec F32.emax (Zdigits2 M + E) <= E)
      \/ (e1 = fexp F32.prec F32.emax (Zdigits2 M + E) /\ r1 <= 2 ^ 24)).
Proof.
  intros HM. unfold shr_fexp, shr. cbn [shr_record_of_loc].
  destruct (fexp F32.prec F32.emax (Zdigits2 M + E) - E) as [|n|n] eqn:Hn;
    cbv beta iota zeta; cbn [shr_m loc_of_shr_record round_nearest_even].
  - replace (E - E) with 0 by lia. change (2 ^ 0) with 1.
    repeat split; lia.
  - pose proof (shifted_from_iter M n HM 0 _ ltac:(lia) (shifted_from_start M)) as Hshift.
    rewrite Z.add_0_l in Hshift.
    set (r := SpecFloat.iter_pos shr_1 n (Build_shr_record M false false)) in *.
    destruct (round_nearest_even_close M (Zpos n) r HM ltac:(lia) Hshift)
      as [[Hlo Hhi] Hclose].
    destruct Hshift as (Hdiv & _).
    assert (H2n : 0 < 2 ^ Zpos n) by (apply Z.pow_pos_nonneg; lia).
    assert (Hm0 : 0 <= shr_m r) by (rewrite Hdiv; apply Z.div_pos; lia).
    replace (E + Zpos n - E) with (Zpos n) by lia.
    split; [lia|]. split; [lia|]. split; [exact Hclose|].
    right. split; [lia|].
    assert (Hlt : shr_m r < 2 ^ 24); [|lia].
    rewrite Hdiv. apply Z.div_lt_upper_bound; [lia|].
    rewrite <- Z.pow_add_r by lia.
    assert (Hd : Zdigits2 M <= Zpos n + 24).
    { revert Hn. unfold fexp, emin, F32.prec, F32.emax. lia. }
    destruct M as [|p|p]; [apply Z.pow_pos_nonneg; lia| |lia].
    pose proof (digits2_bounds p) as [_ Hhigh]. cbn [Zdigits2] in Hd.
    eapply Z.lt_le_trans; [exact Hhigh|]. apply Z.pow_le_mono_r; lia.
  - replace (E - E) with 0 by lia. change (2 ^ 0) with 1.
    repeat split; lia.
Qed.

(** The second alignment loses nothing: it shifts only the mantissa 2^24,
    by one bit. *)
Lemma shr_fexp_exact r1 e1 :
  0 <= r1 ->
  fexp F32.prec F32.emax (Zdigits2 r1 + e1) <= e1 \/ (r1 <= 2 ^ 24 /\ -149 <= e1) ->
  let '(mrs2, e2) := shr_fexp F32.prec F32.emax r1 e1 loc_Exact in
  e1 <= e2 /\ shr_m mrs2 * 2 ^ (e2 - e1) = r1.
Proof.
  intros Hr1 Hcases. unfold shr_fexp, shr. cbn [shr_record_of_loc].
  destruct (fexp F32.prec F32.emax (Zdigits2 r1 + e1) - e1) as [|n|n] eqn:Hn;
    cbv beta iota zeta; cbn [shr_m].
  - replace (e1 - e1) with 0 by lia. change (2 ^ 0) with 1. lia.
  - destruct Hcases as [Hle | [Hhigh Hlow]]; [lia|].
    unfold fexp, emin, F32.prec, F32.emax in Hn.
    destruct r1 as [|p|p]; cbn [Zdigits2] in Hn; [lia| |lia].
    pose proof (digits2_bounds p) as [Hdlow _].
    assert (Hd : 25 <= Zpos (digits2_pos p)) by lia.
    assert (H24 : 2 ^ 24 <= 2 ^ (Zpos (digits2_pos p) - 1))
      by (apply Z.pow_le_mono_r; lia).
    assert (Hp : Zpos p = 2 ^ 24) by lia.
    assert (Hd' : Zpos (digits2_pos p) - 1 <= 24).
    { apply (Z.pow_le_mono_r_iff 2); lia. }
    assert (n = 1%positive) as -> by lia.
    change (2 ^ 24) with 16777216 in Hp. injection Hp as ->.
    cbn [SpecFloat.iter_pos shr_1 shr_m].
    replace (e1 + 1 - e1) with 1 by lia. split; [lia|reflexivity].
  - replace (e1 - e1) with 0 by lia. change (2 ^ 0) with 1. lia.
Qed.

Local Open Scope Q_scope.

Lemma dyadic_at_most k m e :
  (0 <= k)%Z -> F32.at_most k m e -> 0 <= F32.dyadic m e <= inject_Z (25 * 2 ^ k).
Proof.
  intros Hk (He & Hm0 & Hm). unfold F32.dyadic.
  destruct e as [|p|p]; unfold Qle, inject_Z; cbn [Qnum Qden].
  - rewrite Z.sub_0_r in Hm. change (2 ^ 0)%Z with 1%Z. lia.
  - assert (Hsplit : (2 ^ k = 2 ^ (k - Zpos p) * 2 ^ Zpos p)%Z).
    { rewrite <- Z.pow_add_r by lia. f_equal. lia. }
    assert (0 < 2 ^ Zpos p)%Z by (apply Z.pow_pos_nonneg; lia).
    rewrite Hsplit. nia.
  - rewrite Pos2Z.inj_pow.
    replace (k - Zneg p)%Z with (k + Zpos p)%Z in Hm by lia.
    rewrite Z.pow_add_r in Hm by lia.
    assert (0 < 2 ^ Zpos p)%Z by (apply Z.pow_pos_nonneg; lia). lia.
Qed.

Lemma dyadic_negative m e : F32.dyadic (Zneg m) e < 0.
Proof.
  unfold F32.dyadic. destruct e as [|p|p]; unfold Qlt, inject_Z; cbn [Qnum Qden].
  - lia.
  - assert (0 < 2 ^ Zpos p)%Z by (apply Z.pow_pos_nonneg; lia). nia.
  - lia.
Qed.

Lemma dyadic_at_most_1 m e :
  F32.dyadic (Zpos m) e <= 1 -> (e <= 0 /\ Zpos m <= 2 ^ (- e))%Z.
Proof.
  unfold F32.dyadic. destruct e as [|p|p]; unfold Qle, inject_Z; cbn [Qnum Qden].
  - change (2 ^ 0)%Z with 1%Z. change (2 ^ (- 0))%Z with 1%Z. lia.
  - assert (2 <= 2 ^ Zpos p)%Z.
    { change 2%Z with (2 ^ 1)%Z at 1. apply Z.pow_le_mono_r; lia. }
    nia.
  - rewrite Pos2Z.inj_pow. change (- Zneg p)%Z with (Zpos p). lia.
Qed.

Lemma dyadic_at_most_half m e :
  F32.dyadic (Zpos m) e <= 1 # 2 -> (e <= -1 /\ Zpos m <= 2 ^ (- 1 - e))%Z.
Proof.
  unfold F32.dyadic. destruct e as [|p|p]; unfold Qle, inject_Z; cbn [Qnum Qden].
  - change (2 ^ 0)%Z with 1%Z. lia.
  - assert (0 < 2 ^ Zpos p)%Z by (apply Z.pow_pos_nonneg; lia). nia.
  - rewrite Pos2Z.inj_pow. intros Hle. split; [lia|].
    replace (-1 - Zneg p)%Z with (Zpos p - 1)%Z by lia.
    assert (Hsplit : (2 ^ Zpos p = 2 * 2 ^ (Zpos p - 1))%Z).
    { replace (Zpos p) with (1 + (Zpos p - 1))%Z at 1 by lia.
      rewrite Z.pow_add_r by lia. reflexivity. }
    lia.
Qed.

(** A dyadic number as a fraction over [2^K]. *)
Lemma dyadic_fraction m e (K : positive) :
  (0 <= Zpos K + e)%Z ->
  F32.dyadic m e == (m * 2 ^ (Zpos K + e))%Z # (2 ^ K).
Proof.
  intros HK. unfold F32.dyadic, Qeq.
  destruct e as [|p|p]; cbn [Qnum Qden inject_Z]; rewrite ?Pos2Z.inj_pow.
  - rewrite Z.add_0_r. change (2 ^ 0)%Z with 1%Z. ring.
  - rewrite Z.pow_add_r by lia. ring.
  - rewrite <- Z.mul_assoc, <- Z.pow_add_r by lia. do 2 f_equal. lia.
Qed.

(** From the integers to the rationals: a mantissa within half a unit of
    the product, at an exponent of at most -17, stands for a number within
    2^-18 of the product. *)
Lemma close_to_product m e (K : positive) B e1 c :
  (Zpos K = 17 - e)%Z -> (e <= 0)%Z -> (e - 17 <= e1 <= -17)%Z ->
  (2 * (Zpos m * 13107200) - 2 ^ (e1 - (e - 17)) <= 2 * B
   <= 2 * (Zpos m * 13107200) + 2 ^ (e1 - (e - 17)))%Z ->
  c == B # (2 ^ K) ->
  F32.dyadic (Zpos m) e * 100 - (1 # 262144) <= c
  <= F32.dyadic (Zpos m) e * 100 + (1 # 262144).
Proof.
  intros HK He He1 Hclose Hc.
  rewrite Hc, (dyadic_fraction (Zpos m) e K) by lia.
  replace (Zpos K + e)%Z with 17%Z by lia. change (2 ^ 17)%Z with 131072%Z.
  assert (Hpow : (2 ^ (e1 - (e - 17)) <= 2 ^ (Zpos K - 17))%Z)
    by (apply Z.pow_le_mono_r; lia).
  assert (HP : (2 ^ Zpos K = 131072 * 2 ^ (Zpos K - 17))%Z).
  { change 131072%Z with (2 ^ 17)%Z. rewrite <- Z.pow_add_r by lia. f_equal. lia. }
  assert (HP0 : (0 < 2 ^ (Zpos K - 17))%Z) by (apply Z.pow_pos_nonneg; lia).
  unfold Qle, Qminus, Qplus, Qmult, Qopp; cbn [Qnum Qden].
  rewrite ?Pos2Z.inj_mul, ?Pos2Z.inj_pow, HP.
  set (P' := (2 ^ (Zpos K - 17))%Z) in *.
  set (D := (2 ^ (e1 - (e - 17)))%Z) in *.
  split; nia.
Qed.

(** The float32 product of a number in [0,1] by 100 is a finite number in
    [0,100], within 2^-18 of the exact product. *)
Lemma mul_hundred_close p q :
  F32.value p = Some q -> 0 <= q <= 1 ->
  exists c, F32.value (F32.mul p F32.hundred) = Some c
            /\ 0 <= c <= 100
            /\ q * 100 - (1 # 262144) <= c <= q * 100 + (1 # 262144).
Proof.
  destruct p as [s|s| |s m e]; try discriminate.
  - intros [= <-] _. exists 0. split; [reflexivity|]. repeat split; discriminate.
  - intros [= <-] [Hq0 Hq1]. destruct s.
    { exfalso. pose proof (dyadic_negative m e). lra. }
    apply dyadic_at_most_1 in Hq1 as [He Hm].
    unfold F32.mul, F32.hundred, SFmul. cbn [xorb]. unfold binary_round_aux.
    assert (Hstart : F32.at_most 2 (Zpos (m * 13107200)) (e + -17)).
    { split; [lia|]. split; [lia|].
      replace (2 - (e + -17))%Z with (19 + - e)%Z by lia.
      rewrite Z.pow_add_r by lia. change (2 ^ 19)%Z with 524288%Z.
      rewrite Pos2Z.inj_mul. lia. }
    assert (Hdigits : (Zdigits2 (Zpos (m * 13107200)) + (e + -17) <= 7)%Z).
    { destruct Hstart as (_ & _ & Hbound). cbn [Zdigits2].
      pose proof (digits2_bounds (m * 13107200)) as [Hlow _].
      assert (Zpos (digits2_pos (m * 13107200)) - 1 < 7 - (e + -17))%Z; [|lia].
      apply (Z.pow_lt_mono_r_iff 2); [lia|lia|].
      eapply Z.le_lt_trans; [exact Hlow|]. eapply Z.le_lt_trans; [exact Hbound|].
      replace (7 - (e + -17))%Z with (5 + (2 - (e + -17)))%Z by lia.
      rewrite Z.pow_add_r by lia.
      assert (0 < 2 ^ (2 - (e + -17)))%Z by (apply Z.pow_pos_nonneg; lia). lia. }
    pose proof (shr_fexp_at_most 2 _ _ ltac:(lia) Hstart) as Hstage1.
    pose proof (shr_fexp_rounded (Zpos (m * 13107200)) (e + -17) ltac:(lia)) as Hround1.
    fold F32.prec F32.emax.
    destruct (shr_fexp F32.prec F32.emax (Zpos (m * 13107200)) (e + -17) loc_Exact)
      as [mrs1 e1].
    destruct Hstage1 as [_ Hrounded]. cbv zeta in Hround1.
    destruct Hround1 as (HE1 & Hr0 & Hclose & Hshape).
    set (r1 := round_nearest_even (shr_m mrs1) (loc_of_shr_record mrs1)) in *.
    assert (He1 : (e1 <= -17)%Z).
    { destruct Hshape as [(-> & _) | (-> & _)]; [lia|].
      unfold fexp, emin, F32.prec, F32.emax. lia. }
    assert (Hcases2 :
      (fexp F32.prec F32.emax (Zdigits2 r1 + e1) <= e1)%Z
      \/ (r1 <= 2 ^ 24 /\ -149 <= e1)%Z).
    { destruct Hshape as [(-> & -> & Hle) | (He1eq & Hr24)];
        [left; exact Hle | right; split; [exact Hr24|]].
      rewrite He1eq. unfold fexp, emin, F32.prec, F32.emax. lia. }
    pose proof (shr_fexp_at_most 2 _ _ ltac:(lia) Hrounded) as Hstage2.
    pose proof (shr_fexp_exact r1 e1 Hr0 Hcases2) as Hexact2.
    destruct (shr_fexp F32.prec F32.emax r1 e1 loc_Exact) as [mrs2 e2].
    destruct Hstage2 as [Hfinal _]. destruct Hexact2 as [He2 Hsame].
    assert (HK : (Zpos (Z.to_pos (17 - e)) = 17 - e)%Z) by (apply Z2Pos.id; lia).
    replace (e + -17)%Z with (e - 17)%Z in * by lia.
    rewrite Pos2Z.inj_mul in Hclose.
    destruct (shr_m mrs2) as [|m2|m2] eqn:Hm2.
    + exists 0. split; [reflexivity|]. split; [split; discriminate|].
      apply (close_to_product m e (Z.to_pos (17 - e)) (r1 * 2 ^ (e1 - (e - 17))) e1);
        [exact HK | exact He | lia | exact Hclose |].
      rewrite <- Hsame. reflexivity.
    + assert (Hfit : (e2 <=? F32.emax - F32.prec)%Z = true).
      { apply Z.leb_le. destruct Hfinal as [Hle _]. unfold F32.emax, F32.prec. lia. }
      rewrite Hfit. eexists. split; [reflexivity|].
      split; [apply (dyadic_at_most 2 _ _ ltac:(lia) Hfinal)|].
      apply (close_to_product m e (Z.to_pos (17 - e)) (r1 * 2 ^ (e1 - (e - 17))) e1);
        [exact HK | exact He | lia | exact Hclose |].
      rewrite (dyadic_fraction (Zpos m2) e2 (Z.to_pos (17 - e))) by lia.
      rewrite <- Hsame, <- Z.mul_assoc, <- Z.pow_add_r by lia.
      replace (Zpos (Z.to_pos (17 - e)) + e2)%Z with (e2 - e1 + (e1 - (e - 17)))%Z by lia.
      reflexivity.
    + destruct Hfinal as (_ & Hneg & _). lia.
Qed.

(** The float32 product of a number in [0, 1/2] by 100 is at most 50:
    rounding does not step over 50. *)
Lemma mul_hundred_at_most_50 p q :
  F32.value p = Some q -> 0 <= q <= 1 # 2 ->
  exists c, F32.value (F32.mul p F32.hundred) = Some c /\ c <= 50.
Proof.
  destruct p as [s|s| |s m e]; try discriminate.
  - intros _ _. exists 0. split; [reflexivity|discriminate].
  - intros [= <-] [Hq0 Hq1]. destruct s.
    { exfalso. pose proof (dyadic_negative m e). lra. }
    apply dyadic_at_most_half in Hq1 as [He Hm].
    unfold F32.mul, F32.hundred, SFmul. cbn [xorb]. unfold binary_round_aux.
    assert (Hstart : F32.at_most 1 (Zpos (m * 13107200)) (e + -17)).
    { split; [lia|]. split; [lia|].
      replace (1 - (e + -17))%Z with (19 + (- 1 - e))%Z by lia.
      rewrite Z.pow_add_r by lia. change (2 ^ 19)%Z with 524288%Z.
      rewrite Pos2Z.inj_mul. lia. }
    pose proof (shr_fexp_at_most 1 _ _ ltac:(lia) Hstart) as Hstage1.
    fold F32.prec F32.emax.
    destruct (shr_fexp F32.prec F32.emax (Zpos (m * 13107200)) (e + -17) loc_Exact)
      as [mrs1 e1].
    destruct Hstage1 as [_ Hrounded].
    pose proof (shr_fexp_at_most 1 _ _ ltac:(lia) Hrounded) as Hstage2.
    destruct (shr_fexp F32.prec F32.emax
                (round_nearest_even (shr_m mrs1) (loc_of_shr_record mrs1)) e1 loc_Exact)
      as [mrs2 e2].
    destruct Hstage2 as [Hfinal _].
    destruct (shr_m mrs2) as [|m2|m2] eqn:Hm2.
    + exists 0. split; [reflexivity|discriminate].
    + assert (Hfit : (e2 <=? F32.emax - F32.prec)%Z = true).
      { apply Z.leb_le. destruct Hfinal as [He2 _]. unfold F32.emax, F32.prec. lia. }
      rewrite Hfit. eexists. split; [reflexivity|].
      apply (dyadic_at_most 1 _ _ ltac:(lia) Hfinal).
    + destruct Hfinal as (_ & Hneg & _). lia.
Qed.

(** A valid float32 has at most 24 digits, and all 24 above the smallest
    exponent. *)
Lemma valid_digits m e :
  F32.valid (S754_finite false m e) = true ->
  (Zpos m < 2 ^ 24 /\ (-149 <= e) /\ (-149 < e -> 2 ^ 23 <= Zpos m))%Z.
Proof.
  unfold F32.valid, valid_binary, bounded, canonical_mantissa, fexp, emin,
    F32.prec, F32.emax.
  intros [Hcanon _]%andb_prop. apply Z.eqb_eq in Hcanon.
  pose proof (digits2_bounds m) as [Hlow Hhigh].
  assert (Hd : (Zpos (digits2_pos m) <= 24)%Z) by lia.
  split; [|split; [lia|]].
  - eapply Z.lt_le_trans; [exact Hhigh|]. apply Z.pow_le_mono_r; lia.
  - intros He. assert (Zpos (digits2_pos m) = 24)%Z as Hd24 by lia.
    rewrite Hd24 in Hlow. exact Hlow.
Qed.

(** The comparison with 0.5 is exact. *)
Lemma gt_half_iff p q :
  F32.valid p = true -> F32.value p = Some q ->
  F32.ltb F32.half p = true <-> (1 # 2) < q.
Proof.
  destruct p as [s|s| |s m e]; try discriminate.
  - intros _ [= <-]. split; [discriminate|]. intros H; exfalso; revert H; apply Qle_not_lt; discriminate.
  - intros Hvalid [= <-]. destruct s.
    { pose proof (dyadic_negative m e). split; [discriminate|]. intros. lra. }
    apply valid_digits in Hvalid as (Hhigh & Hmin & Hnormal).
    change (2 ^ 24)%Z with 16777216%Z in Hhigh.
    change (2 ^ 23)%Z with 8388608%Z in Hnormal.
    unfold F32.ltb, SFltb, F32.half, SFcompare.
    destruct (Z.compare_spec (-24) e) as [He | He | He].
    + subst e. rewrite Pos.compare_cont_spec. cbn [Pos.switch_Eq].
      unfold F32.dyadic, Qlt; cbn [Qnum Qden].
      change (Zpos (2 ^ 24)) with 16777216%Z.
      destruct (Pos.compare_spec 8388608 m) as [Hm | Hm | Hm];
        (split; [try discriminate; intros _ | try reflexivity; intros ?]); lia.
    + split; [intros _|reflexivity].
      specialize (Hnormal ltac:(lia)).
      unfold F32.dyadic. destruct e as [|n|n]; unfold Qlt, inject_Z; cbn [Qnum Qden].
      * lia.
      * assert (0 < 2 ^ Zpos n)%Z by (apply Z.pow_pos_nonneg; lia). nia.
      * rewrite Pos2Z.inj_pow.
        assert (2 ^ Zpos n <= 2 ^ 23)%Z by (apply Z.pow_le_mono_r; lia).
        change (2 ^ 23)%Z with 8388608%Z in *. lia.
    + split; [discriminate|]. intros Hq. exfalso.
      destruct e as [|n|n]; try lia.
      unfold F32.dyadic, Qlt in Hq; cbn [Qnum Qden] in Hq.
      rewrite Pos2Z.inj_pow in Hq.
      assert (2 ^ 25 <= 2 ^ Zpos n)%Z by (apply Z.pow_le_mono_r; lia).
      change (2 ^ 25)%Z with 33554432%Z in *. lia.
Qed.

(** Above 0.5 the next float32 is 0.5 + 2^-24. *)
Lemma above_half_spacing p q :
  F32.valid p = true -> F32.value p = Some q -> 1 # 2 < q ->
  (1 # 2) + (1 # 16777216) <= q.
Proof.
  destruct p as [s|s| |s m e]; try discriminate.
  - intros _ [= <-] Hq. exfalso. revert Hq. apply Qle_not_lt. discriminate.
  - intros Hvalid [= <-] Hq. destruct s.
    { pose proof (dyadic_negative m e). lra. }
    apply valid_digits in Hvalid as (Hhigh & Hmin & Hnormal).
    change (2 ^ 24)%Z with 16777216%Z in Hhigh.
    change (2 ^ 23)%Z with 8388608%Z in Hnormal.
    revert Hq. unfold F32.dyadic.
    destruct e as [|n|n]; unfold Qlt, Qle, Qplus, inject_Z; cbn [Qnum Qden].
    + specialize (Hnormal ltac:(lia)). change (2 ^ 0)%Z with 1%Z. lia.
    + specialize (Hnormal ltac:(lia)).
      assert (0 < 2 ^ Zpos n)%Z by (apply Z.pow_pos_nonneg; lia). nia.
    + rewrite !Pos2Z.inj_pow. intros Hq.
      destruct (Z.lt_trichotomy (Zpos n) 24) as [Hlt | [Heq | Hgt]].
      * specialize (Hnormal ltac:(lia)).
        assert (2 ^ Zpos n <= 2 ^ 23)%Z by (apply Z.pow_le_mono_r; lia).
        change (2 ^ 23)%Z with 8388608%Z in *. nia.
      * rewrite Heq in *. change (2 ^ 24)%Z with 16777216%Z in *. lia.
      * exfalso.
        assert (2 ^ 25 <= 2 ^ Zpos n)%Z by (apply Z.pow_le_mono_r; lia).
        change (2 ^ 25)%Z with 33554432%Z in *. lia.
Qed.

(** The comparison of the number with 0.5 and that of its product by 100
    with 50 agree, though the product is rounded. *)
Lemma above_half_iff_above_50 p q :
  F32.valid p = true -> F32.value p = Some q -> 0 <= q <= 1 ->
  exists c, F32.value (F32.mul p F32.hundred) = Some c /\ (1 # 2 < q <-> 50 < c).
Proof.
  intros Hvalid Hvalue Hrange.
  destruct (mul_hundred_close p q Hvalue Hrange) as (c & Hc & _ & Hclose).
  exists c. split; [exact Hc|]. split.
  - intros Hq. pose proof (above_half_spacing p q Hvalid Hvalue Hq) as Hspace.
    destruct Hclose as [Hlow _].
    assert (Hstep : 50 + (100 # 16777216) - (1 # 262144) <= c) by lra.
    eapply Qlt_le_trans; [|exact Hstep]. reflexivity.
  - intros Hc50. apply Qnot_le_lt. intros Hq.
    destruct (mul_hundred_at_most_50 p q Hvalue (conj (proj1 Hrange) Hq))
      as (c' & Hc' & Hle).
    assert (c' = c) as -> by congruence. lra.
Qed.

End Float32Facts.


(** * Properties of the service *)

Section ServiceFacts.

Context {ndarray : Type}.
Variable np_array : json -> option ndarray.
Variable np_reshape : list Z -> ndarray -> option ndarray.
Variable np_item00 : ndarray -> option spec_float.

Implicit Types (env : @artifacts ndarray) (d : gmap string json).

Lemma has_key_true {V} (m : gmap string V) k :
  Py.has_key m k = true <-> is_Some (m !! k).
Proof.
  unfold Py.has_key. destruct (m !! k); split; intros Hk; eauto; try discriminate.
  destruct Hk; discriminate.
Qed.

Lemma has_key_false {V} (m : gmap string V) k :
  Py.has_key m k = false <-> m !! k = None.
Proof. unfold Py.has_key. destruct (m !! k); split; congruence. Qed.

(** On a dict, [all(k in data ...)] is the conjunction of the key tests
    and invokes nothing. *)
Lemma all_in_obj d names tr :
  all_in names (JObj d) tr = (Some (forallb (Py.has_key d) names), tr).
Proof.
  induction names as [|k rest IH]; [reflexivity|].
  simpl. unfold bind, lift, Py.has_key. simpl.
  destruct (d !! k); simpl; [exact IH | reflexivity].
Qed.

(** On a dict holding every name, the comprehension collects the values. *)
Lemma collect_obj d names vs tr :
  Forall2 (fun k v => d !! k = Some v) names vs ->
  collect (JObj d) names tr = (Some vs, tr).
Proof.
  induction 1 as [|k v names vs Hk _ IH]; [reflexivity|].
  simpl. unfold bind, lift. simpl. rewrite Hk. simpl. rewrite IH. reflexivity.
Qed.

Lemma forallb_has_key_values d names :
  forallb (Py.has_key d) names = true ->
  exists vs, Forall2 (fun k v => d !! k = Some v) names vs.
Proof.
  induction names as [|k rest IH]; simpl; [exists []; constructor|].
  intros [Hk Hrest]%andb_prop. apply has_key_true in Hk as [v Hv].
  destruct (IH Hrest) as [vs Hvs]. exists (v :: vs). by constructor.
Qed.

Lemma truthy_obj_lookup d k v : d !! k = Some v -> Py.truthy (JObj d) = true.
Proof.
  intros Hk. simpl. destruct (Nat.eqb (size d) 0) eqn:He; [|reflexivity].
  apply Nat.eqb_eq, map_size_empty_inv in He.
  subst d. rewrite lookup_empty in Hk. discriminate.
Qed.

Local Abbreviation soil_endpoint := (soil_analysis np_array np_item00).
Local Abbreviation weather_endpoint :=
  (weather_prediction np_array np_reshape np_item00).
Local Abbreviation endpoint := (handler np_array np_reshape np_item00).

(** C7. [GET /] answers 200 and reports for each capability whether its
    model is in [MODELS], whatever [SCALERS] holds; with only the weather
    model loaded it reports [soil_analysis] false and
    [weather_prediction] true. *)
Theorem index_reports_loaded_models env :
  status (index env) = 200%Z
  /\ reported (index env) "soil_analysis"
     = Some (JBool (bool_decide (is_Some (MODELS env !! "soil"))))
  /\ reported (index env) "weather_prediction"
     = Some (JBool (bool_decide (is_Some (MODELS env !! "weather"))))
  /\ (forall scalers,
        index {| MODELS := MODELS env; SCALERS := scalers |} = index env)
  /\ (MODELS env !! "soil" = None -> is_Some (MODELS env !! "weather") ->
      reported (index env) "soil_analysis" = Some (JBool false)
      /\ reported (index env) "weather_prediction" = Some (JBool true)).
Proof.
  assert (Hflag : forall k,
    Py.has_key (MODELS env) k = bool_decide (is_Some (MODELS env !! k))).
  { intros k. unfold Py.has_key.
    destruct (MODELS env !! k) eqn:E; symmetry.
    - apply bool_decide_eq_true. eauto.
    - apply bool_decide_eq_false. intros [? ?]. discriminate. }
  assert (Hs : reported (index env) "soil_analysis"
               = Some (JBool (Py.has_key (MODELS env) "soil"))) by reflexivity.
  assert (Hw : reported (index env) "weather_prediction"
               = Some (JBool (Py.has_key (MODELS env) "weather"))) by reflexivity.
  split; [reflexivity|].
  split; [by rewrite Hs, Hflag|].
  split; [by rewrite Hw, Hflag|].
  split; [reflexivity|].
  intros Hsoil Hweather. rewrite Hs, Hw.
  apply has_key_false in Hsoil. apply has_key_true in Hweather.
  by rewrite Hsoil, Hweather.
Qed.

(** C5. When the model or the scaler of a capability is absent, every
    request to its endpoint is answered 500 with the explanatory message
    and nothing is invoked; hence a model is invoked only when both the
    model and its scaler are loaded. *)
Theorem absent_artifact_is_server_error (c : capability) env (request_json : json) :
  (both_loaded c env = false ->
   endpoint c env request_json = (error_response (unavailable c) 500, []))
  /\ (forall e, e ∈ snd (endpoint c env request_json) -> is_predict e = true ->
      is_Some (MODELS env !! key_of c) /\ is_Some (SCALERS env !! key_of c)).
Proof.
  assert (Habs : both_loaded c env = false ->
    endpoint c env request_json = (error_response (unavailable c) 500, [])).
  { unfold both_loaded. intros Hb.
    destruct c; simpl in *;
      unfold soil_analysis, soil_analysis_try,
        weather_prediction, weather_prediction_try;
      rewrite <- negb_andb, Hb; reflexivity. }
  split; [exact Habs|].
  intros e He _. destruct (both_loaded c env) eqn:Hb.
  - unfold both_loaded in Hb. apply andb_prop in Hb as [Hm Hs].
    split; by apply has_key_true.
  - rewrite (Habs eq_refl) in He. simpl in He. by apply elem_of_nil in He.
Qed.

(** *** Stepping through a handler *)

Lemma bind_ok {S A B} (c : M S A) (k : A -> M S B) s a s' :
  c s = (Some a, s') -> bind c k s = k a s'.
Proof. unfold bind. by intros ->. Qed.

Lemma bind_raised {S A B} (c : M S A) (k : A -> M S B) s s' :
  c s = (None, s') -> bind c k s = (None, s').
Proof. unfold bind. by intros ->. Qed.

Lemma lift_ok {S A} (o : option A) a (s : S) :
  o = Some a -> lift o s = (Some a, s).
Proof. by intros ->. Qed.

Lemma call_transform_ok name (sc : @Scaler ndarray) x y tr :
  transform sc x = Some y ->
  call_transform name sc x tr = (Some y, (tr ++ [EvTransform name])%list).
Proof. intros Hy. unfold call_transform, bind, emit, modify. by rewrite Hy. Qed.

Lemma call_predict_ok name (m : @Model ndarray) x y tr :
  predict m x = Some y ->
  call_predict name m x tr = (Some y, (tr ++ [EvPredict name])%list).
Proof. intros Hy. unfold call_predict, bind, emit, modify. by rewrite Hy. Qed.

Lemma loaded_flag (c : capability) env :
  both_loaded c env = true ->
  negb (Py.has_key (MODELS env) (key_of c))
  || negb (Py.has_key (SCALERS env) (key_of c)) = false.
Proof. unfold both_loaded. intros Hb. by rewrite <- negb_andb, Hb. Qed.

Lemma forallb_has_key_intro d names vs :
  Forall2 (fun k v => d !! k = Some v) names vs ->
  forallb (Py.has_key d) names = true.
Proof.
  induction 1 as [|k v names vs Hk _ IH]; [reflexivity|].
  simpl. rewrite IH. unfold Py.has_key. by rewrite Hk.
Qed.

Lemma forallb_has_key_missing d names k :
  k ∈ names -> d !! k = None -> forallb (Py.has_key d) names = false.
Proof.
  intros Hin Hk. destruct (forallb (Py.has_key d) names) eqn:E; [|reflexivity].
  rewrite forallb_forall in E. apply list_elem_of_In in Hin.
  specialize (E k Hin). apply has_key_true in E as [v Hv]. congruence.
Qed.

(** The part of the soil handler that reads the request: with the twelve
    values in hand, the handler no longer looks at the object. *)
Lemma soil_try_reads_features env d1 d2 vs tr :
  Forall2 (fun k v => d1 !! k = Some v) feature_names vs ->
  Forall2 (fun k v => d2 !! k = Some v) feature_names vs ->
  soil_analysis_try np_array np_item00 env (JObj d1) tr
  = soil_analysis_try np_array np_item00 env (JObj d2) tr.
Proof.
  intros H1 H2. unfold soil_analysis_try.
  destruct (negb (Py.has_key (MODELS env) "soil")
            || negb (Py.has_key (SCALERS env) "soil")); [reflexivity|].
  assert (Hn1 : exists v, d1 !! "N" = Some v)
    by (inversion H1; subst; eauto).
  assert (Hn2 : exists v, d2 !! "N" = Some v)
    by (inversion H2; subst; eauto).
  destruct Hn1 as [v1 Hn1], Hn2 as [v2 Hn2].
  rewrite (truthy_obj_lookup _ _ _ Hn1), (truthy_obj_lookup _ _ _ Hn2).
  cbn [negb].
  rewrite !(bind_ok _ _ _ _ _ (all_in_obj _ _ _)).
  rewrite (forallb_has_key_intro _ _ _ H1), (forallb_has_key_intro _ _ _ H2).
  cbn [negb].
  by rewrite (bind_ok _ _ _ _ _ (collect_obj _ _ _ tr H1)),
             (bind_ok _ _ _ _ _ (collect_obj _ _ _ tr H2)).
Qed.

Lemma values_transfer d1 d2 names vs :
  (forall k, k ∈ names -> d1 !! k = d2 !! k) ->
  Forall2 (fun k v => d1 !! k = Some v) names vs ->
  Forall2 (fun k v => d2 !! k = Some v) names vs.
Proof.
  intros Hagree. induction 1 as [|k v names vs Hk _ IH]; constructor.
  - rewrite <- Hagree; [exact Hk | by left].
  - apply IH. intros k' Hk'. apply Hagree. by right.
Qed.

(** C10. Two soil requests that carry the same values under the twelve
    feature names get the same response (and cause the same invocations),
    whatever other keys they hold. *)
Theorem extra_soil_fields_are_ignored env d1 d2 :
  (forall k, k ∈ feature_names -> is_Some (d1 !! k) /\ d1 !! k = d2 !! k) ->
  soil_endpoint env (JObj d1) = soil_endpoint env (JObj d2).
Proof.
  intros Hagree.
  assert (Hall : forallb (Py.has_key d1) feature_names = true).
  { apply forallb_forall. intros k Hk%list_elem_of_In.
    apply has_key_true, Hagree, Hk. }
  destruct (forallb_has_key_values _ _ Hall) as [vs Hvs].
  assert (Hvs2 : Forall2 (fun k v => d2 !! k = Some v) feature_names vs).
  { eapply values_transfer; [|exact Hvs]. intros k Hk. by apply Hagree. }
  unfold soil_analysis.
  by rewrite (soil_try_reads_features env d1 d2 vs [] Hvs Hvs2).
Qed.

(** C4 (amended). With the soil model and scaler loaded, a request whose
    JSON object lacks one of the twelve feature keys is answered 400, and
    neither the scaler nor the model is invoked. *)
Theorem missing_soil_feature_is_client_error env d k :
  both_loaded Soil env = true ->
  k ∈ feature_names ->
  d !! k = None ->
  soil_endpoint env (JObj d)
  = (error_response
       (if Py.truthy (JObj d) then "Missing required soil features"
        else "No soil data provided")
       400,
     []).
Proof.
  intros Hloaded Hk Hmissing.
  unfold soil_analysis, soil_analysis_try.
  pose proof (loaded_flag Soil env Hloaded) as Hflag.
  cbn [key_of] in Hflag. rewrite Hflag.
  destruct (Py.truthy (JObj d)); [|reflexivity].
  cbn [negb].
  rewrite (bind_ok _ _ _ _ _ (all_in_obj _ _ _)).
  by rewrite (forallb_has_key_missing d feature_names k Hk Hmissing).
Qed.

(** The size validation of the weather handler on a payload that has a
    length other than 3. *)
Lemma weather_rejects_length env data n tr :
  Py.len data = Some n ->
  n <> 3 ->
  weather_predict_data np_array np_reshape np_item00 env data tr
  = (Some (error_response (size_message n) 400), tr).
Proof.
  intros Hlen Hn. unfold weather_predict_data.
  assert (Hrej :
    (if negb (Py.truthy data) then ret true
     else let* m := lift (Py.len data) in ret (negb (Nat.eqb m 3))) tr
    = (Some true, tr)).
  { destruct (Py.truthy data); cbn [negb]; [|reflexivity].
    rewrite (bind_ok _ _ _ _ _ (lift_ok _ _ _ Hlen)).
    apply Nat.eqb_neq in Hn. by rewrite Hn. }
  rewrite (bind_ok _ _ _ _ _ Hrej).
  by rewrite (bind_ok _ _ _ _ _ (lift_ok _ _ _ Hlen)).
Qed.

(** C1 (amended). With the weather model and scaler loaded, a request
    whose payload (the array itself, or the value under ["data"]) has a
    length other than 3 is answered 400 with a message that states the
    length received. *)
Theorem wrong_weather_size_is_client_error env request_json data n :
  both_loaded Weather env = true ->
  payload request_json data ->
  Py.len data = Some n ->
  n <> 3 ->
  weather_endpoint env request_json = (error_response (size_message n) 400, []).
Proof.
  intros Hloaded Hpayload Hlen Hn.
  unfold weather_prediction, weather_prediction_try.
  pose proof (loaded_flag Weather env Hloaded) as Hflag.
  cbn [key_of] in Hflag. rewrite Hflag.
  destruct request_json as [| | | | |l|d]; simpl in Hpayload; try contradiction.
  - subst data. by rewrite (weather_rejects_length env _ n [] Hlen Hn).
  - unfold Py.get. rewrite Hpayload.
    by rewrite (weather_rejects_length env _ n [] Hlen Hn).
Qed.

(** The bare array and the object that wraps it under ["data"] are
    handled alike. *)
Lemma weather_data_key (env : @artifacts ndarray) (xs : list json) :
  weather_endpoint env (JArr xs)
  = weather_endpoint env (JObj {[ "data" := JArr xs ]}).
Proof.
  unfold weather_prediction, weather_prediction_try, Py.get.
  by rewrite lookup_singleton_eq.
Qed.

(** C3. For three numbers, the request [[a, b, c]] and the request
    [{"data": [a, b, c]}] get the same response, status and predicted
    temperature included, from the same loaded model and scaler. *)
Theorem weather_formats_agree (env : @artifacts ndarray) (a b c : Q) :
  weather_endpoint env (JArr [JNum a; JNum b; JNum c])
  = weather_endpoint env (JObj {[ "data" := JArr [JNum a; JNum b; JNum c] ]}).
Proof. apply weather_data_key. Qed.

Lemma numeric_values d names (xs : list Q) :
  Forall2 (fun k x => d !! k = Some (JNum x)) names xs ->
  Forall2 (fun k v => d !! k = Some v) names (JNum <$> xs).
Proof. induction 1; constructor; assumption. Qed.

Lemma fertility_high p q :
  F32.valid p = true -> F32.value p = Some q ->
  fertility p = "High" <-> (1 # 2 < q)%Q.
Proof.
  intros Hvalid Hvalue. rewrite <- (gt_half_iff p q Hvalid Hvalue).
  unfold fertility. destruct (F32.ltb F32.half p); split; try discriminate; done.
Qed.

Lemma fertility_low p q :
  F32.valid p = true -> F32.value p = Some q ->
  fertility p = "Low" <-> ~ (1 # 2 < q)%Q.
Proof.
  intros Hvalid Hvalue. rewrite <- (gt_half_iff p q Hvalid Hvalue).
  unfold fertility. destruct (F32.ltb F32.half p); split; try discriminate; done.
Qed.

(** A soil request that holds the twelve features, when the scaler and the
    model answer: the 200 response, after one transform and one predict. *)
Lemma soil_request_answered env d vs sc m arr scaled pred p :
  SCALERS env !! "soil" = Some sc ->
  MODELS env !! "soil" = Some m ->
  Forall2 (fun k v => d !! k = Some v) feature_names vs ->
  np_array (JArr [JArr vs]) = Some arr ->
  transform sc arr = Some scaled ->
  predict m scaled = Some pred ->
  np_item00 pred = Some p ->
  soil_endpoint env (JObj d)
  = (Response
       (jsonify [("fertility_status", JStr (fertility p));
                 ("confidence", JFloat (F32.mul p F32.hundred))])
       200,
     [EvTransform "soil"; EvPredict "soil"]).
Proof.
  intros Hsc Hm Hvs Harr Hscaled Hpred Hp.
  assert (Hn : exists v, d !! "N" = Some v) by (inversion Hvs; subst; eauto).
  destruct Hn as [v Hn].
  unfold soil_analysis, soil_analysis_try, Py.has_key.
  rewrite Hsc, Hm. cbn [negb orb].
  rewrite (truthy_obj_lookup _ _ _ Hn). cbn [negb].
  rewrite (bind_ok _ _ _ _ _ (all_in_obj _ _ _)).
  rewrite (forallb_has_key_intro _ _ _ Hvs). cbn [negb].
  rewrite (bind_ok _ _ _ _ _ (collect_obj _ _ _ [] Hvs)).
  rewrite (bind_ok _ _ _ _ _ (lift_ok _ _ _ Harr)).
  rewrite (bind_ok _ _ _ _ _ (lift_ok (Some sc) sc _ eq_refl)).
  rewrite (bind_ok _ _ _ _ _ (call_transform_ok _ _ _ _ _ Hscaled)).
  rewrite (bind_ok _ _ _ _ _ (lift_ok (Some m) m _ eq_refl)).
  rewrite (bind_ok _ _ _ _ _ (call_predict_ok _ _ _ _ _ Hpred)).
  by rewrite (bind_ok _ _ _ _ _ (lift_ok _ _ _ Hp)).
Qed.

(** C2. A soil request that holds the twelve features as numbers, on
    which the scaler and the model answer and the model's scalar [p], a
    float32, stands for a number [q] in [0,1], gets the 200 response whose
    [fertility_status] is "High" exactly when [q > 0.5] and "Low"
    otherwise and whose [confidence] is the float32 product of [p] by 100:
    a finite number in [0,100], the product [q * 100] rounded, within
    2^-18 of it. *)
Theorem soil_success_response env d (xs : list Q) sc m arr scaled pred p q :
  SCALERS env !! "soil" = Some sc ->
  MODELS env !! "soil" = Some m ->
  Forall2 (fun k x => d !! k = Some (JNum x)) feature_names xs ->
  np_array (JArr [JArr (JNum <$> xs)]) = Some arr ->
  transform sc arr = Some scaled ->
  predict m scaled = Some pred ->
  np_item00 pred = Some p ->
  F32.valid p = true ->
  F32.value p = Some q ->
  (0 <= q <= 1)%Q ->
  soil_endpoint env (JObj d)
  = (Response
       (jsonify [("fertility_status", JStr (fertility p));
                 ("confidence", JFloat (F32.mul p F32.hundred))])
       200,
     [EvTransform "soil"; EvPredict "soil"])
  /\ (fertility p = "High" <-> (1 # 2 < q)%Q)
  /\ (fertility p = "Low" <-> ~ (1 # 2 < q)%Q)
  /\ exists c,
       F32.value (F32.mul p F32.hundred) = Some c
       /\ (0 <= c <= 100)%Q
       /\ (q * 100 - (1 # 262144) <= c <= q * 100 + (1 # 262144))%Q.
Proof.
  intros Hsc Hm Hxs Harr Hscaled Hpred Hp Hvalid Hvalue Hrange.
  split; [|split; [by apply fertility_high|split; [by apply fertility_low|]]];
    [|by apply (mul_hundred_close p q)].
  apply numeric_values in Hxs.
  by apply (soil_request_answered env d (JNum <$> xs) sc m arr scaled pred p).
Qed.

(** Conversely, a 200 response of the soil handler to a JSON object can
    only be that one: every step answered, and the body is computed from
    the model's scalar. *)
Lemma soil_success_inversion env d r tr :
  soil_endpoint env (JObj d) = (r, tr) ->
  status r = 200%Z ->
  exists vs sc m arr scaled pred p,
    Forall2 (fun k v => d !! k = Some v) feature_names vs
    /\ SCALERS env !! "soil" = Some sc
    /\ MODELS env !! "soil" = Some m
    /\ np_array (JArr [JArr vs]) = Some arr
    /\ transform sc arr = Some scaled
    /\ predict m scaled = Some pred
    /\ np_item00 pred = Some p
    /\ r = Response
             (jsonify [("fertility_status", JStr (fertility p));
                       ("confidence", JFloat (F32.mul p F32.hundred))])
             200
    /\ tr = [EvTransform "soil"; EvPredict "soil"].
Proof.
  unfold soil_analysis, soil_analysis_try.
  destruct (negb (Py.has_key (MODELS env) "soil")
            || negb (Py.has_key (SCALERS env) "soil"));
    [intros [= <- <-]; discriminate|].
  destruct (Py.truthy (JObj d)); cbn [negb];
    [|intros [= <- <-]; discriminate].
  rewrite (bind_ok _ _ _ _ _ (all_in_obj _ _ _)).
  destruct (forallb (Py.has_key d) feature_names) eqn:Hall; cbn [negb];
    [|intros [= <- <-]; discriminate].
  destruct (forallb_has_key_values _ _ Hall) as [vs Hvs].
  rewrite (bind_ok _ _ _ _ _ (collect_obj _ _ _ [] Hvs)).
  unfold bind, lift, call_transform, call_predict, bind, emit, modify, lift, ret, raise.
  destruct (np_array (JArr [JArr vs])) as [arr|] eqn:Harr;
    [|intros [= <- <-]; discriminate].
  destruct (SCALERS env !! "soil") as [sc|] eqn:Hsc;
    [|intros [= <- <-]; discriminate].
  cbn [app]. destruct (transform sc arr) as [scaled|] eqn:Hscaled;
    [|intros [= <- <-]; discriminate].
  destruct (MODELS env !! "soil") as [m|] eqn:Hm;
    [|intros [= <- <-]; discriminate].
  cbn [app]. destruct (predict m scaled) as [pred|] eqn:Hpred;
    [|intros [= <- <-]; discriminate].
  destruct (np_item00 pred) as [p|] eqn:Hp;
    [|intros [= <- <-]; discriminate].
  intros [= <- <-] _. by exists vs, sc, m, arr, scaled, pred, p.
Qed.

End ServiceFacts.

(** * Properties of the artifact loader *)

Section LoaderFacts.

Context {ndarray content : Type}.
Variable app_file : string.
Variable load_model : bool -> content -> option (@Model ndarray).
Variable joblib_load : content -> option (@Scaler ndarray).
Variable import_module_from_file : string -> string -> M (gmap string content) unit.

Implicit Types (fs : gmap string content).

Local Abbreviation dicts :=
  (gmap string (@Model ndarray) * gmap string (@Scaler ndarray))%type.

(** A guarded load either raises and leaves the dicts as they are, or
    stores the artifact (or finds no file) and goes on. *)
Lemma load_if_present_raises {A} fs path (loader : content -> option A)
    (put : A -> dicts -> dicts) st :
  load_raises fs path loader = true ->
  load_if_present fs path loader (fun a => modify (put a)) st = (None, st).
Proof.
  unfold load_raises, load_if_present, path_exists, Py.has_key.
  destruct (fs !! path) as [c|]; [|discriminate].
  unfold bind, lift. simpl. by destruct (loader c).
Qed.

Lemma load_if_present_goes_on {A} fs path (loader : content -> option A)
    (put : A -> dicts -> dicts) st :
  load_raises fs path loader = false ->
  exists st', load_if_present fs path loader (fun a => modify (put a)) st
              = (Some tt, st').
Proof.
  unfold load_raises, load_if_present, path_exists, Py.has_key.
  destruct (fs !! path) as [c|]; [|by exists st].
  unfold bind, lift. simpl. destruct (loader c) as [a|]; [|discriminate].
  intros _. by exists (put a st).
Qed.

(** The body of the [try] raises as soon as one of the four loads does. *)
Lemma load_try_raises fs :
  loading_raises app_file load_model joblib_load fs = true ->
  exists st, load_try app_file load_model joblib_load fs (∅, ∅) = (None, st).
Proof.
  unfold loading_raises, load_try, set_model, set_scaler.
  generalize ((∅, ∅) : dicts). intros st0 Hraises.
  destruct (load_raises fs (soil_model_path app_file) (load_model false)) eqn:E1.
  { exists st0. apply bind_raised. by apply load_if_present_raises. }
  eapply load_if_present_goes_on in E1 as [st1 E1].
  rewrite (bind_ok _ _ _ _ _ E1).
  destruct (load_raises fs (soil_scaler_path app_file) joblib_load) eqn:E2.
  { exists st1. apply bind_raised. by apply load_if_present_raises. }
  eapply load_if_present_goes_on in E2 as [st2 E2].
  rewrite (bind_ok _ _ _ _ _ E2).
  destruct (load_raises fs (weather_model_path app_file) (load_model true)) eqn:E3.
  { exists st2. apply bind_raised. by apply load_if_present_raises. }
  eapply load_if_present_goes_on in E3 as [st3 E3].
  rewrite (bind_ok _ _ _ _ _ E3).
  simpl in Hraises.
  exists st3. by apply load_if_present_raises.
Qed.

(** C6. If a load of the loading phase raises, on the file system the
    build steps left, [load_models_and_scalers] returns two empty
    mappings: what was loaded before the failure is dropped. *)
Theorem load_failure_clears_all fs :
  loading_raises app_file load_model joblib_load
    (snd (build_phase app_file import_module_from_file fs)) = true ->
  fst (load_models_and_scalers app_file load_model joblib_load
         import_module_from_file fs)
  = (∅, ∅).
Proof.
  intros Hraises. unfold load_models_and_scalers, load_phase. simpl.
  destruct (load_try_raises _ Hraises) as [st Hst]. by rewrite Hst.
Qed.

End LoaderFacts.

(** * Paths of the loader and of the preprocessing script *)

Section PathFacts.

Implicit Types (x y a b : string).

Lemma append_assoc_s x y z : ((x ++ y) ++ z = x ++ (y ++ z))%string.
Proof. induction x as [|c x IH]; [reflexivity|]. cbv [append]. fold append. by f_equal. Qed.

Lemma length_append_s x y :
  String.length (x ++ y) = (String.length x + String.length y)%nat.
Proof. induction x as [|c x IH]; [reflexivity|]. cbv [append]. fold append. simpl. by f_equal. Qed.

(** Two equal strings have the same suffix of a given length. *)
Lemma suffix_eq x y a b :
  (x ++ a = y ++ b)%string -> String.length a = String.length b -> a = b.
Proof.
  revert y. induction x as [|c x IH]; intros [|c' y] Heq Hlen.
  - exact Heq.
  - exfalso. cbv [append] in Heq. fold append in Heq. subst a.
    simpl in Hlen. rewrite length_append_s in Hlen. lia.
  - exfalso. cbv [append] in Heq. fold append in Heq. subst b.
    simpl in Hlen. rewrite length_append_s in Hlen. lia.
  - cbv [append] in Heq. fold append in Heq. injection Heq as _ Heq. by eapply IH.
Qed.

Lemma differ_by_suffix x y a a' b b' :
  String.length a' = String.length b' -> a' <> b' ->
  (x ++ (a ++ a') <> y ++ (b ++ b'))%string.
Proof.
  intros Hlen Hne Heq. rewrite <- !append_assoc_s in Heq.
  by apply suffix_eq in Heq.
Qed.

Lemma ends_with_sep_append x y :
  y <> "" -> Path.ends_with_sep (x ++ y) = Path.ends_with_sep y.
Proof.
  intros Hy. induction x as [|c x IH]; [reflexivity|].
  cbv [append]. fold append. simpl. rewrite IH.
  destruct (x ++ y)%string eqn:E; [|reflexivity].
  destruct x; [by destruct y | discriminate].
Qed.

Lemma nonempty_append x y : y <> "" -> String.eqb (x ++ y) "" = false.
Proof. intros Hy. destruct x; [by destruct y | reflexivity]. Qed.

(** Joining a relative component appends it, after a separator when one
    is needed. *)
Lemma join2_relative path b :
  Path.starts_with_sep b = false -> exists pre, Path.join2 path b = (pre ++ b)%string.
Proof.
  intros Hb. unfold Path.join2. rewrite Hb.
  destruct (String.eqb path "" || Path.ends_with_sep path).
  - by exists path.
  - exists (path ++ "/")%string. by rewrite append_assoc_s.
Qed.

Lemma join2_after x y b :
  y <> "" -> Path.ends_with_sep y = false -> Path.starts_with_sep b = false ->
  Path.join2 (x ++ y) b = (x ++ (y ++ "/" ++ b))%string.
Proof.
  intros Hy Hend Hb. unfold Path.join2.
  rewrite Hb, nonempty_append, ends_with_sep_append, Hend by done.
  simpl. by rewrite append_assoc_s.
Qed.

(** Three relative components joined to a root: the root, possibly a
    separator, then the components separated by ["/"]. *)
Lemma join_three root a b c :
  a <> "" -> b <> "" ->
  Path.starts_with_sep a = false -> Path.ends_with_sep a = false ->
  Path.starts_with_sep b = false -> Path.ends_with_sep b = false ->
  Path.starts_with_sep c = false ->
  exists pre,
    Path.join root [a; b; c] = (pre ++ (a ++ "/" ++ b ++ "/" ++ c))%string.
Proof.
  intros Ha Hb Has Hae Hbs Hbe Hcs. unfold Path.join. simpl.
  destruct (join2_relative root a Has) as [pre ->]. exists pre.
  rewrite (join2_after pre a b) by done.
  rewrite (join2_after pre (a ++ "/" ++ b) c).
  - by rewrite !append_assoc_s.
  - destruct a; [done | discriminate].
  - rewrite (ends_with_sep_append a ("/" ++ b)) by discriminate.
    by rewrite (ends_with_sep_append "/" b).
  - exact Hcs.
Qed.

Lemma soil_scaler_path_shape app_file :
  exists pre, soil_scaler_path app_file
              = (pre ++ "Models/Soil_analysis/scaler.pkl")%string.
Proof.
  unfold soil_scaler_path.
  destruct (join_three (project_root app_file) "Models" "Soil_analysis" "scaler.pkl")
    as [pre Hpre]; try done.
  by exists pre.
Qed.

Lemma resolve_relative cwd p :
  Path.starts_with_sep p = false -> exists pre, Path.resolve cwd p = (pre ++ p)%string.
Proof. apply join2_relative. Qed.

Lemma resolve_inj cwd p q :
  Path.starts_with_sep p = false -> Path.starts_with_sep q = false ->
  Path.resolve cwd p = Path.resolve cwd q -> p = q.
Proof.
  intros Hp Hq. unfold Path.resolve, Path.join2. rewrite Hp, Hq.
  destruct (String.eqb cwd "" || Path.ends_with_sep cwd); intros Heq.
  - by apply (inj (String.append cwd)) in Heq.
  - apply (inj (String.append cwd)) in Heq. by injection Heq.
Qed.

End PathFacts.

(** Two distinct relative literals resolve to distinct paths. *)
Ltac distinct_paths :=
  let Heq := fresh "Heq" in
  intros Heq; apply resolve_inj in Heq; [discriminate Heq | reflexivity | reflexivity].

(** * Properties of the preprocessing script *)

Section PreprocessFacts.

Context {content frame fitted rng : Type}.
Variable read_csv : content -> option frame.
Variable drop_columns : list string -> frame -> option frame.
Variable column : string -> frame -> option frame.
Variable DataFrame_columns_of : frame -> frame -> option frame.
Variable DataFrame : frame -> option frame.
Variable to_csv : frame -> content.
Variable RandomState : Z -> rng.
Variable shuffle_split :
  frame -> frame -> Q -> rng -> option (frame * frame * frame * frame).
Variable ambient : rng.
Variable fit : frame -> option fitted.
Variable transform_with : fitted -> frame -> option frame.
Variable joblib_dump : fitted -> content.
Variable write_error :
  gmap string content -> string -> content -> option (option content).
Variable cwd : string.

Local Abbreviation state := (@pstate content frame).
Local Abbreviation P := (M state).
Local Abbreviation script :=
  (preprocess read_csv drop_columns column DataFrame_columns_of DataFrame to_csv
     RandomState shuffle_split ambient fit transform_with joblib_dump
     write_error cwd).
Local Abbreviation run :=
  (run_preprocess read_csv drop_columns column DataFrame_columns_of DataFrame to_csv
     RandomState shuffle_split ambient fit transform_with joblib_dump
     write_error cwd).
Local Abbreviation seeded_split := (train_test_split RandomState shuffle_split).
Local Abbreviation partition :=
  (load_and_split read_csv drop_columns column RandomState shuffle_split).

(** *** What the script leaves alone *)

Lemma keeps_ret {A} W (a : A) : keeps W (ret a : P A).
Proof. by intros s p _. Qed.

Lemma keeps_lift {A} W (o : option A) : keeps W (lift o : P A).
Proof. by destruct o; intros s p _. Qed.

Lemma keeps_get W : keeps W (get_state : P state).
Proof. by intros s p _. Qed.

Lemma keeps_log W (o : @op frame) : keeps W (log (content := content) o).
Proof. by intros s p _. Qed.

Lemma keeps_bind {A B} W (c : P A) (k : A -> P B) :
  keeps W c -> (forall a, keeps W (k a)) -> keeps W (bind c k).
Proof.
  intros Hc Hk s p Hp. unfold bind. specialize (Hc s p Hp).
  destruct (c s) as [[a|] s']; [|exact Hc].
  rewrite (Hk a s' p Hp). exact Hc.
Qed.

(** A write changes the file at its own path only, also when it raises
    half way. *)
Lemma keeps_save W path (c : content) :
  Path.resolve cwd path ∈ W ->
  keeps W (save (frame := frame) write_error cwd path c).
Proof.
  intros Hin s p Hp. unfold save, bind, log, modify, get_state, raise, write_file.
  cbn -[Path.resolve].
  destruct (write_error _ _ _) as [[c'|]|]; cbn -[Path.resolve];
    try reflexivity;
    apply lookup_insert_ne; intros Heq; subst p; contradiction.
Qed.

Lemma script_keeps : keeps (output_paths cwd) script.
Proof.
  assert (Hout : forall path,
    path ∈ [X_train_path; X_test_path; y_train_path; y_test_path; scaler_path] ->
    Path.resolve cwd path ∈ output_paths cwd).
  { intros path Hpath. by apply list_elem_of_fmap_2. }
  unfold preprocess, load_and_split, read_file, split,
    scaler_fit_transform, scaler_transform.
  repeat first
    [ apply keeps_ret | apply keeps_lift | apply keeps_get | apply keeps_log
    | apply keeps_save; apply Hout; repeat constructor
    | apply keeps_bind; [|intros ?]
    | match goal with
      | |- keeps _ (let '(_, _) := ?x in _) => destruct x
      end ].
Qed.

(** *** Each step of the script, when the library call answers *)

Lemma read_file_ok path text (s : state) :
  files s !! Path.resolve cwd path = Some text ->
  read_file cwd path s
  = (Some text, PState (files s) (oplog s ++ [OpRead (Path.resolve cwd path)])).
Proof.
  intros Hfile. unfold read_file, bind, log, modify, get_state.
  cbn -[Path.resolve]. by rewrite Hfile.
Qed.

(** A write that completes, and one that raises. *)
Lemma save_ok path (c : content) (fs : gmap string content) (l : list (@op frame)) :
  write_error fs (Path.resolve cwd path) c = None ->
  save write_error cwd path c (PState fs l)
  = (Some tt,
     PState (write_file (Path.resolve cwd path) c fs)
       (l ++ [OpWrite (Path.resolve cwd path)])).
Proof.
  intros Hw. unfold save, bind, log, modify, get_state.
  cbn -[Path.resolve]. by rewrite Hw.
Qed.

Lemma save_raises path (c : content) (fs : gmap string content)
    (l : list (@op frame)) e :
  write_error fs (Path.resolve cwd path) c = Some e ->
  save write_error cwd path c (PState fs l)
  = (None,
     PState
       match e with
       | None => fs
       | Some c' => write_file (Path.resolve cwd path) c' fs
       end
       (l ++ [OpWrite (Path.resolve cwd path)])).
Proof.
  intros Hw. unfold save, bind, log, modify, get_state, raise.
  cbn -[Path.resolve]. rewrite Hw. by destruct e.
Qed.

(** With an integer [random_state] the split does not consult the ambient
    generator [g]. *)
Lemma seeded_split_ambient g g' X y test_size seed :
  seeded_split g X y test_size (Some seed)
  = seeded_split g' X y test_size (Some seed).
Proof. reflexivity. Qed.

Lemma split_ok g X y test_size random_state parts (s : state) :
  seeded_split g X y test_size (Some random_state) = Some parts ->
  split RandomState shuffle_split g X y test_size random_state s
  = (Some parts, PState (files s) (oplog s ++ [OpSplit test_size random_state])).
Proof. intros Hs. unfold split, bind, log, modify. cbn. by rewrite Hs. Qed.

Lemma scaler_transform_ok sc X Xs (s : state) :
  transform_with sc X = Some Xs ->
  scaler_transform transform_with sc X s
  = (Some Xs, PState (files s) (oplog s ++ [OpTransform X])).
Proof. intros Ht. unfold scaler_transform, bind, log, modify. cbn. by rewrite Ht. Qed.

Lemma scaler_fit_transform_ok X sc Xs (s : state) :
  fit X = Some sc ->
  transform_with sc X = Some Xs ->
  scaler_fit_transform fit transform_with X s
  = (Some (sc, Xs), PState (files s) (oplog s ++ [OpFit X; OpTransform X])).
Proof.
  intros Hf Ht. unfold scaler_fit_transform, bind at 1, log, modify. cbn [fst snd].
  rewrite (bind_ok _ _ _ _ _ (lift_ok _ _ _ Hf)).
  rewrite (bind_ok _ _ _ _ _ (scaler_transform_ok _ _ _ _ Ht)).
  cbn. by rewrite <- app_assoc.
Qed.

Lemma load_and_split_ok g text data X y parts (s : state) :
  files s !! Path.resolve cwd csv_path = Some text ->
  read_csv text = Some data ->
  drop_columns ["Output"] data = Some X ->
  column "Output" data = Some y ->
  seeded_split g X y (2 # 10) (Some 42%Z) = Some parts ->
  partition g cwd s
  = (Some (X, parts),
     PState (files s)
       (oplog s ++ [OpRead (Path.resolve cwd csv_path); OpSplit (2 # 10) 42])).
Proof.
  intros Hfile Hread HX Hy Hsplit. unfold load_and_split.
  rewrite (bind_ok _ _ _ _ _ (read_file_ok _ _ _ Hfile)).
  rewrite (bind_ok _ _ _ _ _ (lift_ok _ _ _ Hread)).
  rewrite (bind_ok _ _ _ _ _ (lift_ok _ _ _ HX)).
  rewrite (bind_ok _ _ _ _ _ (lift_ok _ _ _ Hy)).
  rewrite (bind_ok _ _ _ _ _ (split_ok _ _ _ _ _ _ _ Hsplit)).
  cbn -[Path.resolve]. by rewrite <- app_assoc.
Qed.

(** The script up to its first write: the computation it has made, and
    what is left to run. *)
Lemma script_until_first_write text data X y X_train X_test y_train y_test sc
    Xtr Xte df1 (fs : gmap string content) :
  fs !! Path.resolve cwd csv_path = Some text ->
  read_csv text = Some data ->
  drop_columns ["Output"] data = Some X ->
  column "Output" data = Some y ->
  seeded_split ambient X y (2 # 10) (Some 42%Z)
  = Some (X_train, X_test, y_train, y_test) ->
  fit X_train = Some sc ->
  transform_with sc X_train = Some Xtr ->
  transform_with sc X_test = Some Xte ->
  DataFrame_columns_of Xtr X = Some df1 ->
  script (PState fs [])
  = (let* _ := save write_error cwd X_train_path (to_csv df1) in
     let* df2 := lift (DataFrame_columns_of Xte X) in
     let* _ := save write_error cwd X_test_path (to_csv df2) in
     let* df3 := lift (DataFrame y_train) in
     let* _ := save write_error cwd y_train_path (to_csv df3) in
     let* df4 := lift (DataFrame y_test) in
     let* _ := save write_error cwd y_test_path (to_csv df4) in
     save write_error cwd scaler_path (joblib_dump sc))
      (PState fs
         [OpRead (Path.resolve cwd csv_path); OpSplit (2 # 10) 42;
          OpFit X_train; OpTransform X_train; OpTransform X_test]).
Proof.
  intros Hfile Hread HX Hy Hsplit Hfit Htr Hte H1. unfold preprocess.
  rewrite (bind_ok _ _ _ _ _
             (load_and_split_ok _ _ _ _ _ _ (PState fs []) Hfile Hread HX Hy Hsplit)).
  rewrite (bind_ok _ _ _ _ _ (scaler_fit_transform_ok _ _ _ _ Hfit Htr)).
  rewrite (bind_ok _ _ _ _ _ (scaler_transform_ok _ _ _ _ Hte)).
  rewrite (bind_ok _ _ _ _ _ (lift_ok _ _ _ H1)).
  reflexivity.
Qed.

Lemma script_ok text data X y X_train X_test y_train y_test sc
    Xtr Xte df1 df2 df3 df4 (fs : gmap string content) :
  fs !! Path.resolve cwd csv_path = Some text ->
  read_csv text = Some data ->
  drop_columns ["Output"] data = Some X ->
  column "Output" data = Some y ->
  seeded_split ambient X y (2 # 10) (Some 42%Z)
  = Some (X_train, X_test, y_train, y_test) ->
  fit X_train = Some sc ->
  transform_with sc X_train = Some Xtr ->
  transform_with sc X_test = Some Xte ->
  DataFrame_columns_of Xtr X = Some df1 ->
  DataFrame_columns_of Xte X = Some df2 ->
  DataFrame y_train = Some df3 ->
  DataFrame y_test = Some df4 ->
  writes_complete write_error fs
    (script_writes cwd (to_csv df1) (to_csv df2) (to_csv df3) (to_csv df4)
       (joblib_dump sc)) = true ->
  script (PState fs [])
  = (Some tt,
     PState
       (written cwd (to_csv df1) (to_csv df2) (to_csv df3) (to_csv df4)
          (joblib_dump sc) fs)
       (steps_of cwd X_train X_test)).
Proof.
  intros Hfile Hread HX Hy Hsplit Hfit Htr Hte H1 H2 H3 H4 Hw.
  rewrite (script_until_first_write _ _ _ _ _ _ _ _ _ _ _ _ _
             Hfile Hread HX Hy Hsplit Hfit Htr Hte H1).
  unfold script_writes in Hw. cbn [writes_complete] in Hw.
  destruct (write_error fs _ _) eqn:W1 in Hw; [discriminate|].
  destruct (write_error (write_file _ _ fs) _ _) eqn:W2 in Hw; [discriminate|].
  destruct (write_error (write_file _ _ (write_file _ _ fs)) _ _) eqn:W3 in Hw;
    [discriminate|].
  destruct (write_error (write_file _ _ (write_file _ _ (write_file _ _ fs))) _ _)
    eqn:W4 in Hw; [discriminate|].
  destruct (write_error _ _ _) eqn:W5 in Hw; [discriminate|].
  rewrite (bind_ok _ _ _ _ _ (save_ok _ _ _ _ W1)).
  rewrite (bind_ok _ _ _ _ _ (lift_ok _ _ _ H2)).
  rewrite (bind_ok _ _ _ _ _ (save_ok _ _ _ _ W2)).
  rewrite (bind_ok _ _ _ _ _ (lift_ok _ _ _ H3)).
  rewrite (bind_ok _ _ _ _ _ (save_ok _ _ _ _ W3)).
  rewrite (bind_ok _ _ _ _ _ (lift_ok _ _ _ H4)).
  rewrite (bind_ok _ _ _ _ _ (save_ok _ _ _ _ W4)).
  rewrite (save_ok _ _ _ _ W5). reflexivity.
Qed.

(** *** The files written *)

Lemma csv_path_not_output : Path.resolve cwd csv_path ∉ output_paths cwd.
Proof.
  unfold output_paths. cbn [fmap list_fmap].
  repeat (apply not_elem_of_cons; split; [distinct_paths|]).
  apply not_elem_of_nil.
Qed.

Lemma written_outside c1 c2 c3 c4 c5 (fs : gmap string content) p :
  p ∉ output_paths cwd -> written cwd c1 c2 c3 c4 c5 fs !! p = fs !! p.
Proof.
  unfold output_paths. cbn [fmap list_fmap]. intros Hp.
  repeat (apply not_elem_of_cons in Hp as [? Hp]).
  unfold written, write_file. by rewrite !lookup_insert_ne.
Qed.

Lemma written_again c1 c2 c3 c4 c5 (fs : gmap string content) :
  written cwd c1 c2 c3 c4 c5 (written cwd c1 c2 c3 c4 c5 fs)
  = written cwd c1 c2 c3 c4 c5 fs.
Proof.
  unfold written, write_file. apply map_eq. intros p.
  rewrite !lookup_insert. by repeat case_decide.
Qed.

Lemma written_contents c1 c2 c3 c4 c5 (fs : gmap string content) :
  let fs' := written cwd c1 c2 c3 c4 c5 fs in
  fs' !! Path.resolve cwd X_train_path = Some c1
  /\ fs' !! Path.resolve cwd X_test_path = Some c2
  /\ fs' !! Path.resolve cwd y_train_path = Some c3
  /\ fs' !! Path.resolve cwd y_test_path = Some c4
  /\ fs' !! Path.resolve cwd scaler_path = Some c5.
Proof.
  unfold written, write_file. cbn zeta.
  repeat split;
    repeat first
      [ apply lookup_insert_eq
      | rewrite lookup_insert_ne by distinct_paths ].
Qed.

(** C8. A run of the script in which every library call answers and each
    of the five writes completes: it reads the fixed CSV, splits with
    [test_size] 0.2 and [random_state] 42, fits the scaler on the training
    features and on nothing else, transforms both partitions with it, and
    writes the four CSV files and the fitted scaler to their fixed paths,
    in this order; no other file changes.  The partition is reproducible:
    the seed being given, it is the same from every state of the ambient
    random generator and on every file system that holds the same input
    CSV, in particular on the one the run has left; and a second run there,
    if its writes complete, takes the same steps and leaves the same
    files. *)
Theorem preprocess_run_steps text data X y X_train X_test y_train y_test sc
    Xtr Xte df1 df2 df3 df4 (fs : gmap string content) :
  fs !! Path.resolve cwd csv_path = Some text ->
  read_csv text = Some data ->
  drop_columns ["Output"] data = Some X ->
  column "Output" data = Some y ->
  train_test_split RandomState shuffle_split ambient X y (2 # 10) (Some 42%Z)
  = Some (X_train, X_test, y_train, y_test) ->
  fit X_train = Some sc ->
  transform_with sc X_train = Some Xtr ->
  transform_with sc X_test = Some Xte ->
  DataFrame_columns_of Xtr X = Some df1 ->
  DataFrame_columns_of Xte X = Some df2 ->
  DataFrame y_train = Some df3 ->
  DataFrame y_test = Some df4 ->
  let outputs :=
    script_writes cwd (to_csv df1) (to_csv df2) (to_csv df3) (to_csv df4)
      (joblib_dump sc) in
  let fs' :=
    written cwd (to_csv df1) (to_csv df2) (to_csv df3) (to_csv df4)
      (joblib_dump sc) fs in
  writes_complete write_error fs outputs = true ->
  run fs = (Some tt, PState fs' (steps_of cwd X_train X_test))
  /\ (fs' !! Path.resolve cwd X_train_path = Some (to_csv df1)
      /\ fs' !! Path.resolve cwd X_test_path = Some (to_csv df2)
      /\ fs' !! Path.resolve cwd y_train_path = Some (to_csv df3)
      /\ fs' !! Path.resolve cwd y_test_path = Some (to_csv df4)
      /\ fs' !! Path.resolve cwd scaler_path = Some (joblib_dump sc))
  /\ (forall p, p ∉ output_paths cwd -> fs' !! p = fs !! p)
  /\ (forall (g : rng) (fs2 : gmap string content),
        fs2 !! Path.resolve cwd csv_path = Some text ->
        fst (load_and_split read_csv drop_columns column RandomState shuffle_split
               g cwd (PState fs2 []))
        = Some (X, (X_train, X_test, y_train, y_test)))
  /\ fs' !! Path.resolve cwd csv_path = Some text
  /\ (writes_complete write_error fs' outputs = true ->
      run fs' = (Some tt, PState fs' (steps_of cwd X_train X_test))).
Proof.
  intros Hfile Hread HX Hy Hsplit Hfit Htr Hte H1 H2 H3 H4 outputs fs' Hw.
  assert (Hfile' : fs' !! Path.resolve cwd csv_path = Some text).
  { unfold fs'. rewrite written_outside; [exact Hfile | apply csv_path_not_output]. }
  split.
  { unfold run_preprocess.
    exact (script_ok _ _ _ _ _ _ _ _ _ _ _ _ _ _ _ _
             Hfile Hread HX Hy Hsplit Hfit Htr Hte H1 H2 H3 H4 Hw). }
  split; [apply written_contents|].
  split; [intros p Hp; by apply written_outside|].
  split.
  { intros g fs2 Hfile2.
    by rewrite (load_and_split_ok g _ _ _ _ _ (PState fs2 [])
                  Hfile2 Hread HX Hy Hsplit). }
  split; [exact Hfile'|].
  intros Hw'. unfold run_preprocess.
  rewrite (script_ok _ _ _ _ _ _ _ _ _ _ _ _ _ _ _ _
             Hfile' Hread HX Hy Hsplit Hfit Htr Hte H1 H2 H3 H4 Hw').
  unfold fs'. by rewrite written_again.
Qed.

(** *** The scaler the loader looks for *)

Lemma soil_scaler_path_not_output app_file :
  soil_scaler_path app_file ∉ output_paths cwd.
Proof.
  destruct (soil_scaler_path_shape app_file) as [pre ->].
  unfold output_paths. cbn [fmap list_fmap].
  assert (Hcsv : forall stem,
    Path.starts_with_sep (stem ++ ".csv") = false ->
    (pre ++ "Models/Soil_analysis/scaler.pkl")%string
    <> Path.resolve cwd (stem ++ ".csv")).
  { intros stem Hrel. destruct (resolve_relative cwd _ Hrel) as [pre' ->].
    by apply (differ_by_suffix pre pre' "Models/Soil_analysis/scaler" ".pkl"
                stem ".csv"). }
  apply not_elem_of_cons; split; [by apply (Hcsv "Data/Soil/X_train_scaled")|].
  apply not_elem_of_cons; split; [by apply (Hcsv "Data/Soil/X_test_scaled")|].
  apply not_elem_of_cons; split; [by apply (Hcsv "Data/Soil/y_train")|].
  apply not_elem_of_cons; split; [by apply (Hcsv "Data/Soil/y_test")|].
  apply not_elem_of_cons; split; [|apply not_elem_of_nil].
  destruct (resolve_relative cwd scaler_path eq_refl) as [pre' ->].
  by apply (differ_by_suffix pre pre' "" "Models/Soil_analysis/scaler.pkl"
              "" "Models/Soil_Analysis/scaler.pkl").
Qed.

(** C9. The path the service loads the soil scaler from is not the path
    the script writes the fitted scaler to, as written and as resolved
    from any working directory; so, files being told apart by their exact
    path, a run of the script leaves whatever is (or is not) at the
    loader's path as it was: the loader does not read the scaler just
    written, and the existence test that triggers preprocessing answers
    as before. *)
Theorem loader_scaler_path_is_not_written app_file (fs : gmap string content) :
  soil_scaler_path app_file <> scaler_path
  /\ soil_scaler_path app_file <> Path.resolve cwd scaler_path
  /\ files (snd (run fs)) !! soil_scaler_path app_file
     = fs !! soil_scaler_path app_file
  /\ path_exists (files (snd (run fs))) (soil_scaler_path app_file)
     = path_exists fs (soil_scaler_path app_file).
Proof.
  assert (Hkept : files (snd (run fs)) !! soil_scaler_path app_file
                  = fs !! soil_scaler_path app_file).
  { apply (script_keeps (PState fs [])), soil_scaler_path_not_output. }
  split.
  { destruct (soil_scaler_path_shape app_file) as [pre ->].
    by apply (differ_by_suffix pre "" "" "Models/Soil_analysis/scaler.pkl"
                "" "Models/Soil_Analysis/scaler.pkl"). }
  split.
  { intros Heq. apply (soil_scaler_path_not_output app_file).
    rewrite Heq. unfold output_paths. cbn [fmap list_fmap].
    do 4 apply list_elem_of_further. apply list_elem_of_here. }
  split; [exact Hkept|].
  unfold path_exists, Py.has_key. by rewrite Hkept.
Qed.

End PreprocessFacts.

(** * The theorems on concrete requests and files *)

(** C1, amended claim, at the two-element array [[1, 2]]. *)
Lemma wrong_weather_size_witness :
  both_loaded Weather Demo.loaded = true
  /\ payload (JArr [JNum 1; JNum 2]) (JArr [JNum 1; JNum 2])
  /\ Py.len (JArr [JNum 1; JNum 2]) = Some 2%nat
  /\ Demo.weather Demo.loaded (JArr [JNum 1; JNum 2])
     = (error_response (size_message 2) 400, []).
Proof.
  split; [reflexivity|]. split; [reflexivity|]. split; [reflexivity|].
  apply (wrong_weather_size_is_client_error Demo.np_array Demo.np_reshape
           Demo.np_item00 Demo.loaded (JArr [JNum 1; JNum 2])
           (JArr [JNum 1; JNum 2]) 2);
    [reflexivity | reflexivity | reflexivity | discriminate].
Defined.

(** C1 as stated fails in two ways.  With the weather model and scaler
    loaded, the request [{}] carries no ["data"]: the handler computes
    [len(None)] for its message, which raises, and answers the generic 500
    instead of a 400 that reports 0 values.  With nothing loaded, the
    two-element array [[1, 2]] is answered 500 as well. *)
Lemma absent_weather_payload_is_server_error :
  Demo.weather Demo.loaded (JObj ∅)
  = (error_response "Internal server error during weather prediction" 500, [])
  /\ status (fst (Demo.weather Demo.loaded (JObj ∅))) <> 400%Z
  /\ Demo.weather Demo.unloaded (JArr [JNum 1; JNum 2])
     = (error_response (unavailable Weather) 500, [])
  /\ status (fst (Demo.weather Demo.unloaded (JArr [JNum 1; JNum 2]))) <> 400%Z.
Proof. repeat split; try reflexivity; vm_compute; discriminate. Qed.

(** C2 at a request holding the twelve features, the model answering the
    float32 0.75: the confidence is the float32 75. *)
Lemma soil_success_witness :
  F32.valid Demo.three_quarters = true
  /\ F32.value Demo.three_quarters = Some (F32.dyadic 12582912 (-24))
  /\ Demo.soil Demo.loaded (JObj Demo.soil_request)
     = (Response
          (jsonify [("fertility_status", JStr "High");
                    ("confidence", JFloat Demo.seventy_five)])
          200,
        [EvTransform "soil"; EvPredict "soil"])
  /\ exists c,
       F32.value (F32.mul Demo.three_quarters F32.hundred) = Some c
       /\ (0 <= c <= 100)%Q
       /\ (F32.dyadic 12582912 (-24) * 100 - (1 # 262144) <= c
           <= F32.dyadic 12582912 (-24) * 100 + (1 # 262144))%Q.
Proof.
  assert (Hvalues :
    Forall2 (fun k x => Demo.soil_request !! k = Some (JNum x))
      feature_names Demo.soil_values).
  { repeat constructor. }
  assert (Hrange : (0 <= F32.dyadic 12582912 (-24) <= 1)%Q).
  { split; vm_compute; discriminate. }
  destruct (soil_success_response Demo.np_array Demo.np_item00 Demo.loaded
              Demo.soil_request Demo.soil_values Demo.identity_scaler
              (Demo.constant_model Demo.three_quarters) Demo.soil_array
              Demo.soil_array [Demo.three_quarters] Demo.three_quarters
              (F32.dyadic 12582912 (-24))
              eq_refl eq_refl Hvalues eq_refl eq_refl eq_refl eq_refl
              eq_refl eq_refl Hrange)
    as (Hresponse & _ & _ & Hconfidence).
  split; [reflexivity|]. split; [reflexivity|].
  split; [exact Hresponse | exact Hconfidence].
Defined.

(** The product is float32's, rounded to nearest: the float32 nearest to
    0.7 lies below 0.7, and its confidence is the float32 70, above the
    exact product. *)
Example confidence_is_rounded :
  F32.valid (S754_finite false 11744051 (-24)) = true
  /\ F32.mul (S754_finite false 11744051 (-24)) F32.hundred
     = S754_finite false 9175040 (-17)
  /\ (F32.dyadic 9175040 (-17) == 70)%Q
  /\ (F32.dyadic 11744051 (-24) * 100 < 70)%Q.
Proof. repeat split. Qed.

(** A model that answers NaN: the status is Low and the confidence NaN. *)
Example nan_prediction :
  fertility S754_nan = "Low" /\ F32.mul S754_nan F32.hundred = S754_nan.
Proof. by split. Qed.

(** C4, amended claim, at a request that lacks every feature but ["N"]. *)
Lemma missing_soil_feature_witness :
  both_loaded Soil Demo.loaded = true
  /\ ({[ "N" := JNum 1 ]} : gmap string json) !! "pH" = None
  /\ Demo.soil Demo.loaded (JObj {[ "N" := JNum 1 ]})
     = (error_response "Missing required soil features" 400, []).
Proof.
  split; [reflexivity|]. split; [reflexivity|].
  unfold Demo.soil.
  rewrite (missing_soil_feature_is_client_error Demo.np_array Demo.np_item00
             Demo.loaded {[ "N" := JNum 1 ]} "pH");
    [reflexivity | reflexivity | repeat constructor | reflexivity].
Defined.

(** C4 as stated fails when the soil model is not loaded: the request that
    lacks eleven features is then answered 500, not 400. *)
Lemma missing_soil_feature_unloaded_is_server_error :
  Demo.soil Demo.unloaded (JObj {[ "N" := JNum 1 ]})
  = (error_response "Soil analysis model not loaded" 500, [])
  /\ status (fst (Demo.soil Demo.unloaded (JObj {[ "N" := JNum 1 ]}))) <> 400%Z.
Proof. split; [reflexivity | vm_compute; discriminate]. Qed.

(** C5 at the soil endpoint with only the weather model loaded. *)
Lemma absent_artifact_witness :
  both_loaded Soil Demo.weather_only = false
  /\ Demo.soil Demo.weather_only (JObj Demo.soil_request)
     = (error_response "Soil analysis model not loaded" 500, []).
Proof.
  split; [reflexivity|].
  apply (proj1 (absent_artifact_is_server_error Demo.np_array Demo.np_reshape
                  Demo.np_item00 Soil Demo.weather_only (JObj Demo.soil_request))).
  reflexivity.
Defined.

(** C6 on a file system where the soil model and scaler load and the
    weather model does not. *)
Lemma load_failure_witness :
  loading_raises Demo.app_file Demo.load_model Demo.joblib_load
    (snd (build_phase Demo.app_file Demo.no_script Demo.broken_weather)) = true
  /\ fst (load_models_and_scalers Demo.app_file Demo.load_model Demo.joblib_load
            Demo.no_script Demo.broken_weather)
     = (∅, ∅).
Proof.
  split; [reflexivity|].
  apply (load_failure_clears_all Demo.app_file Demo.load_model Demo.joblib_load
           Demo.no_script Demo.broken_weather).
  reflexivity.
Defined.

(** C7 with only the weather model loaded. *)
Lemma index_weather_only_witness :
  reported (index Demo.weather_only) "soil_analysis" = Some (JBool false)
  /\ reported (index Demo.weather_only) "weather_prediction" = Some (JBool true).
Proof.
  destruct (index_reports_loaded_models Demo.weather_only)
    as (_ & _ & _ & _ & Honly).
  apply Honly; [reflexivity | eexists; reflexivity].
Defined.

(** C8 on a four-entry data set. *)
Lemma preprocess_run_witness :
  Demo.preprocess_run Demo.soil_data
  = (Some tt,
     PState
       (written Demo.cwd [-6; -5]%Z [-4]%Z [1]%Z [1]%Z [11]%Z Demo.soil_data)
       (steps_of Demo.cwd [5; 6]%Z [7]%Z)).
Proof.
  apply (proj1 (preprocess_run_steps Demo.read_csv Demo.drop_columns Demo.column
                  Demo.DataFrame_columns_of Demo.DataFrame Demo.to_csv
                  Demo.RandomState Demo.shuffle_split Demo.ambient
                  Demo.fit Demo.transform_with Demo.joblib_dump
                  Demo.no_write_error Demo.cwd
                  [1; 5; 6; 7]%Z [1; 5; 6; 7]%Z [5; 6; 7]%Z [1]%Z
                  [5; 6]%Z [7]%Z [1]%Z [1]%Z 11%Z
                  [-6; -5]%Z [-4]%Z [-6; -5]%Z [-4]%Z [1]%Z [1]%Z
                  Demo.soil_data
                  eq_refl eq_refl eq_refl eq_refl eq_refl eq_refl
                  eq_refl eq_refl eq_refl eq_refl eq_refl eq_refl eq_refl)).
Defined.

(** Without a seed the split follows the ambient generator: the toy split
    differs between two of its states.  The script passes the seed. *)
Example unseeded_split_follows_ambient :
  train_test_split Demo.RandomState Demo.shuffle_split 2%nat
    [5; 6; 7]%Z [1]%Z (2 # 10) None
  <> train_test_split Demo.RandomState Demo.shuffle_split 3%nat
       [5; 6; 7]%Z [1]%Z (2 # 10) None.
Proof. discriminate. Qed.

(** C10 at a request and the same request with a ["note"] added. *)
Lemma extra_soil_fields_witness :
  Demo.soil Demo.loaded (JObj Demo.soil_request)
  = Demo.soil Demo.loaded (JObj (<[ "note" := JStr "north field" ]> Demo.soil_request)).
Proof.
  apply (extra_soil_fields_are_ignored Demo.np_array Demo.np_item00 Demo.loaded).
  intros k Hk.
  repeat (apply elem_of_cons in Hk as [-> | Hk]);
    [split; [eexists; reflexivity | reflexivity] .. | by apply elem_of_nil in Hk].
Defined.

(** A file that is missing does not raise: the soil pair is loaded and the
    weather pair is left unset. *)
Example missing_weather_files_keep_soil :
  let loaded := fst (load_models_and_scalers Demo.app_file Demo.load_model
                       Demo.joblib_load Demo.no_script Demo.soil_files) in
  Py.has_key (fst loaded) "soil" = true
  /\ Py.has_key (snd loaded) "soil" = true
  /\ Py.has_key (fst loaded) "weather" = false
  /\ Py.has_key (snd loaded) "weather" = false.
Proof. by vm_compute. Qed.

(** The paths of a deployment under [/srv/KrishiMitra]. *)
Example deployment_paths :
  project_root Demo.app_file = "/srv/KrishiMitra"
  /\ preprocess_path Demo.app_file = "/srv/KrishiMitra/Scripts/preprocess.py"
  /\ soil_model_path Demo.app_file
     = "/srv/KrishiMitra/Models/Soil_Analysis/soil_tabular_model.h5"
  /\ soil_scaler_path Demo.app_file
     = "/srv/KrishiMitra/Models/Soil_analysis/scaler.pkl"
  /\ Path.resolve Demo.cwd scaler_path
     = "/srv/KrishiMitra/Models/Soil_Analysis/scaler.pkl".
Proof. by vm_compute. Qed.

(** A well-formed weather request, bare or under ["data"]. *)
Example weather_success :
  Demo.weather Demo.loaded (JArr [JNum 1; JNum 2; JNum 3])
  = (Response (jsonify [("predicted_temperature", JFloat Demo.twenty_one)]) 200,
     [EvTransform "weather"; EvPredict "weather"])
  /\ Demo.weather Demo.loaded (JObj {[ "data" := JArr [JNum 1; JNum 2; JNum 3] ]})
     = (Response (jsonify [("predicted_temperature", JFloat Demo.twenty_one)]) 200,
        [EvTransform "weather"; EvPredict "weather"]).
Proof. by vm_compute. Qed.

(** Payloads of the weather handler that are not arrays: a string has a
    length and is counted, a number has none and the handler raises, a
    body that is neither an array nor an object is refused at once. *)
Example weather_other_payloads :
  Demo.weather Demo.loaded (JObj {[ "data" := JStr "ab" ]})
  = (error_response (size_message 2) 400, [])
  /\ Demo.weather Demo.loaded (JObj {[ "data" := JNum 5 ]})
     = (error_response "Internal server error during weather prediction" 500, [])
  /\ Demo.weather Demo.loaded (JStr "abc")
     = (error_response "Invalid input format. Expected a JSON array or object." 400, [])
  /\ Demo.weather Demo.loaded (JArr [])
     = (error_response (size_message 0) 400, []).
Proof. by vm_compute. Qed.

(** The message of the size check spells the count in decimal. *)
Example size_message_four :
  size_message 4
  = "Invalid input size. Expected a JSON array with exactly 3 values, but got 4 values.".
Proof. by vm_compute. Qed.

(** * Every outcome of the two prediction handlers *)

Section HandlerOutcomes.

Context {ndarray : Type}.
Variable np_array : json -> option ndarray.
Variable np_reshape : list Z -> ndarray -> option ndarray.
Variable np_item00 : ndarray -> option spec_float.

Implicit Types (env : @artifacts ndarray) (d : gmap string json).

Local Abbreviation soil_endpoint := (soil_analysis np_array np_item00).
Local Abbreviation weather_endpoint :=
  (weather_prediction np_array np_reshape np_item00).
Local Abbreviation endpoint := (handler np_array np_reshape np_item00).

Local Abbreviation soil_failed :=
  (error_response "Internal server error during soil analysis" 500).
Local Abbreviation weather_failed :=
  (error_response "Internal server error during weather prediction" 500).

(** The membership tests and the comprehension invoke nothing. *)
Lemma all_in_pure names data tr : exists ob, all_in names data tr = (ob, tr).
Proof.
  induction names as [|k rest IH]; [by exists (Some true)|].
  simpl. unfold bind, lift.
  destruct (Py.contains k data) as [[|]|]; simpl; [exact IH | by eexists ..].
Qed.

Lemma collect_pure data names tr : exists ol, collect data names tr = (ol, tr).
Proof.
  induction names as [|k rest IH]; [by exists (Some [])|].
  simpl. unfold bind, lift.
  destruct (Py.getitem data k) as [v|]; simpl; [|by eexists].
  destruct IH as [[vs|] ->]; by eexists.
Qed.

(** Subscripting by a feature name raises on anything but a dict. *)
Lemma collect_not_object data k rest tr :
  (forall d, data <> JObj d) -> collect data (k :: rest) tr = (None, tr).
Proof.
  intros Hdata. simpl. unfold bind, lift.
  destruct data; try reflexivity. by destruct (Hdata m).
Qed.

Local Ltac plain_error :=
  left; do 2 eexists; (split; [|reflexivity]); auto.

(** The body of the soil handler: what it returns or raises, and after
    which invocations. *)
Lemma soil_try_outcomes env request_json o tr :
  soil_analysis_try np_array np_item00 env request_json [] = (o, tr) ->
  (exists msg code, (code = 400 \/ code = 500)%Z
     /\ (o, tr) = (Some (error_response msg code), []))
  \/ (o = None
      /\ (tr = [] \/ tr = [EvTransform "soil"]
          \/ tr = [EvTransform "soil"; EvPredict "soil"]))
  \/ exists p,
       (o, tr)
       = (Some (Response
                  (jsonify [("fertility_status", JStr (fertility p));
                            ("confidence", JFloat (F32.mul p F32.hundred))])
                  200),
          [EvTransform "soil"; EvPredict "soil"]).
Proof.
  unfold soil_analysis_try.
  destruct (negb (Py.has_key (MODELS env) "soil")
            || negb (Py.has_key (SCALERS env) "soil"));
    [intros [= <- <-]; plain_error|].
  destruct (Py.truthy request_json); cbn [negb];
    [|intros [= <- <-]; plain_error].
  destruct (all_in_pure feature_names request_json []) as [ob Hall].
  unfold bind at 1. rewrite Hall.
  destruct ob as [[|]|]; cbn [negb];
    [|intros [= <- <-]; plain_error|intros [= <- <-]; right; left; auto].
  destruct (collect_pure request_json feature_names []) as [ol Hcol].
  unfold bind at 1. rewrite Hcol.
  destruct ol as [vs|]; [|intros [= <- <-]; right; left; auto].
  unfold bind, lift, call_transform, call_predict, bind, emit, modify, lift, ret, raise.
  destruct (np_array (JArr [JArr vs])) as [arr|];
    [|intros [= <- <-]; right; left; auto].
  destruct (SCALERS env !! "soil") as [sc|];
    [|intros [= <- <-]; right; left; auto].
  cbn [app]. destruct (transform sc arr) as [scaled|];
    [|intros [= <- <-]; right; left; auto].
  destruct (MODELS env !! "soil") as [m|];
    [|intros [= <- <-]; right; left; auto].
  cbn [app]. destruct (predict m scaled) as [pred|];
    [|intros [= <- <-]; right; left; auto].
  destruct (np_item00 pred) as [p|];
    [|intros [= <- <-]; right; left; auto].
  intros [= <- <-]. right; right. by exists p.
Qed.

(** The ways a soil request can end. *)
Lemma soil_outcomes env request_json :
  (exists msg code, (code = 400 \/ code = 500)%Z
     /\ soil_endpoint env request_json = (error_response msg code, []))
  \/ (exists tr,
        (tr = [EvTransform "soil"] \/ tr = [EvTransform "soil"; EvPredict "soil"])
        /\ soil_endpoint env request_json = (soil_failed, tr))
  \/ exists p,
       soil_endpoint env request_json
       = (Response
            (jsonify [("fertility_status", JStr (fertility p));
                      ("confidence", JFloat (F32.mul p F32.hundred))])
            200,
          [EvTransform "soil"; EvPredict "soil"]).
Proof.
  unfold soil_analysis.
  destruct (soil_analysis_try np_array np_item00 env request_json []) as [o tr] eqn:E.
  apply soil_try_outcomes in E
    as [(msg & code & Hcode & [= -> ->]) | [(-> & Htr) | (p & [= -> ->])]].
  - plain_error.
  - destruct Htr as [-> | Htr]; [plain_error|].
    right; left. by exists tr.
  - right; right. by exists p.
Qed.

(** A falsy value that has a length has length 0. *)
Lemma falsy_length data n :
  Py.truthy data = false -> Py.len data = Some n -> n = 0%nat.
Proof.
  destruct data as [| | | |s|l|m]; simpl; try discriminate.
  - destruct s; [by intros _ [= <-] | discriminate].
  - destruct l; [by intros _ [= <-] | discriminate].
  - intros Hsize [= <-]. by apply Nat.eqb_eq, negb_false_iff.
Qed.

(** The weather handler from the size check on: a payload with a length
    other than 3 is refused, one without a length makes the handler raise,
    one of length 3 goes through the scaler and the model. *)
Lemma weather_data_outcomes env data o tr :
  weather_predict_data np_array np_reshape np_item00 env data [] = (o, tr) ->
  (exists n, Py.len data = Some n /\ n <> 3%nat
     /\ (o, tr) = (Some (error_response (size_message n) 400), []))
  \/ (Py.len data = None /\ (o, tr) = (None, []))
  \/ (Py.len data = Some 3%nat /\ o = None
      /\ (tr = [] \/ tr = [EvTransform "weather"]
          \/ tr = [EvTransform "weather"; EvPredict "weather"]))
  \/ exists p,
       Py.len data = Some 3%nat
       /\ (o, tr)
          = (Some (Response (jsonify [("predicted_temperature", JFloat p)]) 200),
             [EvTransform "weather"; EvPredict "weather"]).
Proof.
  unfold weather_predict_data.
  unfold bind, lift, call_transform, call_predict, bind, emit, modify, lift, ret, raise.
  destruct (Py.len data) as [n|] eqn:Hlen.
  - destruct (Py.truthy data) eqn:Htruthy; cbn [negb].
    + destruct (Nat.eqb n 3) eqn:Hn; cbn [negb].
      * apply Nat.eqb_eq in Hn as ->.
        destruct (np_array data) as [arr|];
          [|intros [= <- <-]; right; right; left; auto].
        destruct (np_reshape [1; 1; 3]%Z arr) as [input|];
          [|intros [= <- <-]; right; right; left; auto].
        destruct (np_reshape [-1; 3]%Z input) as [rows|];
          [|intros [= <- <-]; right; right; left; auto].
        destruct (SCALERS env !! "weather") as [sc|];
          [|intros [= <- <-]; right; right; left; auto].
        cbn [app]. destruct (transform sc rows) as [scaled|];
          [|intros [= <- <-]; right; right; left; auto].
        destruct (np_reshape [1; 1; 3]%Z scaled) as [scaled'|];
          [|intros [= <- <-]; right; right; left; auto].
        destruct (MODELS env !! "weather") as [m|];
          [|intros [= <- <-]; right; right; left; auto].
        cbn [app]. destruct (predict m scaled') as [pred|];
          [|intros [= <- <-]; right; right; left; auto 6].
        destruct (np_item00 pred) as [p|];
          [|intros [= <- <-]; right; right; left; auto 6].
        intros [= <- <-]. right; right; right. by exists p.
      * apply Nat.eqb_neq in Hn. intros [= <- <-]. left. by exists n.
    + pose proof (falsy_length data n Htruthy Hlen) as ->.
      intros [= <- <-]. left. by exists 0%nat.
  - destruct (Py.truthy data); cbn [negb]; intros [= <- <-]; right; left; auto.
Qed.

Local Abbreviation invalid_format :=
  (error_response "Invalid input format. Expected a JSON array or object." 400).

(** The weather handler with its model and scaler loaded: the body is
    refused when it is neither an array nor an object, and otherwise the
    request ends as its payload decides. *)
Lemma weather_loaded_outcomes env request_json :
  both_loaded Weather env = true ->
  (weather_data request_json = None
   /\ weather_endpoint env request_json = (invalid_format, []))
  \/ exists data,
       weather_data request_json = Some data
       /\ ((exists n, Py.len data = Some n /\ n <> 3%nat
              /\ weather_endpoint env request_json
                 = (error_response (size_message n) 400, []))
           \/ (Py.len data = None
               /\ weather_endpoint env request_json = (weather_failed, []))
           \/ (Py.len data = Some 3%nat
               /\ exists tr,
                    (tr = [] \/ tr = [EvTransform "weather"]
                     \/ tr = [EvTransform "weather"; EvPredict "weather"])
                    /\ weather_endpoint env request_json = (weather_failed, tr))
           \/ (exists p,
                 Py.len data = Some 3%nat
                 /\ weather_endpoint env request_json
                    = (Response (jsonify [("predicted_temperature", JFloat p)]) 200,
                       [EvTransform "weather"; EvPredict "weather"]))).
Proof.
  intros Hloaded. unfold weather_prediction, weather_prediction_try.
  pose proof (loaded_flag Weather env Hloaded) as Hflag.
  cbn [key_of] in Hflag. rewrite Hflag.
  assert (Hdata : forall data,
    let run := weather_predict_data np_array np_reshape np_item00 env data [] in
    let answer :=
      match run with
      | (Some r, tr) => (r, tr)
      | (None, tr) => (weather_failed, tr)
      end in
    (exists n, Py.len data = Some n /\ n <> 3%nat
       /\ answer = (error_response (size_message n) 400, []))
    \/ (Py.len data = None /\ answer = (weather_failed, []))
    \/ (Py.len data = Some 3%nat
        /\ exists tr,
             (tr = [] \/ tr = [EvTransform "weather"]
              \/ tr = [EvTransform "weather"; EvPredict "weather"])
             /\ answer = (weather_failed, tr))
    \/ (exists p,
          Py.len data = Some 3%nat
          /\ answer
             = (Response (jsonify [("predicted_temperature", JFloat p)]) 200,
                [EvTransform "weather"; EvPredict "weather"]))).
  { intros data run answer. subst answer run.
    destruct (weather_predict_data np_array np_reshape np_item00 env data [])
      as [o tr] eqn:E.
    apply weather_data_outcomes in E
      as [(n & Hlen & Hn & [= -> ->]) | [(Hlen & [= -> ->])
          | [(Hlen & -> & Htr) | (p & Hlen & [= -> ->])]]].
    - left. by exists n.
    - right; left. done.
    - right; right; left. split; [done|]. by exists tr.
    - right; right; right. by exists p. }
  destruct request_json as [| | | | |l|d]; cbn [weather_data];
    try (left; done).
  - right. exists (JArr l). split; [done|]. apply Hdata.
  - right. exists (Py.get d "data" JNull). split; [done|]. apply Hdata.
Qed.

(** The answer of a handler whose model or scaler is not loaded. *)
Lemma unavailable_answer (c : capability) env request_json :
  both_loaded c env = false ->
  endpoint c env request_json = (error_response (unavailable c) 500, []).
Proof.
  unfold both_loaded. intros Hloaded.
  destruct c; cbn [handler key_of] in *;
    unfold soil_analysis, soil_analysis_try,
      weather_prediction, weather_prediction_try;
    by rewrite <- negb_andb, Hloaded.
Qed.

(** X1. Whatever the request and whatever is loaded, a prediction handler
    invokes nothing, or the scaler of its capability once, or that scaler
    once and then the model once: the model never runs on input the scaler
    has not transformed, and no artifact of the other capability is used. *)
Theorem handler_invocation_order (c : capability) env request_json :
  let tr := snd (endpoint c env request_json) in
  tr = []
  \/ tr = [EvTransform (key_of c)]
  \/ tr = [EvTransform (key_of c); EvPredict (key_of c)].
Proof.
  destruct c; cbn [handler key_of].
  - destruct (soil_outcomes env request_json)
      as [(msg & code & _ & ->) | [(tr & Htr & ->) | (p & ->)]]; cbn [snd]; auto.
  - destruct (both_loaded Weather env) eqn:Hloaded.
    + destruct (weather_loaded_outcomes env request_json Hloaded)
        as [(_ & ->) | (data & _ & [(n & _ & _ & ->) | [(_ & ->)
            | [(_ & tr & Htr & ->) | (p & _ & ->)]]])]; cbn [snd]; auto.
    + unfold weather_prediction, weather_prediction_try.
      unfold both_loaded in Hloaded. cbn [key_of] in Hloaded.
      rewrite <- negb_andb, Hloaded. cbn. auto.
Qed.

(** X2. Every response of a prediction handler has status 200, or is the
    object [{"error": msg}] with status 400 or 500. *)
Theorem handler_status_and_error_body (c : capability) env request_json :
  let r := fst (endpoint c env request_json) in
  status r = 200%Z
  \/ exists msg code, (code = 400 \/ code = 500)%Z /\ r = error_response msg code.
Proof.
  destruct c; cbn [handler].
  - destruct (soil_outcomes env request_json)
      as [(msg & code & Hcode & ->) | [(tr & _ & ->) | (p & ->)]]; cbn [fst].
    + right. by exists msg, code.
    + right. eexists _, _. split; [|reflexivity]. auto.
    + by left.
  - destruct (both_loaded Weather env) eqn:Hloaded.
    + destruct (weather_loaded_outcomes env request_json Hloaded)
        as [(_ & ->) | (data & _ & [(n & _ & _ & ->) | [(_ & ->)
            | [(_ & tr & _ & ->) | (p & _ & ->)]]])]; cbn [fst];
        first [ by left | right; eexists _, _; split; [|reflexivity]; auto ].
    + unfold weather_prediction, weather_prediction_try.
      unfold both_loaded in Hloaded. cbn [key_of] in Hloaded.
      rewrite <- negb_andb, Hloaded. cbn [fst ret].
      right. eexists _, _. split; [|reflexivity]. auto.
Qed.

(** A 200 from the weather handler's body: every library call on the way
    has answered, each on the result of the one before. *)
Lemma weather_data_success env data r tr :
  weather_predict_data np_array np_reshape np_item00 env data [] = (Some r, tr) ->
  status r = 200%Z ->
  exists arr input rows sc scaled scaled' m pred p,
    Py.len data = Some 3%nat
    /\ np_array data = Some arr
    /\ np_reshape [1; 1; 3]%Z arr = Some input
    /\ np_reshape [-1; 3]%Z input = Some rows
    /\ SCALERS env !! "weather" = Some sc
    /\ transform sc rows = Some scaled
    /\ np_reshape [1; 1; 3]%Z scaled = Some scaled'
    /\ MODELS env !! "weather" = Some m
    /\ predict m scaled' = Some pred
    /\ np_item00 pred = Some p
    /\ r = Response (jsonify [("predicted_temperature", JFloat p)]) 200
    /\ tr = [EvTransform "weather"; EvPredict "weather"].
Proof.
  unfold weather_predict_data.
  unfold bind, lift, call_transform, call_predict, bind, emit, modify, lift, ret, raise.
  destruct (Py.len data) as [n|] eqn:Hlen.
  - destruct (Py.truthy data) eqn:Htruthy; cbn [negb];
      [|intros [= <- <-]; discriminate].
    destruct (Nat.eqb n 3) eqn:Hn; cbn [negb];
      [|intros [= <- <-]; discriminate].
    apply Nat.eqb_eq in Hn as ->.
    destruct (np_array data) as [arr|]; [|discriminate].
    destruct (np_reshape [1; 1; 3]%Z arr) as [input|] eqn:Hinput; [|discriminate].
    destruct (np_reshape [-1; 3]%Z input) as [rows|] eqn:Hrows; [|discriminate].
    destruct (SCALERS env !! "weather") as [sc|]; [|discriminate].
    cbn [app]. destruct (transform sc rows) as [scaled|] eqn:Hscaled; [|discriminate].
    destruct (np_reshape [1; 1; 3]%Z scaled) as [scaled'|] eqn:Hscaled';
      [|discriminate].
    destruct (MODELS env !! "weather") as [m|]; [|discriminate].
    cbn [app]. destruct (predict m scaled') as [pred|] eqn:Hpred; [|discriminate].
    destruct (np_item00 pred) as [p|] eqn:Hp; [|discriminate].
    intros [= <- <-] _.
    by exists arr, input, rows, sc, scaled, scaled', m, pred, p.
  - destruct (Py.truthy data); cbn [negb]; discriminate.
Qed.

(** X3. The weather handler answers 200 only to a payload of length 3 that
    numpy takes as an array and reshapes, after the loaded weather scaler
    has transformed its row and the loaded weather model has predicted
    from the result, each once; the body then holds the entry [0][0] of
    that prediction under [predicted_temperature]. *)
Theorem weather_success_needs_three_values env request_json r tr :
  weather_prediction np_array np_reshape np_item00 env request_json = (r, tr) ->
  status r = 200%Z ->
  exists data arr input rows sc scaled scaled' m pred p,
    weather_data request_json = Some data
    /\ Py.len data = Some 3%nat
    /\ np_array data = Some arr
    /\ np_reshape [1; 1; 3]%Z arr = Some input
    /\ np_reshape [-1; 3]%Z input = Some rows
    /\ SCALERS env !! "weather" = Some sc
    /\ transform sc rows = Some scaled
    /\ np_reshape [1; 1; 3]%Z scaled = Some scaled'
    /\ MODELS env !! "weather" = Some m
    /\ predict m scaled' = Some pred
    /\ np_item00 pred = Some p
    /\ r = Response (jsonify [("predicted_temperature", JFloat p)]) 200
    /\ tr = [EvTransform "weather"; EvPredict "weather"].
Proof.
  unfold weather_prediction, weather_prediction_try.
  destruct (negb (Py.has_key (MODELS env) "weather")
            || negb (Py.has_key (SCALERS env) "weather"));
    [intros [= <- <-]; discriminate|].
  assert (Hdata : forall data,
    match weather_predict_data np_array np_reshape np_item00 env data [] with
    | (Some r, tr) => (r, tr)
    | (None, tr) => (weather_failed, tr)
    end = (r, tr) ->
    status r = 200%Z ->
    exists arr input rows sc scaled scaled' m pred p,
      Py.len data = Some 3%nat
      /\ np_array data = Some arr
      /\ np_reshape [1; 1; 3]%Z arr = Some input
      /\ np_reshape [-1; 3]%Z input = Some rows
      /\ SCALERS env !! "weather" = Some sc
      /\ transform sc rows = Some scaled
      /\ np_reshape [1; 1; 3]%Z scaled = Some scaled'
      /\ MODELS env !! "weather" = Some m
      /\ predict m scaled' = Some pred
      /\ np_item00 pred = Some p
      /\ r = Response (jsonify [("predicted_temperature", JFloat p)]) 200
      /\ tr = [EvTransform "weather"; EvPredict "weather"]).
  { intros data.
    destruct (weather_predict_data np_array np_reshape np_item00 env data [])
      as [[r'|] tr'] eqn:E; intros [= <- <-]; [|discriminate].
    by apply weather_data_success. }
  destruct request_json as [| | | | |l|d]; cbn [weather_data];
    try (intros [= <- <-]; discriminate).
  - intros Hrun Hstatus.
    destruct (Hdata _ Hrun Hstatus)
      as (arr & input & rows & sc & scaled & scaled' & m & pred & p & Hchain).
    by exists (JArr l), arr, input, rows, sc, scaled, scaled', m, pred, p.
  - intros Hrun Hstatus.
    destruct (Hdata _ Hrun Hstatus)
      as (arr & input & rows & sc & scaled & scaled' & m & pred & p & Hchain).
    by exists (Py.get d "data" JNull), arr, input, rows, sc, scaled, scaled', m,
         pred, p.
Qed.

(** X4. With the weather model and scaler loaded, the handler answers 400
    exactly when the body is neither an array nor an object, or the payload
    has a length and that length is not 3. *)
Theorem weather_client_error_iff env request_json :
  both_loaded Weather env = true ->
  status (fst (weather_endpoint env request_json)) = 400%Z
  <-> match weather_data request_json with
      | None => True
      | Some data => exists n, Py.len data = Some n /\ n <> 3%nat
      end.
Proof.
  intros Hloaded.
  destruct (weather_loaded_outcomes env request_json Hloaded)
    as [(-> & ->) | (data & -> & [(n & Hlen & Hn & ->) | [(Hlen & ->)
        | [(Hlen & tr & _ & ->) | (p & Hlen & ->)]]])]; cbn [fst].
  - done.
  - split; [intros _; by exists n | done].
  - split; [discriminate|]. intros (n & Hn & _). congruence.
  - split; [discriminate|]. intros (n & Hn & Hne). congruence.
  - split; [discriminate|]. intros (n & Hn & Hne). congruence.
Qed.

(** X5. With the weather model and scaler loaded, a payload that has no
    length ([None] when the object has no ["data"], a boolean, a number)
    makes the handler raise in its size check: the answer is the generic
    500 and nothing is invoked. *)
Theorem weather_unsized_payload_is_server_error env request_json data :
  both_loaded Weather env = true ->
  weather_data request_json = Some data ->
  Py.len data = None ->
  weather_endpoint env request_json = (weather_failed, []).
Proof.
  intros Hloaded Hdata Hlen.
  destruct (weather_loaded_outcomes env request_json Hloaded)
    as [(Hnone & _) | (data' & Hdata' & Hcases)]; [congruence|].
  assert (data' = data) as -> by congruence.
  destruct Hcases as [(n & Hn & _) | [(_ & ->) | [(Hn & _) | (p & Hn & _)]]];
    congruence.
Qed.

(** A soil body that is not an object never gets a 200: a list or a string
    may pass the membership test, but subscripting it by a name raises. *)
Lemma soil_not_object_fails env request_json r tr :
  (forall d, request_json <> JObj d) ->
  soil_endpoint env request_json = (r, tr) ->
  status r <> 200%Z.
Proof.
  intros Hshape. unfold soil_analysis, soil_analysis_try.
  destruct (negb (Py.has_key (MODELS env) "soil")
            || negb (Py.has_key (SCALERS env) "soil"));
    [intros [= <- <-]; discriminate|].
  destruct (Py.truthy request_json); cbn [negb];
    [|intros [= <- <-]; discriminate].
  destruct (all_in_pure feature_names request_json []) as [ob Hall].
  unfold bind at 1. rewrite Hall.
  destruct ob as [[|]|]; cbn [negb]; try (intros [= <- <-]; discriminate).
  unfold bind at 1, feature_names.
  rewrite (collect_not_object request_json _ _ [] Hshape).
  intros [= <- <-]. discriminate.
Qed.

(** A body that passes the membership test is truthy. *)
Lemma all_in_truthy request_json :
  fst (all_in feature_names request_json []) = Some true ->
  Py.truthy request_json = true.
Proof.
  destruct request_json as [| | | |s|l|d]; try discriminate.
  - destruct s; [discriminate | reflexivity].
  - destruct l; [discriminate | reflexivity].
  - intros Hall. cbn [Py.truthy]. apply negb_true_iff, Nat.eqb_neq.
    intros Hsize. apply map_size_empty_inv in Hsize as ->. discriminate.
Qed.

(** X6. The soil handler answers 200 only to a JSON object that holds all
    twelve feature names.  With the soil model and scaler loaded, a body
    that is not an object and yet passes the membership test (a list that
    holds each name, a string in which each name occurs) makes the handler
    raise when it subscripts the body by the first name: the answer is the
    generic 500 and nothing is invoked. *)
Theorem soil_success_needs_complete_object env request_json :
  (forall r tr,
     soil_analysis np_array np_item00 env request_json = (r, tr) ->
     status r = 200%Z ->
     exists d, request_json = JObj d
               /\ forall k, k ∈ feature_names -> is_Some (d !! k))
  /\ ((forall d, request_json <> JObj d) ->
      both_loaded Soil env = true ->
      fst (all_in feature_names request_json []) = Some true ->
      soil_analysis np_array np_item00 env request_json = (soil_failed, [])).
Proof.
  split.
  - intros r tr Hrun Hstatus.
    destruct request_json as [| | | | | |d];
      try (exfalso; by eapply (soil_not_object_fails env _ r tr); [|exact Hrun|]).
    exists d. split; [reflexivity|].
    destruct (soil_success_inversion np_array np_item00 env d r tr Hrun Hstatus)
      as (vs & _ & _ & _ & _ & _ & _ & Hvs & _).
    apply forallb_has_key_intro in Hvs. rewrite forallb_forall in Hvs.
    intros k Hk. apply has_key_true, Hvs, list_elem_of_In, Hk.
  - intros Hshape Hloaded Hall.
    unfold soil_analysis, soil_analysis_try.
    pose proof (loaded_flag Soil env Hloaded) as Hflag.
    cbn [key_of] in Hflag. rewrite Hflag.
    rewrite (all_in_truthy request_json Hall). cbn [negb].
    destruct (all_in_pure feature_names request_json []) as [ob Hpure].
    rewrite Hpure in Hall. cbn [fst] in Hall. subst ob.
    unfold bind at 1. rewrite Hpure. cbn [negb].
    unfold bind at 1, feature_names.
    by rewrite (collect_not_object request_json _ _ [] Hshape).
Qed.

Lemma forallb_has_key_false d names :
  forallb (Py.has_key d) names = false -> exists k, k ∈ names /\ d !! k = None.
Proof.
  induction names as [|k rest IH]; [discriminate|]. simpl.
  destruct (Py.has_key d k) eqn:Hk; simpl.
  - intros Hrest. destruct (IH Hrest) as (k' & Hin & Hnone).
    exists k'. split; [by right | done].
  - intros _. exists k. split; [by left | by apply has_key_false].
Qed.

(** X7. With the soil model and scaler loaded, a JSON object is answered
    400 exactly when it lacks one of the twelve feature keys: an object
    that holds them all is never refused as a client error, whatever the
    values are. *)
Theorem soil_object_client_error_iff env d :
  both_loaded Soil env = true ->
  status (fst (soil_endpoint env (JObj d))) = 400%Z
  <-> exists k, k ∈ feature_names /\ d !! k = None.
Proof.
  intros Hloaded. pose proof (loaded_flag Soil env Hloaded) as Hflag.
  cbn [key_of] in Hflag.
  unfold soil_analysis, soil_analysis_try. rewrite Hflag.
  destruct (forallb (Py.has_key d) feature_names) eqn:Hall.
  - split.
    + destruct (forallb_has_key_values _ _ Hall) as [vs Hvs].
      assert (Hn : exists v, d !! "N" = Some v) by (inversion Hvs; subst; eauto).
      destruct Hn as [v Hn]. rewrite (truthy_obj_lookup _ _ _ Hn). cbn [negb].
      rewrite (bind_ok _ _ _ _ _ (all_in_obj _ _ _)), Hall. cbn [negb].
      rewrite (bind_ok _ _ _ _ _ (collect_obj _ _ _ [] Hvs)).
      unfold bind, lift, call_transform, call_predict, bind, emit, modify,
        lift, ret, raise.
      destruct (np_array (JArr [JArr vs])) as [arr|]; [|discriminate].
      destruct (SCALERS env !! "soil") as [sc|]; [|discriminate].
      cbn [app]. destruct (transform sc arr) as [scaled|]; [|discriminate].
      destruct (MODELS env !! "soil") as [m|]; [|discriminate].
      cbn [app]. destruct (predict m scaled) as [pred|]; [|discriminate].
      destruct (np_item00 pred) as [p|]; discriminate.
    + intros (k & Hk & Hnone).
      rewrite (forallb_has_key_missing d feature_names k Hk Hnone) in Hall.
      discriminate.
  - split; [intros _; by apply forallb_has_key_false|]. intros _.
    destruct (Py.truthy (JObj d)); cbn [negb]; [|reflexivity].
    by rewrite (bind_ok _ _ _ _ _ (all_in_obj _ _ _)), Hall.
Qed.

(** X8. With the soil model and scaler loaded, a body that Python counts
    as false ([null], [{}], [[]], [""], [0], [false]) is answered 400
    "No soil data provided" before any key is looked at. *)
Theorem soil_falsy_body_is_client_error env request_json :
  both_loaded Soil env = true ->
  Py.truthy request_json = false ->
  soil_endpoint env request_json
  = (error_response "No soil data provided" 400, []).
Proof.
  intros Hloaded Hfalsy. pose proof (loaded_flag Soil env Hloaded) as Hflag.
  cbn [key_of] in Hflag.
  unfold soil_analysis, soil_analysis_try. by rewrite Hflag, Hfalsy.
Qed.

(** X9. When the scaler raises on a complete soil request, the caller gets
    the generic 500 and the model is not invoked; when the scaler answers
    and the model raises, the caller gets the same 500. *)
Theorem soil_library_failure_is_server_error env d vs sc m arr :
  SCALERS env !! "soil" = Some sc ->
  MODELS env !! "soil" = Some m ->
  Forall2 (fun k v => d !! k = Some v) feature_names vs ->
  np_array (JArr [JArr vs]) = Some arr ->
  (transform sc arr = None ->
   soil_endpoint env (JObj d) = (soil_failed, [EvTransform "soil"]))
  /\ (forall scaled,
        transform sc arr = Some scaled -> predict m scaled = None ->
        soil_endpoint env (JObj d)
        = (soil_failed, [EvTransform "soil"; EvPredict "soil"])).
Proof.
  intros Hsc Hm Hvs Harr.
  assert (Hn : exists v, d !! "N" = Some v) by (inversion Hvs; subst; eauto).
  destruct Hn as [v Hn].
  unfold soil_analysis, soil_analysis_try, Py.has_key.
  rewrite Hsc, Hm. cbn [negb orb].
  rewrite (truthy_obj_lookup _ _ _ Hn). cbn [negb].
  rewrite (bind_ok _ _ _ _ _ (all_in_obj _ _ _)).
  rewrite (forallb_has_key_intro _ _ _ Hvs). cbn [negb].
  rewrite (bind_ok _ _ _ _ _ (collect_obj _ _ _ [] Hvs)).
  rewrite (bind_ok _ _ _ _ _ (lift_ok _ _ _ Harr)).
  rewrite (bind_ok _ _ _ _ _ (lift_ok (Some sc) sc _ eq_refl)).
  unfold bind, lift, call_transform, call_predict, bind, emit, modify,
    lift, ret, raise.
  split.
  - by intros ->.
  - intros scaled -> Hpred. cbn [app]. by rewrite Hpred.
Qed.

(** X10. In a 200 response of the soil handler the two fields agree,
    though they are computed apart, one by comparing the scalar with 0.5
    and the other by rounding its product by 100: for a scalar that is a
    float32 number in [0,1], [fertility_status] is "High" exactly when the
    [confidence] of the same response is above 50, and "Low" exactly when
    it is 50 or less. *)
Theorem soil_status_matches_confidence env d vs sc m arr scaled pred p q :
  SCALERS env !! "soil" = Some sc ->
  MODELS env !! "soil" = Some m ->
  Forall2 (fun k v => d !! k = Some v) feature_names vs ->
  np_array (JArr [JArr vs]) = Some arr ->
  transform sc arr = Some scaled ->
  predict m scaled = Some pred ->
  np_item00 pred = Some p ->
  F32.valid p = true ->
  F32.value p = Some q ->
  (0 <= q <= 1)%Q ->
  exists fertility_status confidence c,
    soil_analysis np_array np_item00 env (JObj d)
    = (Response
         (jsonify [("fertility_status", JStr fertility_status);
                   ("confidence", JFloat confidence)])
         200,
       [EvTransform "soil"; EvPredict "soil"])
    /\ F32.value confidence = Some c
    /\ (fertility_status = "High" <-> (50 < c)%Q)
    /\ (fertility_status = "Low" <-> (c <= 50)%Q).
Proof.
  intros Hsc Hm Hvs Harr Hscaled Hpred Hp Hvalid Hvalue Hrange.
  destruct (above_half_iff_above_50 p q Hvalid Hvalue Hrange) as (c & Hc & Hiff).
  exists (fertility p), (F32.mul p F32.hundred), c.
  split; [by apply (soil_request_answered np_array np_item00 env d vs sc m arr
                      scaled pred p)|].
  split; [exact Hc|].
  rewrite (fertility_high p q Hvalid Hvalue), (fertility_low p q Hvalid Hvalue).
  split; [exact Hiff|].
  rewrite Hiff. split; [apply Qnot_lt_le | apply Qle_not_lt].
Qed.

Lemma reported_flag (c : capability) env :
  reported (index env) (flag_of c)
  = Some (JBool (Py.has_key (MODELS env) (key_of c))).
Proof. by destruct c. Qed.

(** X23. When the health check reports a capability as not loaded, every
    request to the endpoint of that capability is answered 500 with the
    "not loaded" message. *)
Theorem health_false_means_unavailable (c : capability) env request_json :
  reported (index env) (flag_of c) = Some (JBool false) ->
  endpoint c env request_json = (error_response (unavailable c) 500, []).
Proof.
  rewrite reported_flag. intros [= Hmodel]. apply unavailable_answer.
  unfold both_loaded. by rewrite Hmodel.
Qed.

(** X22. Of a JSON object the weather handler reads the ["data"] key and
    nothing else: two objects with the same value under ["data"], or both
    without it, get the same response and cause the same invocations. *)
Theorem weather_object_reads_only_data env d1 d2 :
  d1 !! "data" = d2 !! "data" ->
  weather_prediction np_array np_reshape np_item00 env (JObj d1)
  = weather_prediction np_array np_reshape np_item00 env (JObj d2).
Proof.
  intros Hdata. unfold weather_prediction, weather_prediction_try, Py.get.
  by rewrite Hdata.
Qed.

End HandlerOutcomes.

(** * What the loader hands to the handlers *)

Section LoaderOutcomes.

Context {ndarray content : Type}.
Variable app_file : string.
Variable load_model : bool -> content -> option (@Model ndarray).
Variable joblib_load : content -> option (@Scaler ndarray).
Variable import_module_from_file : string -> string -> M (gmap string content) unit.
Variable np_array : json -> option ndarray.
Variable np_reshape : list Z -> ndarray -> option ndarray.
Variable np_item00 : ndarray -> option spec_float.

Implicit Types (fs : gmap string content).

Local Abbreviation dicts :=
  (gmap string (@Model ndarray) * gmap string (@Scaler ndarray))%type.
Local Abbreviation built fs :=
  (snd (build_phase app_file import_module_from_file fs)).
Local Abbreviation loader fs :=
  (load_models_and_scalers app_file load_model joblib_load
     import_module_from_file fs).
Local Abbreviation served fs :=
  (startup app_file load_model joblib_load import_module_from_file fs).
Local Abbreviation raises fs :=
  (loading_raises app_file load_model joblib_load fs).

(** A guarded load that does not raise stores what the loader returns, or
    nothing when the file is missing. *)
Lemma load_if_present_stores {A} fs path (loader : content -> option A)
    (put : A -> dicts -> dicts) st :
  load_raises fs path loader = false ->
  load_if_present fs path loader (fun a => modify (put a)) st
  = (Some tt, match fs !! path ≫= loader with Some a => put a st | None => st end).
Proof.
  unfold load_raises, load_if_present, path_exists, Py.has_key.
  destruct (fs !! path) as [c|]; [|reflexivity].
  unfold bind, lift. simpl. by destruct (loader c).
Qed.

(** The loading phase when no load raises: each dict gets an entry for
    each file that is there. *)
Lemma load_phase_contents fs :
  raises fs = false ->
  load_phase app_file load_model joblib_load fs
  = (match fs !! weather_model_path app_file ≫= load_model true with
     | Some m => <["weather" := m]>
     | None => id
     end
       (match fs !! soil_model_path app_file ≫= load_model false with
        | Some m => <["soil" := m]> ∅
        | None => ∅
        end),
     match fs !! weather_scaler_path app_file ≫= joblib_load with
     | Some s => <["weather" := s]>
     | None => id
     end
       (match fs !! soil_scaler_path app_file ≫= joblib_load with
        | Some s => <["soil" := s]> ∅
        | None => ∅
        end)).
Proof.
  unfold loading_raises. intros Hraises.
  apply orb_false_elim in Hraises as [Hraises H4].
  apply orb_false_elim in Hraises as [Hraises H3].
  apply orb_false_elim in Hraises as [H1 H2].
  unfold load_phase, load_try, set_model, set_scaler.
  rewrite (bind_ok _ _ _ _ _ (load_if_present_stores _ _ _ _ _ H1)).
  rewrite (bind_ok _ _ _ _ _ (load_if_present_stores _ _ _ _ _ H2)).
  rewrite (bind_ok _ _ _ _ _ (load_if_present_stores _ _ _ _ _ H3)).
  rewrite (load_if_present_stores _ _ _ _ _ H4).
  destruct (fs !! soil_model_path app_file ≫= load_model false),
    (fs !! soil_scaler_path app_file ≫= joblib_load),
    (fs !! weather_model_path app_file ≫= load_model true),
    (fs !! weather_scaler_path app_file ≫= joblib_load); reflexivity.
Qed.

Lemma load_phase_raised fs : raises fs = true ->
  load_phase app_file load_model joblib_load fs = (∅, ∅).
Proof.
  intros Hraises. unfold load_phase.
  destruct (load_try_raises app_file load_model joblib_load fs Hraises) as [st ->].
  reflexivity.
Qed.

(** A file that is there and does not make its loader raise is loaded. *)
Lemma loaded_of_present {A} fs path (loader : content -> option A) :
  path_exists fs path = true -> load_raises fs path loader = false ->
  is_Some (fs !! path ≫= loader).
Proof.
  unfold path_exists, Py.has_key, load_raises.
  destruct (fs !! path) as [c|]; [|discriminate]. simpl.
  destruct (loader c); [eauto | discriminate].
Qed.

Lemma absent_of_missing {A} fs path (loader : content -> option A) :
  path_exists fs path = false -> fs !! path ≫= loader = None.
Proof.
  unfold path_exists, Py.has_key. by destruct (fs !! path).
Qed.

Lemma loaded_iff_present {A} fs path (loader : content -> option A) :
  load_raises fs path loader = false ->
  is_Some (fs !! path ≫= loader) <-> path_exists fs path = true.
Proof.
  intros Hraises. split; [|intros Hpath; by apply loaded_of_present].
  destruct (path_exists fs path) eqn:Hpath; [done|].
  rewrite (absent_of_missing _ _ _ Hpath). by intros [? ?].
Qed.

(** Which capabilities the service can serve after start-up. *)
Lemma startup_loaded_iff (c : capability) fs :
  both_loaded c (served fs) = true
  <-> raises (built fs) = false
      /\ path_exists (built fs) (model_path app_file c) = true
      /\ path_exists (built fs) (scaler_file_path app_file c) = true.
Proof.
  unfold startup, load_models_and_scalers, both_loaded. cbn [fst snd MODELS SCALERS].
  destruct (raises (built fs)) eqn:Hraises.
  { rewrite (load_phase_raised _ Hraises). cbn [fst snd].
    unfold Py.has_key. rewrite !lookup_empty. split; [discriminate|].
    by intros [? _]. }
  rewrite (load_phase_contents _ Hraises). cbn [fst snd].
  unfold loading_raises in Hraises.
  apply orb_false_elim in Hraises as [Hraises H4].
  apply orb_false_elim in Hraises as [Hraises H3].
  apply orb_false_elim in Hraises as [H1 H2].
  destruct c; cbn [key_of model_path scaler_file_path].
  - rewrite <- (loaded_iff_present _ _ _ H1), <- (loaded_iff_present _ _ _ H2).
    rewrite andb_true_iff, !has_key_true.
    destruct (built fs !! soil_model_path app_file ≫= load_model false),
      (built fs !! soil_scaler_path app_file ≫= joblib_load),
      (built fs !! weather_model_path app_file ≫= load_model true),
      (built fs !! weather_scaler_path app_file ≫= joblib_load);
      rewrite ?lookup_insert_eq, ?lookup_insert_ne, ?lookup_empty by done;
      unfold id; rewrite ?lookup_insert_eq, ?lookup_insert_ne, ?lookup_empty by done;
      intuition auto.
  - rewrite <- (loaded_iff_present _ _ _ H3), <- (loaded_iff_present _ _ _ H4).
    rewrite andb_true_iff, !has_key_true.
    destruct (built fs !! soil_model_path app_file ≫= load_model false),
      (built fs !! soil_scaler_path app_file ≫= joblib_load),
      (built fs !! weather_model_path app_file ≫= load_model true),
      (built fs !! weather_scaler_path app_file ≫= joblib_load);
      rewrite ?lookup_insert_eq, ?lookup_insert_ne, ?lookup_empty by done;
      unfold id; rewrite ?lookup_insert_eq, ?lookup_insert_ne, ?lookup_empty by done;
      intuition auto.
Qed.

(** X24. After start-up the health check reports a capability as loaded
    exactly when no load raised and the model file of the capability was
    there once the build steps had run, whether or not its scaler file
    was. *)
Theorem health_after_startup (c : capability) fs :
  reported (index (served fs)) (flag_of c) = Some (JBool true)
  <-> raises (built fs) = false
      /\ path_exists (built fs) (model_path app_file c) = true.
Proof.
  rewrite reported_flag.
  unfold startup, load_models_and_scalers. cbn [fst snd MODELS].
  destruct (raises (built fs)) eqn:Hraises.
  { rewrite (load_phase_raised _ Hraises). cbn [fst].
    unfold Py.has_key. rewrite lookup_empty. split; [discriminate|].
    by intros [? _]. }
  rewrite (load_phase_contents _ Hraises). cbn [fst].
  unfold loading_raises in Hraises.
  apply orb_false_elim in Hraises as [Hraises H4].
  apply orb_false_elim in Hraises as [Hraises H3].
  apply orb_false_elim in Hraises as [H1 H2].
  assert (Hflag : forall b : bool, Some (JBool b) = Some (JBool true) <-> b = true).
  { intros b. split; [by intros [= ->] | by intros ->]. }
  rewrite Hflag. clear Hflag.
  destruct c; cbn [key_of model_path].
  - rewrite <- (loaded_iff_present _ _ _ H1), has_key_true.
    destruct (built fs !! soil_model_path app_file ≫= load_model false),
      (built fs !! weather_model_path app_file ≫= load_model true);
      rewrite ?lookup_insert_eq, ?lookup_insert_ne, ?lookup_empty by done;
      unfold id; rewrite ?lookup_insert_eq, ?lookup_insert_ne, ?lookup_empty by done;
      intuition auto.
  - rewrite <- (loaded_iff_present _ _ _ H3), has_key_true.
    destruct (built fs !! soil_model_path app_file ≫= load_model false),
      (built fs !! weather_model_path app_file ≫= load_model true);
      rewrite ?lookup_insert_eq, ?lookup_insert_ne, ?lookup_empty by done;
      unfold id; rewrite ?lookup_insert_eq, ?lookup_insert_ne, ?lookup_empty by done;
      intuition auto.
Qed.

(** X11. When no load raises, each returned mapping holds, under ["soil"]
    and ["weather"], what the loader made of the file at the corresponding
    path, no entry for a file that is missing, and no other key. *)
Theorem load_success_contents fs :
  raises (built fs) = false ->
  let models := fst (fst (loader fs)) in
  let scalers := snd (fst (loader fs)) in
  models !! "soil" = built fs !! soil_model_path app_file ≫= load_model false
  /\ models !! "weather" = built fs !! weather_model_path app_file ≫= load_model true
  /\ scalers !! "soil" = built fs !! soil_scaler_path app_file ≫= joblib_load
  /\ scalers !! "weather" = built fs !! weather_scaler_path app_file ≫= joblib_load
  /\ forall k, k <> "soil" -> k <> "weather" ->
       models !! k = None /\ scalers !! k = None.
Proof.
  intros Hraises. unfold load_models_and_scalers. cbn [fst snd].
  rewrite (load_phase_contents _ Hraises). cbn [fst snd].
  destruct (built fs !! soil_model_path app_file ≫= load_model false),
    (built fs !! soil_scaler_path app_file ≫= joblib_load),
    (built fs !! weather_model_path app_file ≫= load_model true),
    (built fs !! weather_scaler_path app_file ≫= joblib_load);
    repeat split; intros; by simplify_map_eq.
Qed.

(** X12. After start-up a capability has both its model and its scaler
    loaded exactly when no load raised and both of its files were there
    once the build steps had run. *)
Theorem capability_served_iff (c : capability) fs :
  both_loaded c (served fs) = true
  <-> raises (built fs) = false
      /\ path_exists (built fs) (model_path app_file c) = true
      /\ path_exists (built fs) (scaler_file_path app_file c) = true.
Proof. apply startup_loaded_iff. Qed.

(** X13. If the model file or the scaler file of a capability is missing
    once the build steps have run, every request to its endpoint is
    answered 500 with the "not loaded" message, and nothing is invoked. *)
Theorem missing_file_disables_endpoint (c : capability) fs request_json :
  path_exists (built fs) (model_path app_file c) = false
  \/ path_exists (built fs) (scaler_file_path app_file c) = false ->
  handler np_array np_reshape np_item00 c (served fs) request_json
  = (error_response (unavailable c) 500, []).
Proof.
  intros Hmissing. apply unavailable_answer.
  destruct (both_loaded c (served fs)) eqn:Hloaded; [|reflexivity].
  apply startup_loaded_iff in Hloaded as (_ & Hmodel & Hscaler).
  destruct Hmissing; congruence.
Qed.

(** X14. A load that raises disables both capabilities: every request to
    either prediction endpoint is then answered 500 "not loaded", also when
    the files of that capability are sound. *)
Theorem load_failure_disables_both (c : capability) fs request_json :
  raises (built fs) = true ->
  handler np_array np_reshape np_item00 c (served fs) request_json
  = (error_response (unavailable c) 500, []).
Proof.
  intros Hraises. apply unavailable_answer.
  destruct (both_loaded c (served fs)) eqn:Hloaded; [|reflexivity].
  apply startup_loaded_iff in Hloaded as (Hno & _). congruence.
Qed.

(** A build step that is not needed, or whose script is missing, does
    nothing. *)
Lemma build_step_idle (needed : gmap string content -> bool) script name fs :
  needed fs = false \/ path_exists fs script = false ->
  build_step import_module_from_file needed script name fs = (Some tt, fs).
Proof.
  unfold build_step, bind, get_state, attempt.
  destruct (needed fs); [|reflexivity].
  intros [? | Hscript]; [discriminate|]. by rewrite Hscript.
Qed.

(** X15. When, for each of the three build steps, the artifacts it guards
    are there or its script is missing, the build phase runs no script and
    leaves the file system as it was. *)
Theorem build_phase_idle fs :
  preprocess_needed app_file fs = false
  \/ path_exists fs (preprocess_path app_file) = false ->
  soil_training_needed app_file fs = false
  \/ path_exists fs (train_soil_path app_file) = false ->
  weather_training_needed app_file fs = false
  \/ path_exists fs (train_weather_path app_file) = false ->
  build_phase app_file import_module_from_file fs = (Some tt, fs).
Proof.
  intros H1 H2 H3. unfold build_phase.
  rewrite (bind_ok _ _ _ _ _ (build_step_idle _ _ _ _ H1)).
  rewrite (bind_ok _ _ _ _ _ (build_step_idle _ _ _ _ H2)).
  by rewrite (build_step_idle _ _ _ _ H3).
Qed.

End LoaderOutcomes.

(** * Where the loader looks *)

Section PathLayout.

Implicit Types (x n root dir file : string).

Lemma head_no_sep n : Path.no_sep n = true -> Path.head n = "".
Proof.
  induction n as [|c n IH]; [reflexivity|]. simpl.
  intros [Hc Hn]%andb_prop. rewrite (IH Hn). simpl.
  by destruct (Path.is_sep c).
Qed.

Lemma head_append x n :
  Path.no_sep n = true -> Path.head (x ++ "/" ++ n) = (x ++ "/")%string.
Proof.
  intros Hn. induction x as [|c x IH].
  - change ("" ++ "/" ++ n)%string with (String "/" n). simpl.
    by rewrite (head_no_sep n Hn).
  - change (String c x ++ "/" ++ n)%string with (String c (x ++ "/" ++ n)).
    simpl. rewrite IH. by rewrite (nonempty_append x "/").
Qed.

Lemma all_sep_append_sep x : Path.all_sep (x ++ "/") = Path.all_sep x.
Proof.
  induction x as [|c x IH]; [reflexivity|].
  change (String c x ++ "/")%string with (String c (x ++ "/")). simpl. by rewrite IH.
Qed.

Lemma not_all_sep x :
  x <> "" -> Path.ends_with_sep x = false -> Path.all_sep x = false.
Proof.
  induction x as [|c x IH]; [done|]. intros _. simpl.
  destruct x as [|c' x'].
  - intros ->. reflexivity.
  - intros Hend. rewrite IH by done. apply andb_false_r.
Qed.

Lemma rstrip_append_sep x :
  x <> "" -> Path.ends_with_sep x = false -> Path.rstrip_sep (x ++ "/") = x.
Proof.
  induction x as [|c x IH]; [done|]. intros _ Hend.
  change (String c x ++ "/")%string with (String c (x ++ "/")).
  cbn [Path.rstrip_sep].
  change (Path.all_sep (String c (x ++ "/")))
    with (Path.all_sep (String c x ++ "/")).
  rewrite all_sep_append_sep, (not_all_sep (String c x)) by done.
  destruct x as [|c' x']; [reflexivity|].
  f_equal. by apply IH.
Qed.

(** The directory of [x/n], for a directory [x] written without a final
    separator and a single component [n]. *)
Lemma dirname_append x n :
  x <> "" -> Path.ends_with_sep x = false -> Path.no_sep n = true ->
  Path.dirname (x ++ "/" ++ n) = x.
Proof.
  intros Hx Hend Hn. unfold Path.dirname. rewrite (head_append x n Hn).
  rewrite (nonempty_append x "/") by done.
  rewrite all_sep_append_sep, (not_all_sep x) by done.
  cbn [negb andb]. by apply rstrip_append_sep.
Qed.

Lemma no_sep_ends n : Path.no_sep n = true -> Path.ends_with_sep n = false.
Proof.
  induction n as [|c n IH]; [reflexivity|]. simpl.
  intros [Hc Hn]%andb_prop. destruct n; [by apply negb_true_iff | by apply IH].
Qed.

Lemma no_sep_starts n : Path.no_sep n = true -> Path.starts_with_sep n = false.
Proof.
  destruct n as [|c n]; [reflexivity|]. simpl.
  intros [Hc _]%andb_prop. by apply negb_true_iff.
Qed.

(** Joining single components to a directory written without a final
    separator. *)
Lemma join2_rooted x n :
  x <> "" -> Path.ends_with_sep x = false -> Path.starts_with_sep n = false ->
  Path.join2 x n = (x ++ "/" ++ n)%string.
Proof.
  intros Hx Hend Hn. unfold Path.join2. rewrite Hn, Hend.
  destruct x; [done | reflexivity].
Qed.

Lemma join_one_rooted x n :
  x <> "" -> Path.ends_with_sep x = false -> Path.starts_with_sep n = false ->
  Path.join x [n] = (x ++ "/" ++ n)%string.
Proof. apply join2_rooted. Qed.

Lemma join_three_rooted x a b c :
  x <> "" -> Path.ends_with_sep x = false ->
  a <> "" -> b <> "" ->
  Path.starts_with_sep a = false -> Path.ends_with_sep a = false ->
  Path.starts_with_sep b = false -> Path.ends_with_sep b = false ->
  Path.starts_with_sep c = false ->
  Path.join x [a; b; c] = (x ++ "/" ++ a ++ "/" ++ b ++ "/" ++ c)%string.
Proof.
  intros Hx Hxe Ha Hb Has Hae Hbs Hbe Hcs. unfold Path.join. simpl.
  rewrite (join2_rooted x a) by done.
  rewrite <- (append_assoc_s x "/" a).
  rewrite (join2_after (x ++ "/") a b) by done.
  rewrite (join2_after (x ++ "/") (a ++ "/" ++ b) c).
  - by rewrite !append_assoc_s.
  - destruct a; [done | discriminate].
  - rewrite (ends_with_sep_append a ("/" ++ b)) by discriminate.
    by rewrite (ends_with_sep_append "/" b).
  - exact Hcs.
Qed.

(** X16. For [app.py] at [root/dir/file], with [root] a non-empty directory
    written without a final separator and [dir] a single non-empty
    component, the loader takes [root] as the project root and looks for
    the scripts and artifacts at the fixed places below it; the soil scaler
    is looked for under [Soil_analysis], the soil model under
    [Soil_Analysis]. *)
Theorem deployment_layout root dir file :
  root <> "" -> Path.ends_with_sep root = false ->
  dir <> "" -> Path.no_sep dir = true -> Path.no_sep file = true ->
  let app_file := (root ++ "/" ++ dir ++ "/" ++ file)%string in
  scripts_dir app_file = (root ++ "/" ++ dir)%string
  /\ project_root app_file = root
  /\ preprocess_path app_file = (root ++ "/" ++ dir ++ "/preprocess.py")%string
  /\ soil_model_path app_file
     = (root ++ "/Models/Soil_Analysis/soil_tabular_model.h5")%string
  /\ soil_scaler_path app_file = (root ++ "/Models/Soil_analysis/scaler.pkl")%string
  /\ weather_model_path app_file
     = (root ++ "/Models/Weather_Forecast/weather_model.h5")%string
  /\ weather_scaler_path app_file
     = (root ++ "/Models/Weather_Forecast/scaler.pkl")%string
  /\ train_soil_path app_file
     = (root ++ "/Models/Soil_analysis/train_soil_model.py")%string
  /\ train_weather_path app_file
     = (root ++ "/Models/Weather_Forecast/train_weather_model.py")%string
  /\ soil_training_csv app_file = (root ++ "/data/soil/X_train_scaled.csv")%string.
Proof.
  intros Hroot Hend Hdir Hdir_sep Hfile app_file.
  assert (Hscripts : scripts_dir app_file = (root ++ "/" ++ dir)%string).
  { unfold scripts_dir, current_dir, app_file.
    rewrite <- (append_assoc_s "/" dir), <- (append_assoc_s root).
    apply dirname_append; [|  |exact Hfile].
    - destruct root; [done | discriminate].
    - rewrite (ends_with_sep_append root ("/" ++ dir)) by discriminate.
      rewrite (ends_with_sep_append "/" dir) by done. by apply no_sep_ends. }
  assert (Hproject : project_root app_file = root).
  { unfold project_root. fold (scripts_dir app_file). rewrite Hscripts.
    by apply dirname_append. }
  split; [exact Hscripts|]. split; [exact Hproject|].
  split.
  { unfold preprocess_path. rewrite Hscripts.
    rewrite join_one_rooted; [by rewrite !append_assoc_s| | |reflexivity].
    - destruct root; [done | discriminate].
    - rewrite (ends_with_sep_append root ("/" ++ dir)) by discriminate.
      rewrite (ends_with_sep_append "/" dir) by done. by apply no_sep_ends. }
  unfold soil_model_path, soil_scaler_path, weather_model_path,
    weather_scaler_path, train_soil_path, train_weather_path, soil_training_csv.
  rewrite Hproject.
  repeat split; by apply join_three_rooted.
Qed.

End PathLayout.

(** * Runs of the preprocessing script that fail, and the loader's trigger *)

Section PreprocessOutcomes.

Context {content frame fitted rng : Type}.
Variable read_csv : content -> option frame.
Variable drop_columns : list string -> frame -> option frame.
Variable column : string -> frame -> option frame.
Variable DataFrame_columns_of : frame -> frame -> option frame.
Variable DataFrame : frame -> option frame.
Variable to_csv : frame -> content.
Variable RandomState : Z -> rng.
Variable shuffle_split :
  frame -> frame -> Q -> rng -> option (frame * frame * frame * frame).
Variable ambient : rng.
Variable fit : frame -> option fitted.
Variable transform_with : fitted -> frame -> option frame.
Variable joblib_dump : fitted -> content.
Variable write_error :
  gmap string content -> string -> content -> option (option content).
Variable cwd : string.

Local Abbreviation script :=
  (preprocess read_csv drop_columns column DataFrame_columns_of DataFrame to_csv
     RandomState shuffle_split ambient fit transform_with joblib_dump
     write_error cwd).
Local Abbreviation run :=
  (run_preprocess read_csv drop_columns column DataFrame_columns_of DataFrame to_csv
     RandomState shuffle_split ambient fit transform_with joblib_dump
     write_error cwd).
Local Abbreviation kept :=
  (script_keeps read_csv drop_columns column DataFrame_columns_of DataFrame to_csv
     RandomState shuffle_split ambient fit transform_with joblib_dump
     write_error cwd).

Local Ltac next_step :=
  match goal with
  | |- context [match ?x with Some _ => _ | None => _ end] =>
      destruct x eqn:?
  | |- context [let (_, _) := ?p in _] => destruct p
  end; cbn -[Path.resolve write_file].

(** A run that returns has written the five files. *)
Lemma run_cases (fs : gmap string content) o s' :
  run fs = (o, s') ->
  (o = Some tt
   /\ exists c1 c2 c3 c4 c5, files s' = written cwd c1 c2 c3 c4 c5 fs)
  \/ o = None.
Proof.
  unfold run_preprocess, preprocess, load_and_split, read_file, split,
    scaler_fit_transform, scaler_transform, save, log.
  unfold bind, lift, modify, get_state, ret, raise.
  cbn -[Path.resolve write_file].
  repeat next_step;
    intros [= <- <-]; cbn -[Path.resolve write_file];
    first
      [ left; split; [reflexivity|]; by eexists _, _, _, _, _
      | by right ].
Qed.

(** X17. Whether it returns or raises, the script leaves its input CSV as
    it was: none of the five files it writes is the file it reads. *)
Theorem script_never_touches_input (fs : gmap string content) :
  files (snd (run fs)) !! Path.resolve cwd csv_path
  = fs !! Path.resolve cwd csv_path.
Proof. apply (kept (PState fs [])), csv_path_not_output. Qed.

(** X18. Without the input CSV the script raises at its first statement:
    nothing is split, fitted or written, and the file system is as it
    was. *)
Theorem missing_input_is_fatal (fs : gmap string content) :
  fs !! Path.resolve cwd csv_path = None ->
  run fs = (None, PState fs [OpRead (Path.resolve cwd csv_path)]).
Proof.
  intros Hmissing.
  unfold run_preprocess, preprocess, load_and_split, read_file, log.
  unfold bind, lift, modify, get_state, ret, raise.
  cbn -[Path.resolve]. by rewrite Hmissing.
Qed.

(** A write that raises ends the run; the files written before it stay. *)
Local Ltac write_raises W :=
  rewrite ?(bind_raised _ _ _ _ (save_raises _ _ _ _ _ _ _ W)),
    ?(save_raises _ _ _ _ _ _ _ W);
  cbn [fst snd files];
  split; [split; discriminate|].

Local Ltac scaler_unchanged :=
  let Hchanged := fresh "Hchanged" in
  intros Hchanged; exfalso; apply Hchanged;
  match goal with
  | |- context [match ?e with Some _ => _ | None => _ end] => destruct e
  end;
  unfold write_file; by rewrite ?lookup_insert_ne by distinct_paths.

(** X19. The fitted scaler is the last thing written.  In a run whose
    library calls answer, whatever becomes of the writes: the run returns
    exactly when the five writes complete, one after the other; and if it
    leaves at the scaler's path something else than was there before,
    even an incomplete file, then the four CSV files hold their complete
    contents. *)
Theorem scaler_is_written_last text data X y X_train X_test y_train y_test sc
    Xtr Xte df1 df2 df3 df4 (fs : gmap string content) :
  fs !! Path.resolve cwd csv_path = Some text ->
  read_csv text = Some data ->
  drop_columns ["Output"] data = Some X ->
  column "Output" data = Some y ->
  train_test_split RandomState shuffle_split ambient X y (2 # 10) (Some 42%Z)
  = Some (X_train, X_test, y_train, y_test) ->
  fit X_train = Some sc ->
  transform_with sc X_train = Some Xtr ->
  transform_with sc X_test = Some Xte ->
  DataFrame_columns_of Xtr X = Some df1 ->
  DataFrame_columns_of Xte X = Some df2 ->
  DataFrame y_train = Some df3 ->
  DataFrame y_test = Some df4 ->
  (fst (run fs) = Some tt
   <-> writes_complete write_error fs
         (script_writes cwd (to_csv df1) (to_csv df2) (to_csv df3) (to_csv df4)
            (joblib_dump sc)) = true)
  /\ (files (snd (run fs)) !! Path.resolve cwd scaler_path
      <> fs !! Path.resolve cwd scaler_path ->
      files (snd (run fs)) !! Path.resolve cwd X_train_path = Some (to_csv df1)
      /\ files (snd (run fs)) !! Path.resolve cwd X_test_path = Some (to_csv df2)
      /\ files (snd (run fs)) !! Path.resolve cwd y_train_path = Some (to_csv df3)
      /\ files (snd (run fs)) !! Path.resolve cwd y_test_path = Some (to_csv df4)).
Proof.
  intros Hfile Hread HX Hy Hsplit Hfit Htr Hte H1 H2 H3 H4.
  unfold run_preprocess.
  rewrite (script_until_first_write _ _ _ _ _ _ _ _ _ _ _ _ _ _
             _ _ _ _ _ _ _ _ _ _ _ _ _
             Hfile Hread HX Hy Hsplit Hfit Htr Hte H1).
  unfold script_writes. cbn [writes_complete].
  destruct (write_error fs _ _) as [e|] eqn:W1; [write_raises W1; scaler_unchanged|].
  rewrite (bind_ok _ _ _ _ _ (save_ok _ _ _ _ _ _ W1)).
  rewrite (bind_ok _ _ _ _ _ (lift_ok _ _ _ H2)).
  destruct (write_error (write_file _ _ fs) _ _) as [e|] eqn:W2;
    [write_raises W2; scaler_unchanged|].
  rewrite (bind_ok _ _ _ _ _ (save_ok _ _ _ _ _ _ W2)).
  rewrite (bind_ok _ _ _ _ _ (lift_ok _ _ _ H3)).
  destruct (write_error (write_file _ _ (write_file _ _ fs)) _ _) as [e|] eqn:W3;
    [write_raises W3; scaler_unchanged|].
  rewrite (bind_ok _ _ _ _ _ (save_ok _ _ _ _ _ _ W3)).
  rewrite (bind_ok _ _ _ _ _ (lift_ok _ _ _ H4)).
  destruct (write_error (write_file _ _ (write_file _ _ (write_file _ _ fs))) _ _)
    as [e|] eqn:W4; [write_raises W4; scaler_unchanged|].
  rewrite (bind_ok _ _ _ _ _ (save_ok _ _ _ _ _ _ W4)).
  destruct (write_error
              (write_file _ _ (write_file _ _ (write_file _ _ (write_file _ _ fs))))
              _ _) as [e|] eqn:W5.
  - write_raises W5. intros _.
    destruct e; cbv beta iota; unfold write_file;
      repeat split;
      repeat first
        [ apply lookup_insert_eq
        | rewrite lookup_insert_ne by distinct_paths ].
  - rewrite (save_ok _ _ _ _ _ _ W5). cbn [fst snd files].
    split; [by split|]. intros _.
    unfold write_file;
      repeat split;
      repeat first
        [ apply lookup_insert_eq
        | rewrite lookup_insert_ne by distinct_paths ].
Qed.

(** X20. After a run that returns, each of the five output paths holds a
    file. *)
Theorem successful_run_writes_all_outputs (fs : gmap string content) p :
  fst (run fs) = Some tt ->
  p ∈ output_paths cwd ->
  path_exists (files (snd (run fs))) p = true.
Proof.
  destruct (run fs) as [o s'] eqn:Hrun. cbn [fst snd]. intros -> Hp.
  apply run_cases in Hrun as [[_ (c1 & c2 & c3 & c4 & c5 & ->)] | ?];
    [|discriminate].
  destruct (written_contents cwd c1 c2 c3 c4 c5 fs) as (H1 & H2 & H3 & H4 & H5).
  unfold output_paths in Hp. cbn [fmap list_fmap] in Hp.
  unfold path_exists, Py.has_key.
  repeat (apply elem_of_cons in Hp as [-> | Hp]);
    [by rewrite H1 | by rewrite H2 | by rewrite H3 | by rewrite H4 | by rewrite H5
    | by apply elem_of_nil in Hp].
Qed.

Lemma soil_training_csv_shape app_file :
  exists pre, soil_training_csv app_file
              = (pre ++ "data/soil/X_train_scaled.csv")%string.
Proof.
  unfold soil_training_csv.
  destruct (join_three (project_root app_file) "data" "soil" "X_train_scaled.csv")
    as [pre Hpre]; try done.
  by exists pre.
Qed.

Lemma soil_training_csv_not_output app_file :
  soil_training_csv app_file ∉ output_paths cwd.
Proof.
  destruct (soil_training_csv_shape app_file) as [pre ->].
  unfold output_paths. cbn [fmap list_fmap].
  assert (Hdiffer : forall a a' b b',
    String.length a' = String.length b' -> a' <> b' ->
    Path.starts_with_sep (b ++ b') = false ->
    (pre ++ (a ++ a'))%string <> Path.resolve cwd (b ++ b')).
  { intros a a' b b' Hlen Hne Hrel.
    destruct (resolve_relative cwd _ Hrel) as [pre' ->].
    by apply differ_by_suffix. }
  apply not_elem_of_cons; split;
    [by apply (Hdiffer "" "data/soil/X_train_scaled.csv"
                 "" "Data/Soil/X_train_scaled.csv")|].
  apply not_elem_of_cons; split;
    [by apply (Hdiffer "data/soil/X_t" "rain_scaled.csv"
                 "Data/Soil/X_" "test_scaled.csv")|].
  apply not_elem_of_cons; split;
    [by apply (Hdiffer "data/soil/X_train_scale" "d.csv" "Data/Soil/y_trai" "n.csv")|].
  apply not_elem_of_cons; split;
    [by apply (Hdiffer "data/soil/X_train_scale" "d.csv" "Data/Soil/y_tes" "t.csv")|].
  apply not_elem_of_cons; split; [|apply not_elem_of_nil].
  by apply (Hdiffer "data/soil/X_train_scaled" ".csv"
              "Models/Soil_Analysis/scaler" ".pkl").
Qed.

(** X21. A run of the script does not change the answer of the test that
    makes the loader run it: the loader tests [Models/Soil_analysis/scaler.pkl]
    and [data/soil/X_train_scaled.csv], the script writes
    [Models/Soil_Analysis/scaler.pkl] and [Data/Soil/X_train_scaled.csv],
    so where preprocessing was needed before the run it is still needed
    after it. *)
Theorem preprocess_trigger_unchanged_by_script app_file (fs : gmap string content) :
  preprocess_needed app_file (files (snd (run fs))) = preprocess_needed app_file fs.
Proof.
  unfold preprocess_needed, path_exists, Py.has_key, run_preprocess.
  rewrite (kept (PState fs []) (soil_scaler_path app_file)
             (soil_scaler_path_not_output cwd app_file)).
  by rewrite (kept (PState fs []) (soil_training_csv app_file)
                (soil_training_csv_not_output app_file)).
Qed.

End PreprocessOutcomes.

(** * The further theorems on concrete requests and files *)

(** X3 at the array [[1, 2, 3]]. *)
Lemma weather_success_needs_three_values_witness :
  exists data arr input rows sc scaled scaled' m pred p,
    weather_data (JArr [JNum 1; JNum 2; JNum 3]) = Some data
    /\ Py.len data = Some 3%nat
    /\ Demo.np_array data = Some arr
    /\ Demo.np_reshape [1; 1; 3]%Z arr = Some input
    /\ Demo.np_reshape [-1; 3]%Z input = Some rows
    /\ SCALERS Demo.loaded !! "weather" = Some sc
    /\ transform sc rows = Some scaled
    /\ Demo.np_reshape [1; 1; 3]%Z scaled = Some scaled'
    /\ MODELS Demo.loaded !! "weather" = Some m
    /\ predict m scaled' = Some pred
    /\ Demo.np_item00 pred = Some p
    /\ Response (jsonify [("predicted_temperature", JFloat Demo.twenty_one)]) 200
       = Response (jsonify [("predicted_temperature", JFloat p)]) 200
    /\ [EvTransform "weather"; EvPredict "weather"]
       = [EvTransform "weather"; EvPredict "weather"].
Proof.
  apply (weather_success_needs_three_values Demo.np_array Demo.np_reshape
           Demo.np_item00 Demo.loaded (JArr [JNum 1; JNum 2; JNum 3]));
    [by vm_compute | reflexivity].
Defined.

(** X4 at a body that is a string. *)
Lemma weather_client_error_iff_witness :
  both_loaded Weather Demo.loaded = true
  /\ status (fst (Demo.weather Demo.loaded (JStr "abc"))) = 400%Z.
Proof.
  split; [reflexivity|].
  apply (proj2 (weather_client_error_iff Demo.np_array Demo.np_reshape
                  Demo.np_item00 Demo.loaded (JStr "abc") eq_refl)).
  exact I.
Defined.

(** X5 at the object [{}], which has no ["data"]. *)
Lemma weather_unsized_payload_witness :
  weather_data (JObj ∅) = Some JNull
  /\ Py.len JNull = None
  /\ Demo.weather Demo.loaded (JObj ∅)
     = (error_response "Internal server error during weather prediction" 500, []).
Proof.
  split; [reflexivity|]. split; [reflexivity|].
  apply (weather_unsized_payload_is_server_error Demo.np_array Demo.np_reshape
           Demo.np_item00 Demo.loaded (JObj ∅) JNull);
    reflexivity.
Defined.

(** X6 at the complete request, and at the list of the twelve names. *)
Lemma soil_success_needs_complete_object_witness :
  (exists d, JObj Demo.soil_request = JObj d
             /\ forall k, k ∈ feature_names -> is_Some (d !! k))
  /\ Demo.soil Demo.loaded (JArr (JStr <$> feature_names))
     = (error_response "Internal server error during soil analysis" 500, []).
Proof.
  split.
  - apply (proj1 (soil_success_needs_complete_object Demo.np_array Demo.np_item00
                    Demo.loaded (JObj Demo.soil_request))
             (Response
                (jsonify [("fertility_status", JStr "High");
                          ("confidence", JFloat Demo.seventy_five)])
                200)
             [EvTransform "soil"; EvPredict "soil"]);
      [by vm_compute | reflexivity].
  - apply (proj2 (soil_success_needs_complete_object Demo.np_array Demo.np_item00
                    Demo.loaded (JArr (JStr <$> feature_names))));
      [discriminate | reflexivity | by vm_compute].
Defined.

(** X7 at an object that holds ["N"] only. *)
Lemma soil_object_client_error_iff_witness :
  both_loaded Soil Demo.loaded = true
  /\ status (fst (Demo.soil Demo.loaded (JObj {[ "N" := JNum 1 ]}))) = 400%Z.
Proof.
  split; [reflexivity|].
  apply (proj2 (soil_object_client_error_iff Demo.np_array Demo.np_item00
                  Demo.loaded {[ "N" := JNum 1 ]} eq_refl)).
  exists "P". split; [repeat constructor | reflexivity].
Defined.

(** X8 at the empty array. *)
Lemma soil_falsy_body_witness :
  Py.truthy (JArr []) = false
  /\ Demo.soil Demo.loaded (JArr [])
     = (error_response "No soil data provided" 400, []).
Proof.
  split; [reflexivity|].
  apply (soil_falsy_body_is_client_error Demo.np_array Demo.np_item00
           Demo.loaded (JArr [])); reflexivity.
Defined.

(** X9 with a scaler that raises. *)
Lemma soil_library_failure_witness :
  Demo.soil Demo.scaler_down (JObj Demo.soil_request)
  = (error_response "Internal server error during soil analysis" 500,
     [EvTransform "soil"]).
Proof.
  assert (Hvalues :
    Forall2 (fun k v => Demo.soil_request !! k = Some v)
      feature_names (JNum <$> Demo.soil_values)).
  { repeat constructor. }
  apply (proj1 (soil_library_failure_is_server_error Demo.np_array Demo.np_item00
                  Demo.scaler_down Demo.soil_request (JNum <$> Demo.soil_values)
                  Demo.failing_scaler (Demo.constant_model Demo.three_quarters)
                  Demo.soil_array eq_refl eq_refl Hvalues eq_refl)).
  reflexivity.
Defined.

(** X10 at the complete request, the model answering the float32 0.75. *)
Lemma soil_status_matches_confidence_witness :
  exists fertility_status confidence c,
    Demo.soil Demo.loaded (JObj Demo.soil_request)
    = (Response
         (jsonify [("fertility_status", JStr fertility_status);
                   ("confidence", JFloat confidence)])
         200,
       [EvTransform "soil"; EvPredict "soil"])
    /\ F32.value confidence = Some c
    /\ (fertility_status = "High" <-> (50 < c)%Q)
    /\ (fertility_status = "Low" <-> (c <= 50)%Q).
Proof.
  assert (Hvalues :
    Forall2 (fun k v => Demo.soil_request !! k = Some v)
      feature_names (JNum <$> Demo.soil_values)).
  { repeat constructor. }
  assert (Hrange : (0 <= F32.dyadic 12582912 (-24) <= 1)%Q).
  { split; vm_compute; discriminate. }
  exact (soil_status_matches_confidence Demo.np_array Demo.np_item00 Demo.loaded
           Demo.soil_request (JNum <$> Demo.soil_values) Demo.identity_scaler
           (Demo.constant_model Demo.three_quarters) Demo.soil_array
           Demo.soil_array [Demo.three_quarters] Demo.three_quarters
           (F32.dyadic 12582912 (-24))
           eq_refl eq_refl Hvalues eq_refl eq_refl eq_refl eq_refl
           eq_refl eq_refl Hrange).
Defined.

(** X22 at two objects that hold the same array and differ elsewhere. *)
Lemma weather_object_reads_only_data_witness :
  Demo.weather Demo.loaded (JObj {[ "data" := JArr [JNum 1; JNum 2; JNum 3] ]})
  = Demo.weather Demo.loaded
      (JObj (<[ "station" := JStr "north" ]>
               {[ "data" := JArr [JNum 1; JNum 2; JNum 3] ]})).
Proof.
  apply (weather_object_reads_only_data Demo.np_array Demo.np_reshape
           Demo.np_item00 Demo.loaded).
  reflexivity.
Defined.

(** X11 on the file system that holds the soil files only. *)
Lemma load_success_contents_witness :
  loading_raises Demo.app_file Demo.load_model Demo.joblib_load
    (snd (build_phase Demo.app_file Demo.no_script Demo.soil_files)) = false
  /\ fst (fst (load_models_and_scalers Demo.app_file Demo.load_model
                 Demo.joblib_load Demo.no_script Demo.soil_files)) !! "soil"
     = snd (build_phase Demo.app_file Demo.no_script Demo.soil_files)
         !! soil_model_path Demo.app_file ≫= Demo.load_model false.
Proof.
  split; [reflexivity|].
  apply (proj1 (load_success_contents Demo.app_file Demo.load_model
                  Demo.joblib_load Demo.no_script Demo.soil_files eq_refl)).
Defined.

(** X13: without the weather model file, the weather endpoint is off. *)
Lemma missing_file_disables_endpoint_witness :
  path_exists (snd (build_phase Demo.app_file Demo.no_script Demo.soil_files))
    (model_path Demo.app_file Weather) = false
  /\ handler Demo.np_array Demo.np_reshape Demo.np_item00 Weather
       (startup Demo.app_file Demo.load_model Demo.joblib_load Demo.no_script
          Demo.soil_files)
       (JArr [JNum 1; JNum 2; JNum 3])
     = (error_response (unavailable Weather) 500, []).
Proof.
  split; [reflexivity|].
  apply (missing_file_disables_endpoint Demo.app_file Demo.load_model
           Demo.joblib_load Demo.no_script Demo.np_array Demo.np_reshape
           Demo.np_item00 Weather Demo.soil_files).
  left. reflexivity.
Defined.

(** X14: a weather model that does not load takes the soil endpoint down
    with it. *)
Lemma load_failure_disables_both_witness :
  loading_raises Demo.app_file Demo.load_model Demo.joblib_load
    (snd (build_phase Demo.app_file Demo.no_script Demo.broken_weather)) = true
  /\ handler Demo.np_array Demo.np_reshape Demo.np_item00 Soil
       (startup Demo.app_file Demo.load_model Demo.joblib_load Demo.no_script
          Demo.broken_weather)
       (JObj Demo.soil_request)
     = (error_response (unavailable Soil) 500, []).
Proof.
  split; [reflexivity|].
  apply (load_failure_disables_both Demo.app_file Demo.load_model
           Demo.joblib_load Demo.no_script Demo.np_array Demo.np_reshape
           Demo.np_item00 Soil Demo.broken_weather).
  reflexivity.
Defined.

(** X15 on a file system without any of the three scripts. *)
Lemma build_phase_idle_witness :
  build_phase Demo.app_file Demo.no_script Demo.soil_files
  = (Some tt, Demo.soil_files).
Proof.
  apply (build_phase_idle Demo.app_file Demo.no_script Demo.soil_files);
    right; reflexivity.
Defined.

(** X16 for [/srv/KrishiMitra/Scripts/app.py]. *)
Lemma deployment_layout_witness :
  project_root "/srv/KrishiMitra/Scripts/app.py" = "/srv/KrishiMitra"
  /\ soil_scaler_path "/srv/KrishiMitra/Scripts/app.py"
     = "/srv/KrishiMitra/Models/Soil_analysis/scaler.pkl".
Proof.
  destruct (deployment_layout "/srv/KrishiMitra" "Scripts" "app.py")
    as (_ & Hroot & _ & _ & Hscaler & _); try done.
Defined.

(** X18 on the empty file system. *)
Lemma missing_input_witness :
  Demo.preprocess_run ∅
  = (None, PState ∅ [OpRead "/srv/KrishiMitra/Data/Soil/soil_data.csv"]).
Proof.
  apply (missing_input_is_fatal Demo.read_csv Demo.drop_columns Demo.column
           Demo.DataFrame_columns_of Demo.DataFrame Demo.to_csv
           Demo.RandomState Demo.shuffle_split Demo.ambient
           Demo.fit Demo.transform_with Demo.joblib_dump
           Demo.no_write_error Demo.cwd ∅).
  reflexivity.
Defined.

(** X19 on the four-entry data set, the write of the scaler raising after
    it has emptied its file: the run raises, an empty scaler file is left,
    and the four CSV files are complete. *)
Lemma scaler_is_written_last_witness :
  fst (Demo.interrupted_run Demo.soil_data) = None
  /\ files (snd (Demo.interrupted_run Demo.soil_data))
       !! "/srv/KrishiMitra/Models/Soil_Analysis/scaler.pkl" = Some []
  /\ files (snd (Demo.interrupted_run Demo.soil_data))
       !! Path.resolve Demo.cwd X_train_path = Some (Demo.to_csv [-6; -5]%Z)
  /\ files (snd (Demo.interrupted_run Demo.soil_data))
       !! Path.resolve Demo.cwd X_test_path = Some (Demo.to_csv [-4]%Z)
  /\ files (snd (Demo.interrupted_run Demo.soil_data))
       !! Path.resolve Demo.cwd y_train_path = Some (Demo.to_csv [1]%Z)
  /\ files (snd (Demo.interrupted_run Demo.soil_data))
       !! Path.resolve Demo.cwd y_test_path = Some (Demo.to_csv [1]%Z).
Proof.
  split; [reflexivity|]. split; [reflexivity|].
  apply (proj2 (scaler_is_written_last Demo.read_csv Demo.drop_columns Demo.column
                  Demo.DataFrame_columns_of Demo.DataFrame Demo.to_csv
                  Demo.RandomState Demo.shuffle_split Demo.ambient
                  Demo.fit Demo.transform_with Demo.joblib_dump
                  Demo.truncated_dump Demo.cwd
                  [1; 5; 6; 7]%Z [1; 5; 6; 7]%Z [5; 6; 7]%Z [1]%Z
                  [5; 6]%Z [7]%Z [1]%Z [1]%Z 11%Z
                  [-6; -5]%Z [-4]%Z [-6; -5]%Z [-4]%Z [1]%Z [1]%Z
                  Demo.soil_data
                  eq_refl eq_refl eq_refl eq_refl eq_refl eq_refl
                  eq_refl eq_refl eq_refl eq_refl eq_refl eq_refl)).
  discriminate.
Defined.

(** X20 on the four-entry data set, at the scaler's path. *)
Lemma successful_run_witness :
  fst (Demo.preprocess_run Demo.soil_data) = Some tt
  /\ path_exists (files (snd (Demo.preprocess_run Demo.soil_data)))
       "/srv/KrishiMitra/Models/Soil_Analysis/scaler.pkl"
     = true.
Proof.
  split; [reflexivity|].
  assert (Hout : Path.resolve Demo.cwd scaler_path ∈ output_paths Demo.cwd).
  { unfold output_paths. cbn [fmap list_fmap]. repeat constructor. }
  exact (successful_run_writes_all_outputs Demo.read_csv Demo.drop_columns
           Demo.column Demo.DataFrame_columns_of Demo.DataFrame Demo.to_csv
           Demo.RandomState Demo.shuffle_split Demo.ambient
           Demo.fit Demo.transform_with Demo.joblib_dump
           Demo.no_write_error Demo.cwd Demo.soil_data
           (Path.resolve Demo.cwd scaler_path) eq_refl Hout).
Defined.

(** X23 with only the weather model loaded. *)
Lemma health_false_witness :
  reported (index Demo.weather_only) (flag_of Soil) = Some (JBool false)
  /\ Demo.soil Demo.weather_only (JObj Demo.soil_request)
     = (error_response (unavailable Soil) 500, []).
Proof.
  split; [reflexivity|].
  apply (health_false_means_unavailable Demo.np_array Demo.np_reshape
           Demo.np_item00 Soil Demo.weather_only (JObj Demo.soil_request)).
  reflexivity.
Defined.
